(** * IntelliGrid: the usage aggregation and prediction handlers

    A shallow embedding of the three computational handlers of
    [src/supabase/functions/server/index.tsx]:

    - [POST /calculate-bill]  (lines 183-219)
    - [GET  /energy-tips]     (lines 222-275)
    - [GET  /predict-usage]   (lines 278-334)

    Modelling conventions.

    - A handler is modelled from the point where the bearer token has been
      accepted and [kv.getByPrefix] has returned the user's entries: the
      fetched array [usageData] is an argument, in the order the store
      returned it.  The wall clock is an argument too: [clock i] is the
      time value that [new Date()] yields in iteration [i] of the
      projection loop.
    - JavaScript numbers are modelled twice.  In the first part of the
      file they are exact rationals [Q], compared with [==]: the
      arithmetic that the code is written to approximate.  The properties
      stated there are those of the computation before rounding: the
      branch taken on a short or an empty list, the tips that a reply
      holds, the sign of a divisor, the dates of a forecast.  No division
      of that model has a zero divisor (see [predict_denominator_positive]).
      In the module [Binary64] the numbers are IEEE-754 doubles, with
      [NaN], the infinities and the two zeros; every property whose truth
      depends on rounding, on the order of the additions or on a
      comparison between computed numbers is stated there.
    - In the first part [Date] follows the V8 runtime of the Deno edge
      function with a UTC local time zone, for the date-only ISO form
      [YYYY-MM-DD], which the client's date input produces; any other
      string is taken as an invalid date (time value [NaN], modelled as
      [None]).  In [Binary64] the date parser and the sort of the runtime
      are parameters of the handlers, and what a property needs from them
      is a hypothesis of that property.
    - The object [applianceUsage] is a list of own properties in creation
      order; [Object.keys] lists array-index keys first, in ascending
      numeric order, then the other keys in creation order.  Appliance
      labels that name a member inherited from [Object.prototype]
      (such as [constructor] or [toString]) are outside the model: in
      [Binary64] the object is [None] for them. *)

From Stdlib Require Import ZArith QArith Qround Qpower Lia Lqa.
From Stdlib Require Import Floats Uint63.
From Stdlib Require Import List String Ascii Bool Permutation Sorted.
Import ListNotations.

Local Open Scope Z_scope.
#[local] Set Warnings "-inexact-float".

(** ** The JavaScript runtime used by the handlers *)

Module JS.

(** [Math.max(a, b)] on two numbers. *)
Definition Math_max (a b : Q) : Q :=
  if Qle_bool a b then b else a.

(** [Math.round(x)]: the nearest integer, a tie going up. *)
Definition Math_round (x : Q) : Q :=
  inject_Z (Qfloor (x + (1 # 2))).

(** JSON values as built by [c.json]. *)
#[local] Unset Elimination Schemes.
Inductive json : Type :=
| JNull
| JNum (q : Q)
| JStr (s : string)
| JArr (items : list json)
| JObj (fields : list (string * json)).
#[local] Set Elimination Schemes.

(** A reply of the Hono context: [c.json(body)] has status 200. *)
Record Response : Type := mkResponse { status : Z; body : json }.

Definition c_json (b : json) : Response := mkResponse 200 b.

(** Property lookup on a JSON object; [None] is [undefined]. *)
Fixpoint assoc {A : Type} (k : string) (l : list (string * A)) : option A :=
  match l with
  | [] => None
  | (k', v) :: r => if String.eqb k k' then Some v else assoc k r
  end.

Definition field (k : string) (j : json) : option json :=
  match j with
  | JObj fs => assoc k fs
  | _ => None
  end.

End JS.

(** ** Calendar dates *)

Module JSDate.

Definition msPerDay : Z := 86400000.

(** Days since 1970-01-01 of a proleptic Gregorian date.  The day of the
    month may exceed the length of the month and then runs into the next
    one, as [MakeDay] does. *)
Definition days_from_civil (y m d : Z) : Z :=
  let y' := if m <=? 2 then y - 1 else y in
  let era := y' / 400 in
  let yoe := y' - era * 400 in
  let mp := if 2 <? m then m - 3 else m + 9 in
  let doy := (153 * mp + 2) / 5 + d - 1 in
  let doe := yoe * 365 + yoe / 4 - yoe / 100 + doy in
  era * 146097 + doe - 719468.

(** Year, month (1-12) and day of a day number. *)
Definition civil_from_days (z : Z) : Z * Z * Z :=
  let z' := z + 719468 in
  let era := z' / 146097 in
  let doe := z' - era * 146097 in
  let yoe := (doe - doe / 1460 + doe / 36524 - doe / 146096) / 365 in
  let y := yoe + era * 400 in
  let doy := doe - (365 * yoe + yoe / 4 - yoe / 100) in
  let mp := (5 * doy + 2) / 153 in
  let d := doy - (153 * mp + 2) / 5 + 1 in
  let m := if mp <? 10 then mp + 3 else mp - 9 in
  ((if m <=? 2 then y + 1 else y), m, d).

Definition digit_of (c : ascii) : option Z :=
  let n := Z.of_N (N_of_ascii c) in
  if (48 <=? n) && (n <=? 57) then Some (n - 48) else None.

Fixpoint digits_value (acc : Z) (l : list ascii) : option Z :=
  match l with
  | [] => Some acc
  | c :: r =>
      match digit_of c with
      | Some d => digits_value (10 * acc + d) r
      | None => None
      end
  end.

(** The fields of a [YYYY-MM-DD] string. *)
Definition parse_ymd (s : string) : option (Z * Z * Z) :=
  match list_ascii_of_string s with
  | [y1; y2; y3; y4; "-"%char; m1; m2; "-"%char; d1; d2] =>
      match digits_value 0 [y1; y2; y3; y4],
            digits_value 0 [m1; m2],
            digits_value 0 [d1; d2] with
      | Some y, Some m, Some d => Some (y, m, d)
      | _, _, _ => None
      end
  | _ => None
  end.

(** [new Date(s).getTime()]: milliseconds since the epoch at UTC
    midnight, or [None] for an invalid date. *)
Definition getTime (s : string) : option Z :=
  match parse_ymd s with
  | Some (y, m, d) =>
      if (1 <=? m) && (m <=? 12) && (1 <=? d) && (d <=? 31)
      then Some (msPerDay * days_from_civil y m d)
      else None
  | None => None
  end.

Definition Day (t : Z) : Z := t / msPerDay.

(** [getMonth()] is zero-based. *)
Definition MonthFromTime (t : Z) : Z :=
  let '(_, m, _) := civil_from_days (Day t) in m - 1.

Definition YearFromTime (t : Z) : Z :=
  let '(y, _, _) := civil_from_days (Day t) in y.

Definition getMonth (s : string) : option Z :=
  option_map MonthFromTime (getTime s).

Definition getFullYear (s : string) : option Z :=
  option_map YearFromTime (getTime s).

(** Decimal digits of [n], exactly [w] of them. *)
Fixpoint pad (w : nat) (n : Z) : string :=
  match w with
  | O => EmptyString
  | S w' =>
      pad w' (n / 10)
      ++ String (ascii_of_N (Z.to_N (48 + n mod 10))) EmptyString
  end.

(** Years 0 to 9999 print with four digits, the others with a sign and
    six digits. *)
Definition year_string (y : Z) : string :=
  if (0 <=? y) && (y <=? 9999) then pad 4 y
  else if y <? 0 then "-" ++ pad 6 (- y)
  else "+" ++ pad 6 y.

(** [t.toISOString().split('T')[0]] *)
Definition toISODate (t : Z) : string :=
  let '(y, m, d) := civil_from_days (Day t) in
  year_string y ++ "-" ++ pad 2 m ++ "-" ++ pad 2 d.

(** [date.setDate(date.getDate() + i)] under a UTC local time zone. *)
Definition addDays (t : Z) (i : Z) : Z := t + i * msPerDay.

End JSDate.

(** ** Stored usage entries *)

(** The record written by [POST /energy-usage] (lines 142-149). *)
Record UsageEntry : Type := mkEntry {
  userId : string;
  date : string;
  usage : Q;
  appliance : string;
  cost : Q;
  timestamp : string
}.

(** ** [POST /calculate-bill] *)

(** The request and the month filter, on which the calendar properties
    rest; the sums and the product of the bill are in
    [Binary64.CalculateBill]. *)

Module CalculateBill.
Import JS.

(** The request body; [ratePerKwh] is [None] when the key is absent. *)
Record Request : Type := mkRequest {
  month : Z;
  year : Z;
  ratePerKwh : option Q
}.

(** The filter predicate: [getMonth() === month - 1 && getFullYear() === year].
    An invalid date yields [NaN] twice and is never kept. *)
Definition in_month (r : Request) (entry : UsageEntry) : bool :=
  match JSDate.getMonth (date entry), JSDate.getFullYear (date entry) with
  | Some m, Some y => (m =? month r - 1) && (y =? year r)
  | _, _ => false
  end.

End CalculateBill.

(** ** Plain objects used as maps *)

Module JSObject.
Import JS.

(** Own properties in creation order. *)
Definition t : Type := list (string * Q).

Definition get (o : t) (k : string) : option Q := assoc k o.

(** [o[k] = v]: an existing property keeps its place. *)
Fixpoint set (o : t) (k : string) (v : Q) : t :=
  match o with
  | [] => [(k, v)]
  | (k', v') :: r =>
      if String.eqb k k' then (k', v) :: r else (k', v') :: set r k v
  end.

(** An array index is a canonical decimal numeral below [2^32 - 1]. *)
Definition array_index (k : string) : option Z :=
  match list_ascii_of_string k with
  | [] => None
  | c :: r =>
      match JSDate.digits_value 0 (c :: r) with
      | Some n =>
          if (Ascii.eqb c "0" && negb (Nat.eqb (List.length r) 0))%bool
          then None
          else if n <? 2 ^ 32 - 1 then Some n else None
      | None => None
      end
  end.

Fixpoint insert_index (n : Z) (k : string) (l : list (Z * string))
  : list (Z * string) :=
  match l with
  | [] => [(n, k)]
  | (n', k') :: r =>
      if n <? n' then (n, k) :: (n', k') :: r
      else (n', k') :: insert_index n k r
  end.

Definition index_keys (o : t) : list (Z * string) :=
  fold_right
    (fun p acc =>
       match array_index (fst p) with
       | Some n => insert_index n (fst p) acc
       | None => acc
       end)
    [] o.

Definition string_keys (o : t) : list string :=
  filter (fun k => match array_index k with None => true | Some _ => false end)
         (map fst o).

(** [Object.keys(o)] *)
Definition keys (o : t) : list string :=
  map snd (index_keys o) ++ string_keys o.

End JSObject.

(** ** [GET /energy-tips] *)

Module EnergyTips.
Import JS.

Definition tip_led : string :=
  "Your daily usage is quite high. Consider switching to LED bulbs to reduce consumption by up to 80%.".
Definition tip_unplug : string :=
  "Unplug electronics when not in use to avoid phantom power drain.".
Definition tip_energy_star : string :=
  "Consider upgrading to ENERGY STAR certified appliances for significant savings.".
Definition tip_thermostat : string :=
  "Set your thermostat 2-3 degrees higher in summer and lower in winter.".
Definition tip_hvac : string :=
  "HVAC is your biggest energy consumer. Regular maintenance can improve efficiency by 15%.".
Definition tip_water_heater : string :=
  "Lower your water heater temperature to 120°F to save energy without sacrificing comfort.".
Definition tip_solar : string :=
  "Great job maintaining low energy usage! Consider solar panels for even greater savings.".
Definition tip_power_strips : string :=
  "Smart power strips can help eliminate standby power consumption.".

Definition totalUsage (usageData : list UsageEntry) : Q :=
  fold_left (fun sum entry => sum + usage entry)%Q usageData 0%Q.

Definition avgDailyUsage (usageData : list UsageEntry) : Q :=
  (totalUsage usageData
   / Math_max (inject_Z (Z.of_nat (List.length usageData))) 1)%Q.

(** [x > y] on numbers. *)
Definition gt (x y : Q) : bool := negb (Qle_bool x y).

(** [x > y] where either side may be [undefined]: the comparison is then
    made with [NaN] and is false. *)
Definition gt_undef (x y : option Q) : bool :=
  match x, y with
  | Some a, Some b => gt a b
  | _, _ => false
  end.

(** [v || 0] for a property read: [undefined] and [0] are falsy. *)
Definition or_zero (v : option Q) : Q :=
  match v with
  | Some q => if Qeq_bool q 0 then 0%Q else q
  | None => 0%Q
  end.

Definition applianceUsage (usageData : list UsageEntry) : JSObject.t :=
  fold_left
    (fun acc entry =>
       JSObject.set acc (appliance entry)
         (or_zero (JSObject.get acc (appliance entry)) + usage entry)%Q)
    usageData [].

(** The callback of the reduce over the keys:
    [applianceUsage[a] > applianceUsage[b] ? a : b]. *)
Definition pick (o : JSObject.t) (a b : string) : string :=
  if gt_undef (JSObject.get o a) (JSObject.get o b) then a else b.

Definition topAppliance (usageData : list UsageEntry) : string :=
  let o := applianceUsage usageData in
  fold_left (pick o) (JSObject.keys o) "General"%string.

(** The array [tips] after each block of pushes. *)
Definition after_high (usageData : list UsageEntry) (tips : list string)
  : list string :=
  if gt (avgDailyUsage usageData) 30 then tips ++ [tip_led; tip_unplug]
  else tips.

Definition after_very_high (usageData : list UsageEntry) (tips : list string)
  : list string :=
  if gt (avgDailyUsage usageData) 50
  then tips ++ [tip_energy_star; tip_thermostat]
  else tips.

Definition after_appliance (usageData : list UsageEntry) (tips : list string)
  : list string :=
  if String.eqb (topAppliance usageData) "HVAC" then tips ++ [tip_hvac]
  else if String.eqb (topAppliance usageData) "Water Heater"
       then tips ++ [tip_water_heater]
       else tips.

Definition after_default (tips : list string) : list string :=
  if Nat.eqb (List.length tips) 0 then tips ++ [tip_solar; tip_power_strips]
  else tips.

(** The array when control reaches the test [tips.length === 0]. *)
Definition ladder (usageData : list UsageEntry) : list string :=
  after_appliance usageData
    (after_very_high usageData
       (after_high usageData [])).

Definition tips (usageData : list UsageEntry) : list string :=
  after_default (ladder usageData).

Definition handler (usageData : list UsageEntry) : Response :=
  c_json (JObj [ ("tips", JArr (map JStr (tips usageData))) ]%string).

End EnergyTips.

(** ** [GET /predict-usage] *)

Module PredictUsage.
Import JS.

(** The comparator [new Date(a.date).getTime() - new Date(b.date).getTime()];
    [None] is [NaN], which [sort] reads as [+0]. *)
Definition compare_dates (a b : UsageEntry) : option Z :=
  match JSDate.getTime (date a), JSDate.getTime (date b) with
  | Some ta, Some tb => Some (ta - tb)
  | _, _ => None
  end.

(** [a] sorts strictly before [b]. *)
Definition before (a b : UsageEntry) : bool :=
  match compare_dates a b with
  | Some v => v <? 0
  | None => false
  end.

(** [Array.prototype.sort] is stable: an element is placed in front of the
    later elements it does not sort after.  When some date is invalid the
    comparator is inconsistent and the language leaves the resulting order
    to the engine; the model then fixes one such order. *)
Fixpoint insert (x : UsageEntry) (l : list UsageEntry) : list UsageEntry :=
  match l with
  | [] => [x]
  | y :: r => if before y x then y :: insert x r else x :: y :: r
  end.

Definition sort (l : list UsageEntry) : list UsageEntry :=
  fold_right insert [] l.

(** [l.slice(-k)] *)
Definition slice_last (k : nat) (l : list UsageEntry) : list UsageEntry :=
  skipn (List.length l - k) l.

Definition sortedData (usageData : list UsageEntry) : list UsageEntry :=
  slice_last 30 (sort usageData).

(** The four accumulators of the [forEach] loop. *)
Record Sums : Type := mkSums { sumX : Q; sumY : Q; sumXY : Q; sumXX : Q }.

Definition step (s : Sums) (index : nat) (entry : UsageEntry) : Sums :=
  let x := inject_Z (Z.of_nat index) in
  let y := usage entry in
  mkSums (sumX s + x) (sumY s + y) (sumXY s + x * y) (sumXX s + x * x).

Fixpoint forEach (index : nat) (l : list UsageEntry) (s : Sums) : Sums :=
  match l with
  | [] => s
  | entry :: r => forEach (S index) r (step s index entry)
  end.

Definition sums (data : list UsageEntry) : Sums :=
  forEach 0 data (mkSums 0 0 0 0).

Definition n (data : list UsageEntry) : Q :=
  inject_Z (Z.of_nat (List.length data)).

Definition denominator (data : list UsageEntry) : Q :=
  let s := sums data in
  n data * sumXX s - sumX s * sumX s.

Definition slope (data : list UsageEntry) : Q :=
  let s := sums data in
  (n data * sumXY s - sumX s * sumY s) / (n data * sumXX s - sumX s * sumX s).

Definition intercept (data : list UsageEntry) : Q :=
  let s := sums data in
  (sumY s - slope data * sumX s) / n data.

(** One element of [predictions]. *)
Record Prediction : Type := mkPrediction {
  pdate : string;
  predictedUsage : Q
}.

(** The body of the [for] loop at counter [i]. *)
Definition predict_day (clock : Z -> Z) (data : list UsageEntry) (i : Z)
  : Prediction :=
  let predictedUsage :=
    Math_max 0 (slope data * (n data + inject_Z i - 1) + intercept data) in
  let date := JSDate.addDays (clock i) i in
  mkPrediction (JSDate.toISODate date)
               (Math_round (predictedUsage * 100) / 100).

(** [for (let i = 1; i <= 7; i++)]: [fuel] bounds the iterations. *)
Fixpoint loop (fuel : nat) (clock : Z -> Z) (data : list UsageEntry) (i : Z)
  (predictions : list Prediction) : list Prediction :=
  match fuel with
  | O => predictions
  | S fuel' =>
      if i <=? 7
      then loop fuel' clock data (i + 1)
             (predictions ++ [predict_day clock data i])
      else predictions
  end.

Definition predictions (clock : Z -> Z) (usageData : list UsageEntry)
  : list Prediction :=
  loop 8 clock (sortedData usageData) 1 [].

Definition prediction_json (p : Prediction) : json :=
  JObj [ ("date", JStr (pdate p));
         ("predictedUsage", JNum (predictedUsage p)) ]%string.

Definition insufficient_message : string :=
  "Need at least 7 days of data for prediction".

Definition handler (clock : Z -> Z) (usageData : list UsageEntry)
  : Response :=
  if (List.length usageData <? 7)%nat
  then c_json (JObj [ ("prediction", JNull);
                      ("message", JStr insufficient_message) ]%string)
  else c_json (JObj [ ("predictions",
                       JArr (map prediction_json (predictions clock usageData))) ]%string).

End PredictUsage.


(** ** Notions used to state the properties *)

Module Spec.

(** The sum of the [usage] fields of a list of entries. *)
Definition sum_usage (l : list UsageEntry) : Q :=
  fold_right (fun entry acc => usage entry + acc)%Q 0%Q l.

(** [Sigma f k] is the sum of [f i] for [i] from [0] to [k - 1]. *)
Fixpoint Sigma (f : nat -> Q) (k : nat) : Q :=
  match k with
  | O => 0%Q
  | S k' => (Sigma f k' + f k')%Q
  end.

(** The regressor is the rank of an entry, the response its usage. *)
Definition x_at (i : nat) : Q := inject_Z (Z.of_nat i).

Definition y_at (data : list UsageEntry) (i : nat) : Q :=
  match nth_error data i with
  | Some entry => usage entry
  | None => 0%Q
  end.

(** Ordinary least squares of usage against rank, in the closed form of
    the specification. *)
Definition ols_slope (data : list UsageEntry) : Q :=
  let k := List.length data in
  let n := inject_Z (Z.of_nat k) in
  ((n * Sigma (fun i => x_at i * y_at data i) k
    - Sigma x_at k * Sigma (y_at data) k)
   / (n * Sigma (fun i => x_at i * x_at i) k - Sigma x_at k * Sigma x_at k))%Q.

Definition ols_intercept (data : list UsageEntry) : Q :=
  let k := List.length data in
  let n := inject_Z (Z.of_nat k) in
  ((Sigma (y_at data) k - ols_slope data * Sigma x_at k) / n)%Q.

(** [a] is not dated after [b]; an invalid date is comparable to anything. *)
Definition not_after (a b : UsageEntry) : Prop :=
  match JSDate.getTime (date a), JSDate.getTime (date b) with
  | Some ta, Some tb => ta <= tb
  | _, _ => True
  end.

(** [entry] has a valid date with time value [t]. *)
Definition dated (t : Z) (entry : UsageEntry) : bool :=
  match JSDate.getTime (date entry) with
  | Some t' => t' =? t
  | None => false
  end.

Definition valid_date (entry : UsageEntry) : Prop :=
  exists t, JSDate.getTime (date entry) = Some t.

(** Both dates are valid and [a] is not dated after [b]. *)
Definition date_le (a b : UsageEntry) : Prop :=
  exists ta tb,
    JSDate.getTime (date a) = Some ta /\
    JSDate.getTime (date b) = Some tb /\ ta <= tb.

(** [r] is [x] rounded to two decimal places, a tie going up. *)
Definition rounded_2dp (x r : Q) : Prop :=
  (exists k : Z, r == inject_Z k / 100)%Q /\
  (x - (1 # 200) < r)%Q /\ (r <= x + (1 # 200))%Q.

(** The tips of the two usage thresholds. *)
Definition threshold_tips (avg : Q) : list string :=
  (if EnergyTips.gt avg 30
   then [EnergyTips.tip_led; EnergyTips.tip_unplug] else [])
  ++ (if EnergyTips.gt avg 50
      then [EnergyTips.tip_energy_star; EnergyTips.tip_thermostat] else []).

(** The tip of the dominant category. *)
Definition appliance_tip (top : string) : list string :=
  if String.eqb top "HVAC" then [EnergyTips.tip_hvac]
  else if String.eqb top "Water Heater" then [EnergyTips.tip_water_heater]
  else [].

Definition generic_tips : list string :=
  [EnergyTips.tip_solar; EnergyTips.tip_power_strips].

End Spec.

(** ** Sample data *)

Module Sample.
Local Open Scope string_scope.

Definition entry (d : string) (u : Q) (a : string) : UsageEntry :=
  mkEntry "user-1" d u a 0 "2024-01-01T00:00:00.000Z".

(** Seven days with usage 1 to 7, stored out of date order. *)
Definition week : list UsageEntry :=
  [ entry "2024-01-03" 3 "HVAC"; entry "2024-01-01" 1 "General";
    entry "2024-01-02" 2 "Lighting"; entry "2024-01-07" 7 "HVAC";
    entry "2024-01-05" 5 "General"; entry "2024-01-04" 4 "HVAC";
    entry "2024-01-06" 6 "Electronics" ].

(** A steep decline: the trend line is below zero a week later. *)
Definition decline : list UsageEntry :=
  [ entry "2024-01-01" 60 "General"; entry "2024-01-02" 50 "General";
    entry "2024-01-03" 40 "General"; entry "2024-01-04" 30 "General";
    entry "2024-01-05" 20 "General"; entry "2024-01-06" 10 "General";
    entry "2024-01-07" 0 "General" ].

Definition march : list UsageEntry :=
  [ entry "2024-03-01" 10 "General"; entry "2024-03-15" 5 "General" ].

Definition march_2024 : CalculateBill.Request :=
  CalculateBill.mkRequest 3 2024 (Some (12 # 100)).

(** Two categories with the same summed usage. *)
Definition tie : list UsageEntry :=
  [ entry "2024-01-01" 10 "HVAC"; entry "2024-01-02" 10 "Lighting" ].

(** Every reading of the clock is 2024-03-01T00:00:00Z. *)
Definition clock (i : Z) : Z := 1709251200000.

End Sample.

(** * The other handlers of the server, and the client code around them

    The remaining handlers of [index.tsx] that compute or keep state
    (one-time codes, goals, alert settings, the listing and the CSV
    export), the bearer token that the authenticated handlers read, and
    the computations of the client components that display the results
    (EnergyDashboard, QuickStats, EnergyGoals).

    - A handler that uses the store takes the store and returns it with
      its reply; requests are taken one at a time.
    - Request fields that are interpolated into a key are strings or
      missing; the other fields are arbitrary JavaScript values.
    - The handlers [signup] and [chat] delegate to external services and,
      like the [parseFloat] calls of [POST /energy-usage], are not
      modelled. *)

(** ** JavaScript values in request bodies and replies *)

Module JSValue.

#[local] Unset Elimination Schemes.
Inductive value : Type :=
| VUndefined
| VNull
| VBool (b : bool)
| VNum (q : Q)
| VStr (s : string)
| VArr (items : list value)
| VObj (fields : list (string * value)).
#[local] Set Elimination Schemes.

(** [ToBoolean]: [undefined], [null], [false], [0] and the empty string are
    falsy. *)
Definition truthy (v : value) : bool :=
  match v with
  | VUndefined | VNull => false
  | VBool b => b
  | VNum q => negb (Qeq_bool q 0)
  | VStr s => negb (String.eqb s "")
  | VArr _ | VObj _ => true
  end.

(** [a || b] *)
Definition or_else (a b : value) : value := if truthy a then a else b.

(** [v === undefined] *)
Definition is_undefined (v : value) : bool :=
  match v with
  | VUndefined => true
  | _ => false
  end.

(** A string field of a request body; [None] is a missing field.  The
    fields that are interpolated into a store key are strings whenever
    they are present, as every client of the endpoints sends them. *)
Definition truthy_string (s : option string) : option string :=
  match s with
  | Some x => if String.eqb x "" then None else Some x
  | None => None
  end.

(** The reply built by [c.json(payload, code)]; [JSON.stringify] leaves out
    the keys whose value is [undefined]. *)
Record Reply : Type := mkReply { code : Z; payload : value }.

Definition c_json (p : value) : Reply := mkReply 200 p.

Definition error (msg : string) (status : Z) : Reply :=
  mkReply status (VObj [("error"%string, VStr msg)]).

(** Property read on a reply, [VUndefined] when absent. *)
Definition prop (k : string) (v : value) : value :=
  match v with
  | VObj fs =>
      match JS.assoc k fs with
      | Some x => x
      | None => VUndefined
      end
  | _ => VUndefined
  end.

End JSValue.

(** ** Strings *)

Module JSString.

Definition digit_char (d : Z) : ascii := ascii_of_N (Z.to_N (48 + d)).

(** The decimal digits of a non-negative integer, most significant first,
    in front of [acc]. *)
Fixpoint digits (fuel : nat) (n : Z) (acc : string) : string :=
  match fuel with
  | O => acc
  | S fuel' =>
      let acc' := String (digit_char (n mod 10)) acc in
      if n <? 10 then acc' else digits fuel' (n / 10) acc'
  end.

(** [n.toString()] for an integer [n]. *)
Definition Int_toString (n : Z) : string :=
  if n <? 0
  then String "-" (digits (S (Z.to_nat (Z.log2 (- n)))) (- n) EmptyString)
  else digits (S (Z.to_nat (Z.log2 n))) n EmptyString.

(** [s.split(sep)] for a separator of one character. *)
Fixpoint split (sep : ascii) (s : string) : list string :=
  match s with
  | EmptyString => [EmptyString]
  | String c r =>
      if Ascii.eqb c sep then EmptyString :: split sep r
      else match split sep r with
           | h :: t => String c h :: t
           | [] => [String c EmptyString]
           end
  end.

(** [l.join(sep)] on an array of strings. *)
Fixpoint join (sep : string) (l : list string) : string :=
  match l with
  | [] => EmptyString
  | [x] => x
  | x :: r => x ++ sep ++ join sep r
  end.

(** The character [c] occurs in [s]. *)
Fixpoint contains (c : ascii) (s : string) : bool :=
  match s with
  | EmptyString => false
  | String c' r => Ascii.eqb c' c || contains c r
  end.

Definition comma : ascii := ","%char.
Definition space : ascii := " "%char.
Definition newline : ascii := ascii_of_N 10.

End JSString.

(** ** Time stamps *)

Module JSTime.

(** [new Date(t).toISOString()]; the year prints as [JSDate.year_string]
    has it. *)
Definition toISOString (t : Z) : string :=
  let ms := t mod JSDate.msPerDay in
  JSDate.toISODate t ++ "T"
  ++ JSDate.pad 2 (ms / 3600000) ++ ":"
  ++ JSDate.pad 2 ((ms / 60000) mod 60) ++ ":"
  ++ JSDate.pad 2 ((ms / 1000) mod 60) ++ "."
  ++ JSDate.pad 3 (ms mod 1000) ++ "Z".

End JSTime.

(** ** The key-value store *)

Module KV.
Import JSValue.

(** The objects that the handlers of [index.tsx] write: the one-time code
    of line 49, the goal of line 396 and the alert settings of line 430. *)
Inductive record : Type :=
| OtpRecord (otp : string) (expiresAt : Z) (email : string)
| GoalRecord (userId : string) (goal : value) (updatedAt : string)
| AlertRecord (userId : string) (enabled threshold : value)
              (updatedAt : string).

(** Modelled from the spec: the store of [kv_store.tsx], which is not
    among the sources.  The specification describes it as a generic
    key-value store of records read and written by key; it is modelled as
    a finite map from keys to records.  The handlers are taken one request
    at a time. *)
Definition t : Type := list (string * record).

(** Modelled from the spec: [kv.get(key)] of the missing [kv_store.tsx],
    the record of a key, [None] when the key has none. *)
Definition get (kv : t) (k : string) : option record := JS.assoc k kv.

(** Modelled from the spec: [kv.set(key, value)] of the missing
    [kv_store.tsx], which gives the key this record. *)
Fixpoint set (kv : t) (k : string) (v : record) : t :=
  match kv with
  | [] => [(k, v)]
  | (k', v') :: r =>
      if String.eqb k k' then (k, v) :: r else (k', v') :: set r k v
  end.

(** Modelled from the spec: [kv.del(key)] of the missing [kv_store.tsx],
    after which the key has no record. *)
Fixpoint del (kv : t) (k : string) : t :=
  match kv with
  | [] => []
  | (k', v') :: r =>
      if String.eqb k k' then del r k else (k', v') :: del r k
  end.

(** Property reads on a stored record; a property the record does not
    have reads as [undefined]. *)
Definition otp_of (r : record) : option string :=
  match r with
  | OtpRecord otp _ _ => Some otp
  | _ => None
  end.

Definition expiresAt_of (r : record) : option Z :=
  match r with
  | OtpRecord _ expiresAt _ => Some expiresAt
  | _ => None
  end.

Definition goal_of (r : record) : value :=
  match r with
  | GoalRecord _ goal _ => goal
  | _ => VUndefined
  end.

Definition enabled_of (r : record) : value :=
  match r with
  | AlertRecord _ enabled _ _ => enabled
  | _ => VUndefined
  end.

Definition threshold_of (r : record) : value :=
  match r with
  | AlertRecord _ _ threshold _ => threshold
  | _ => VUndefined
  end.

End KV.

(** ** [POST /generate-otp] and [POST /verify-otp] (lines 36-103) *)

Module Otp.
Import JSValue.

(** The key [`otp:${email}`]. *)
Definition key (email : string) : string := "otp:" ++ email.

(** [Math.floor(100000 + Math.random() * 900000).toString()], where
    [random] is the value of [Math.random()]. *)
Definition generate_code (random : Q) : string :=
  JSString.Int_toString (Qfloor (100000 + random * 900000)).

(** The handler of [generate-otp]: the reply and the store afterwards.
    [now] is the value of [Date.now()]. *)
Definition generate (kv : KV.t) (random : Q) (now : Z) (email : option string)
  : Reply * KV.t :=
  match truthy_string email with
  | None => (error "Email is required" 400, kv)
  | Some e =>
      let otp := generate_code random in
      let expiresAt := now + 10 * 60 * 1000 in
      (c_json (VObj [ ("success", VBool true);
                      ("message", VStr "OTP generated successfully");
                      ("otp", VStr otp);
                      ("note", VStr "In production, this would be sent via email")
                    ]%string),
       KV.set kv (key e) (KV.OtpRecord otp expiresAt e))
  end.

(** [Date.now() > storedData.expiresAt]; against [undefined] the
    comparison is false. *)
Definition is_expired (now : Z) (storedData : KV.record) : bool :=
  match KV.expiresAt_of storedData with
  | Some expiresAt => expiresAt <? now
  | None => false
  end.

(** [storedData.otp !== otp] *)
Definition otp_differs (storedData : KV.record) (otp : string) : bool :=
  match KV.otp_of storedData with
  | Some stored => negb (String.eqb stored otp)
  | None => true
  end.

(** The handler of [verify-otp]. *)
Definition verify (kv : KV.t) (now : Z) (email otp : option string)
  : Reply * KV.t :=
  match truthy_string email, truthy_string otp with
  | Some e, Some o =>
      match KV.get kv (key e) with
      | None => (error "OTP not found or expired" 400, kv)
      | Some storedData =>
          if is_expired now storedData
          then (error "OTP has expired" 400, KV.del kv (key e))
          else if otp_differs storedData o
               then (error "Invalid OTP" 400, kv)
               else (c_json (VObj [ ("success", VBool true);
                                    ("message",
                                     VStr "OTP verified successfully")
                                  ]%string),
                     KV.del kv (key e))
      end
  | _, _ => (error "Email and OTP are required" 400, kv)
  end.

End Otp.

(** ** [GET /energy-goal/:userId] and [POST /energy-goal] (lines 375-403) *)

Module EnergyGoal.
Import JSValue.

Definition key (userId : string) : string := "goal:" ++ userId.

(** [goalData?.goal] *)
Definition stored_goal (goalData : option KV.record) : value :=
  match goalData with
  | Some r => KV.goal_of r
  | None => VUndefined
  end.

Definition get_handler (kv : KV.t) (userId : string) : Reply :=
  let goalData := KV.get kv (key userId) in
  c_json (VObj [ ("goal"%string, or_else (stored_goal goalData) (VNum 0)) ]).

(** [now] is the time value of [new Date()]. *)
Definition post_handler (kv : KV.t) (now : Z) (userId : option string)
  (goal : value) : Reply * KV.t :=
  match truthy_string userId with
  | Some u =>
      if truthy goal
      then (c_json (VObj [ ("success", VBool true); ("goal", goal) ]%string),
            KV.set kv (key u) (KV.GoalRecord u goal (JSTime.toISOString now)))
      else (error "Missing required fields" 400, kv)
  | None => (error "Missing required fields" 400, kv)
  end.

End EnergyGoal.

(** ** [GET /alert-settings/:userId] and [POST /alert-settings]
    (lines 406-442) *)

Module AlertSettings.
Import JSValue.

Definition key (userId : string) : string := "alerts:" ++ userId.

Definition stored_enabled (alertData : option KV.record) : value :=
  match alertData with
  | Some r => KV.enabled_of r
  | None => VUndefined
  end.

Definition stored_threshold (alertData : option KV.record) : value :=
  match alertData with
  | Some r => KV.threshold_of r
  | None => VUndefined
  end.

Definition get_handler (kv : KV.t) (userId : string) : Reply :=
  let alertData := KV.get kv (key userId) in
  c_json (VObj [ ("enabled", or_else (stored_enabled alertData) (VBool false));
                 ("threshold", or_else (stored_threshold alertData) (VNum 50))
               ]%string).

Definition post_handler (kv : KV.t) (now : Z) (userId : option string)
  (enabled threshold : value) : Reply * KV.t :=
  match truthy_string userId with
  | Some u =>
      if is_undefined threshold
      then (error "Missing required fields" 400, kv)
      else (c_json (VObj [ ("success", VBool true);
                           ("enabled", enabled);
                           ("threshold", threshold) ]%string),
            KV.set kv (key u)
              (KV.AlertRecord u enabled threshold (JSTime.toISOString now)))
  | None => (error "Missing required fields" 400, kv)
  end.

End AlertSettings.

(** ** [GET /export-csv] (lines 337-372) *)

Module ExportCsv.

Section Csv.

(** [Number::toString], the rendering of a number that [Array.join]
    applies to the usage and cost cells; it belongs to the runtime. *)
Variable Number_toString : Q -> string.

Definition headers : list string :=
  ["Date"; "Usage (kWh)"; "Appliance"; "Cost ($)"]%string.

(** One element of [rows]; the last cell is [entry.cost || 0]. *)
Definition row (entry : UsageEntry) : list string :=
  [ date entry;
    Number_toString (usage entry);
    appliance entry;
    Number_toString (EnergyTips.or_zero (Some (cost entry))) ].

Definition rows (usageData : list UsageEntry) : list (list string) :=
  map row usageData.

Definition csvContent (usageData : list UsageEntry) : string :=
  JSString.join (String JSString.newline EmptyString)
    (JSString.join "," headers
     :: map (fun r => JSString.join "," r) (rows usageData)).

(** The reply [new Response(csvContent, { headers })]. *)
Record CsvResponse : Type := mkCsvResponse {
  csv_status : Z;
  content_type : string;
  content_disposition : string;
  csv_body : string
}.

Definition handler (usageData : list UsageEntry) : CsvResponse :=
  mkCsvResponse 200 "text/csv" "attachment; filename=energy-usage.csv"
    (csvContent usageData).

End Csv.

End ExportCsv.

(** ** The bearer token of the authenticated handlers *)

Module Auth.

(** [c.req.header('Authorization')?.split(' ')[1]]; [None] is
    [undefined]. *)
Definition accessToken (header : option string) : option string :=
  match header with
  | Some h => nth_error (JSString.split JSString.space h) 1
  | None => None
  end.

(** The value that the client gives to [fetch] for the header:
    [`Bearer ${session.access_token}`] (EnergyDashboard.tsx, lines 97, 122
    and 167). *)
Definition bearer (access_token : string) : string :=
  "Bearer " ++ access_token.

(** HTTP whitespace: tab, line feed, carriage return and space. *)
Definition http_whitespace (c : ascii) : bool :=
  let n := N_of_ascii c in
  (n =? 9)%N || (n =? 10)%N || (n =? 13)%N || (n =? 32)%N.

Fixpoint strip_leading (s : string) : string :=
  match s with
  | EmptyString => EmptyString
  | String c r => if http_whitespace c then strip_leading r else s
  end.

Fixpoint strip_trailing (s : string) : string :=
  match s with
  | EmptyString => EmptyString
  | String c r =>
      match strip_trailing r with
      | EmptyString =>
          if http_whitespace c then EmptyString else String c EmptyString
      | r' => String c r'
      end
  end.

(** A header value as the [Headers] object of [fetch] keeps it: leading
    and trailing HTTP whitespace is removed. *)
Definition normalize (value : string) : string :=
  strip_trailing (strip_leading value).

(** The header that arrives at the server for a token. *)
Definition header (access_token : string) : string :=
  normalize (bearer access_token).

(** Every character of [s] is a visible ASCII character (33 to 126), as
    in a JSON web token: no whitespace and no control character, which a
    header value cannot carry. *)
Fixpoint visible (s : string) : bool :=
  match s with
  | EmptyString => true
  | String c r =>
      (33 <=? N_of_ascii c)%N && (N_of_ascii c <=? 126)%N && visible r
  end.

End Auth.

(** ** [GET /energy-usage] (lines 161-180) *)

Module ListUsage.

(** Two decimal digits at the front of a list of characters. *)
Definition two_digits (a b : ascii) : option Z :=
  JSDate.digits_value 0 [a; b].

(** [new Date(s).getTime()] for a string in the format of [toISOString],
    [YYYY-MM-DDTHH:mm:ss.sssZ], the only format that line 148 stores in
    [timestamp]; hour 24 is read as the midnight that ends the day.  Any
    other string is an invalid date, [None]. *)
Definition parse_timestamp (s : string) : option Z :=
  match list_ascii_of_string s with
  | [y1; y2; y3; y4; "-"%char; m1; m2; "-"%char; d1; d2; "T"%char;
     h1; h2; ":"%char; n1; n2; ":"%char; s1; s2; "."%char; f1; f2; f3;
     "Z"%char] =>
      match JSDate.digits_value 0 [y1; y2; y3; y4],
            two_digits m1 m2, two_digits d1 d2,
            two_digits h1 h2, two_digits n1 n2, two_digits s1 s2,
            JSDate.digits_value 0 [f1; f2; f3] with
      | Some y, Some m, Some d, Some h, Some n, Some sec, Some f =>
          if (1 <=? m) && (m <=? 12) && (1 <=? d) && (d <=? 31)
             && ((h <=? 23) && (n <=? 59) && (sec <=? 59)
                 || (h =? 24) && (n =? 0) && (sec =? 0) && (f =? 0))
          then Some (JSDate.msPerDay * JSDate.days_from_civil y m d
                     + h * 3600000 + n * 60000 + sec * 1000 + f)
          else None
      | _, _, _, _, _, _, _ => None
      end
  | _ => None
  end.

End ListUsage.

(** ** Stable sorting with a comparator *)

Module JSArray.

Section Sort.

Variable A : Type.

(** [before a b] holds when the comparator is negative on [(a, b)]. *)
Variable before : A -> A -> bool.

Fixpoint insert (x : A) (l : list A) : list A :=
  match l with
  | [] => [x]
  | y :: r => if before y x then y :: insert x r else x :: y :: r
  end.

(** [l.sort(compare)] for a consistent comparator. *)
Definition sort (l : list A) : list A := fold_right insert [] l.

End Sort.

Arguments insert {A} before x l.
Arguments sort {A} before l.

End JSArray.

Module ListUsageHandler.
Import JSValue.

(** The comparator of line 173,
    [new Date(b.timestamp).getTime() - new Date(a.timestamp).getTime()],
    is negative when [a] is the more recent of the two. *)
Definition before (a b : UsageEntry) : bool :=
  match ListUsage.parse_timestamp (timestamp b),
        ListUsage.parse_timestamp (timestamp a) with
  | Some tb, Some ta => tb - ta <? 0
  | _, _ => false
  end.

Definition sortedData (usageData : list UsageEntry) : list UsageEntry :=
  JSArray.sort before usageData.

Definition entry_value (entry : UsageEntry) : value :=
  VObj [ ("userId", VStr (userId entry));
         ("date", VStr (date entry));
         ("usage", VNum (usage entry));
         ("appliance", VStr (appliance entry));
         ("cost", VNum (cost entry));
         ("timestamp", VStr (timestamp entry)) ]%string.

Definition handler (usageData : list UsageEntry) : Reply :=
  c_json (VObj [ ("data"%string, VArr (map entry_value (sortedData usageData))) ]).

End ListUsageHandler.

(** ** The dashboard (EnergyDashboard.tsx, lines 199-207 and 240-241) *)

Module Dashboard.

(** One slice of the appliance chart. *)
Definition Slice : Type := (string * Q)%type.

(** The callback of the reduce of lines 199-207: the first slice of the
    same appliance grows, otherwise a new slice is pushed. *)
Fixpoint add_item (acc : list Slice) (item : UsageEntry) : list Slice :=
  match acc with
  | [] => [(appliance item, usage item)]
  | (a, u) :: r =>
      if String.eqb a (appliance item)
      then (a, (u + usage item)%Q) :: r
      else (a, u) :: add_item r item
  end.

Definition applianceData (energyData : list UsageEntry) : list Slice :=
  fold_left add_item energyData [].

(** Lines 240-241: the month before [(currentMonth, currentYear)], months
    being numbered from 0. *)
Definition previousMonth (currentMonth : Z) : Z :=
  if currentMonth =? 0 then 11 else currentMonth - 1.

Definition previousYear (currentMonth currentYear : Z) : Z :=
  if currentMonth =? 0 then currentYear - 1 else currentYear.

End Dashboard.

(** ** The month-over-month card (QuickStats.tsx, lines 19-23) *)

Module QuickStats.

Definition monthlyChange (currentMonthUsage previousMonthUsage : Q) : Q :=
  if EnergyTips.gt previousMonthUsage 0
  then ((currentMonthUsage - previousMonthUsage) / previousMonthUsage * 100)%Q
  else 0%Q.

(** [monthlyChange < 0] *)
Definition isImprovement (currentMonthUsage previousMonthUsage : Q) : bool :=
  EnergyTips.gt 0 (monthlyChange currentMonthUsage previousMonthUsage).

End QuickStats.

(** ** The goal card (EnergyGoals component, lines 114-116 and 185 of its
    file) *)

Module EnergyGoals.

Definition usagePercentage (monthlyGoal currentMonthUsage : Q) : Q :=
  if EnergyTips.gt monthlyGoal 0
  then (currentMonthUsage / monthlyGoal * 100)%Q
  else 0%Q.

(** [usagePercentage <= 100] *)
Definition isOnTrack (monthlyGoal currentMonthUsage : Q) : bool :=
  Qle_bool (usagePercentage monthlyGoal currentMonthUsage) 100.

Definition remainingUsage (monthlyGoal currentMonthUsage : Q) : Q :=
  (monthlyGoal - currentMonthUsage)%Q.

(** The value of the progress bar, [Math.min(usagePercentage, 100)]. *)
Definition progress (monthlyGoal currentMonthUsage : Q) : Q :=
  let p := usagePercentage monthlyGoal currentMonthUsage in
  if Qle_bool p 100 then p else 100%Q.

End EnergyGoals.

(** ** Notions used to state the properties of the other handlers *)

Module Notions.

(** The number of occurrences of [c] in [s]. *)
Fixpoint occurrences (c : ascii) (s : string) : nat :=
  match s with
  | EmptyString => O
  | String c' r => ((if Ascii.eqb c' c then 1 else 0) + occurrences c r)%nat
  end.

(** A cell that holds neither a comma nor a line feed. *)
Definition plain_cell (s : string) : Prop :=
  JSString.contains JSString.comma s = false /\
  JSString.contains JSString.newline s = false.

(** The labels of [labels] in the order of their first occurrence. *)
Definition first_occurrences (labels : list string) : list string :=
  fold_left
    (fun seen a => if in_dec string_dec a seen then seen else seen ++ [a])
    labels [].

(** The usage values of the appliance [k], added in the order of the data,
    the first one starting the sum; [None] when [k] does not occur. *)
Definition slice_of (energyData : list UsageEntry) (k : string) : option Q :=
  fold_left
    (fun sum item =>
       if String.eqb k (appliance item)
       then match sum with
            | Some u => Some (u + usage item)%Q
            | None => Some (usage item)
            end
       else sum)
    energyData None.

(** The time of creation of [a] is not before that of [b]; an unreadable
    time stamp is comparable to anything. *)
Definition not_older (a b : UsageEntry) : Prop :=
  match ListUsage.parse_timestamp (timestamp a),
        ListUsage.parse_timestamp (timestamp b) with
  | Some ta, Some tb => tb <= ta
  | _, _ => True
  end.

(** [entry] has a readable time stamp of value [t]. *)
Definition created_at (t : Z) (entry : UsageEntry) : bool :=
  match ListUsage.parse_timestamp (timestamp entry) with
  | Some t' => t' =? t
  | None => false
  end.

(** The usage values lie on the line [a + b * rank]. *)
Definition on_line (a b : Q) (data : list UsageEntry) : Prop :=
  forall i, (i < List.length data)%nat ->
            (Spec.y_at data i == a + b * Spec.x_at i)%Q.

End Notions.

(** ** Sample data for the other handlers *)

Module Sample2.
Local Open Scope string_scope.

Definition email : string := "ann@example.org".

(** A value of [Math.random()]. *)
Definition random : Q := 1 # 2.

(** 2024-03-01T12:00:00.000Z *)
Definition noon : Z := 1709294400000.

(** [Number::toString] on integers, enough for entries whose usage and
    cost are whole numbers. *)
Definition render_integer (q : Q) : string := JSString.Int_toString (Qfloor q).

End Sample2.

(** * The handlers over IEEE-754 doubles

    The three computational handlers again, with numbers as the runtime
    has them: binary64 values, here the primitive floats of the Standard
    Library, whose operations [FloatAxioms] specifies through [SpecFloat].

    - [Date_parse] stands for [new Date(s).getTime()] of the runtime
      ([None] is [NaN]) and [Array_sort] for [Array.prototype.sort]; both
      are parameters of the handlers.  What is known of them is written
      down in [RuntimeDate] and [Runtime]: the date-only ISO strings are
      read as [JSDate.getTime] reads them, the sort returns a permutation
      of its argument, and with a comparator that is consistent on the
      array the sort is the stable ascending one.  With an inconsistent
      comparator the language leaves the order to the engine, and nothing
      is assumed.
    - A number that reaches a reply passes through [JSON_number], which
      writes it as [JSON.stringify] does.
    - The month and the year of a request are integers and its rate is a
      number or absent; the usage and the cost of a stored entry are
      numbers, [NaN] included. *)

Module Binary64.

(** ** Numbers *)

(** An integer as a number; exact up to [2^53] in magnitude. *)
Definition of_Z (z : Z) : float :=
  match z with
  | Zneg p => (- PrimFloat.of_uint63 (Uint63.of_Z (Zpos p)))%float
  | _ => PrimFloat.of_uint63 (Uint63.of_Z z)
  end.

Definition of_nat (n : nat) : float := of_Z (Z.of_nat n).

(** [x > y] *)
Definition gt (x y : float) : bool := (y <? x)%float.

(** A number is falsy when it is [0], [-0] or [NaN]. *)
Definition falsy (x : float) : bool := PrimFloat.is_zero x || PrimFloat.is_nan x.

(** [Math.max(a, b)]: [NaN] when an argument is, and [+0] above [-0]. *)
Definition Math_max (a b : float) : float :=
  if PrimFloat.is_nan a || PrimFloat.is_nan b then PrimFloat.nan
  else if (a <? b)%float then b
  else if (b <? a)%float then a
  else if PrimFloat.get_sign a then b else a.

(** The exact value of a finite double, [(-1)^s * m * 2^e]. *)
Definition exact (x : float) : option Q :=
  match Prim2SF x with
  | S754_zero _ => Some 0%Q
  | S754_finite s m e =>
      Some (inject_Z (if s then Zneg m else Zpos m) * Qpower 2 e)%Q
  | _ => None
  end.

(** A key whose lexicographic order is the order of the doubles that are
    not [NaN]. *)
Definition order_key (x : spec_float) : Z * Z * Z :=
  match x with
  | S754_zero _ => (0, 0, 0)
  | S754_infinity s => (if s then -2 else 2, 0, 0)
  | S754_nan => (0, 0, 0)
  | S754_finite s m e =>
      if s then (-1, - e, Zneg m) else (1, e, Zpos m)
  end.

Definition key_lt (a b : Z * Z * Z) : Prop :=
  let '(a1, a2, a3) := a in
  let '(b1, b2, b3) := b in
  a1 < b1 \/ (a1 = b1 /\ (a2 < b2 \/ (a2 = b2 /\ a3 < b3))).

(** Zero of either sign, a positive number, [+Infinity] or [NaN]. *)
Definition not_negative (x : spec_float) : Prop :=
  match x with
  | S754_finite true _ _ | S754_infinity true => False
  | _ => True
  end.

(** [Math.round(x)]: [floor(x + 1/2)] on the exact value of [x], so that a
    tie goes up.  A double with [e >= 0] is an integer already; a result
    of zero keeps the sign of [x]; [NaN], the infinities and the zeros are
    returned as they are. *)
Definition Math_round (x : float) : float :=
  match Prim2SF x, exact x with
  | S754_finite s _ e, Some q =>
      if 0 <=? e then x
      else
        let r := Qfloor (q + (1 # 2)) in
        if r =? 0 then (if s then PrimFloat.neg_zero else PrimFloat.zero)
        else of_Z r
  | _, _ => x
  end.

(** ** Replies *)

(** JSON values as built by [c.json].  [JInt] is a number with an integer
    value, kept exact. *)
#[local] Unset Elimination Schemes.
Inductive json : Type :=
| JNull
| JNum (x : float)
| JInt (z : Z)
| JStr (s : string)
| JArr (items : list json)
| JObj (fields : list (string * json)).
#[local] Set Elimination Schemes.

(** [JSON.stringify] of a number: [NaN] and the infinities are written
    [null], and [-0] is written [0]. *)
Definition JSON_number (x : float) : json :=
  if PrimFloat.is_nan x || PrimFloat.is_infinity x then JNull
  else if PrimFloat.is_zero x then JNum PrimFloat.zero
  else JNum x.

Record Response : Type := mkResponse { status : Z; body : json }.

Definition c_json (b : json) : Response := mkResponse 200 b.

Definition field (k : string) (j : json) : option json :=
  match j with
  | JObj fs => JS.assoc k fs
  | _ => None
  end.

(** ** Stored usage entries *)

(** The record written by [POST /energy-usage] (lines 142-149), its two
    numbers being doubles. *)
Record UsageEntry : Type := mkEntry {
  userId : string;
  date : string;
  usage : float;
  appliance : string;
  cost : float;
  timestamp : string
}.

(** ** [POST /calculate-bill] *)

Module CalculateBill.

(** The request body; [ratePerKwh] is [None] when the key is absent. *)
Record Request : Type := mkRequest {
  month : Z;
  year : Z;
  ratePerKwh : option float
}.

Section Handler.

(** [new Date(s).getTime()] of the runtime; [None] is [NaN]. *)
Variable Date_parse : string -> option Z.

(** The filter predicate: [getMonth() === month - 1 && getFullYear() === year].
    An invalid date yields [NaN] twice and is never kept. *)
Definition in_month (r : Request) (entry : UsageEntry) : bool :=
  match Date_parse (date entry) with
  | Some t =>
      (JSDate.MonthFromTime t =? month r - 1)
      && (JSDate.YearFromTime t =? year r)
  | None => false
  end.

Definition monthlyData (r : Request) (usageData : list UsageEntry)
  : list UsageEntry :=
  filter (in_month r) usageData.

Definition totalUsage (r : Request) (usageData : list UsageEntry) : float :=
  fold_left (fun sum entry => sum + usage entry)%float
            (monthlyData r usageData) 0%float.

(** [totalUsage * ratePerKwh], with the destructuring default
    [ratePerKwh = 0.12]. *)
Definition estimatedCost (r : Request) (usageData : list UsageEntry) : float :=
  match ratePerKwh r with
  | Some rate => (totalUsage r usageData * rate)%float
  | None => (totalUsage r usageData * 0.12)%float
  end.

Definition billData (r : Request) (usageData : list UsageEntry) : json :=
  JObj [ ("month", JInt (month r));
         ("year", JInt (year r));
         ("totalUsage", JSON_number (totalUsage r usageData));
         ("ratePerKwh",
          JSON_number (match ratePerKwh r with
                       | Some rate => rate
                       | None => 0.12%float
                       end));
         ("estimatedCost", JSON_number (estimatedCost r usageData));
         ("entriesCount",
          JInt (Z.of_nat (List.length (monthlyData r usageData)))) ]%string.

Definition handler (r : Request) (usageData : list UsageEntry) : Response :=
  c_json (JObj [ ("bill", billData r usageData) ]%string).

End Handler.

End CalculateBill.

(** ** Plain objects with number values *)

Module PlainObject.

(** Own properties in creation order. *)
Definition t : Type := list (string * float).

Definition get (o : t) (k : string) : option float := JS.assoc k o.

(** [o[k] = v]: an existing property keeps its place. *)
Fixpoint set (o : t) (k : string) (v : float) : t :=
  match o with
  | [] => [(k, v)]
  | (k', v') :: r =>
      if String.eqb k k' then (k', v) :: r else (k', v') :: set r k v
  end.

Definition index_keys (o : t) : list (Z * string) :=
  fold_right
    (fun p acc =>
       match JSObject.array_index (fst p) with
       | Some n => JSObject.insert_index n (fst p) acc
       | None => acc
       end)
    [] o.

Definition string_keys (o : t) : list string :=
  filter (fun k => match JSObject.array_index k with
                   | None => true
                   | Some _ => false
                   end)
         (map fst o).

(** [Object.keys(o)]: the array-index keys in ascending order, then the
    other keys in creation order. *)
Definition keys (o : t) : list string :=
  map snd (index_keys o) ++ string_keys o.

(** The names that an object literal inherits from [Object.prototype]. *)
Definition inherited : list string :=
  [ "constructor"; "__defineGetter__"; "__defineSetter__"; "hasOwnProperty";
    "__lookupGetter__"; "__lookupSetter__"; "isPrototypeOf";
    "propertyIsEnumerable"; "toString"; "valueOf"; "__proto__";
    "toLocaleString" ]%string.

(** A key that names no inherited member: reading it from an object that
    does not own it gives [undefined]. *)
Definition ordinary (k : string) : bool :=
  negb (existsb (String.eqb k) inherited).

End PlainObject.

(** ** [GET /energy-tips] *)

Module EnergyTips.

Definition totalUsage (usageData : list UsageEntry) : float :=
  fold_left (fun sum entry => sum + usage entry)%float usageData 0%float.

Definition avgDailyUsage (usageData : list UsageEntry) : float :=
  (totalUsage usageData / Math_max (of_nat (List.length usageData)) 1)%float.

(** [x > y] where either side may be [undefined]: the comparison is then
    made with [NaN] and is false. *)
Definition gt_undef (x y : option float) : bool :=
  match x, y with
  | Some a, Some b => gt a b
  | _, _ => false
  end.

(** [v || 0] for a property read. *)
Definition or_zero (v : option float) : float :=
  match v with
  | Some x => if falsy x then 0%float else x
  | None => 0%float
  end.

(** The callback of the reduce of lines 250-253, for a label that names
    no inherited member:
    [acc[entry.appliance] = (acc[entry.appliance] || 0) + entry.usage]. *)
Definition accumulate (acc : PlainObject.t) (entry : UsageEntry)
  : PlainObject.t :=
  PlainObject.set acc (appliance entry)
    (or_zero (PlainObject.get acc (appliance entry)) + usage entry)%float.

(** The reduce of lines 250-253.  The accumulator is an object literal, so
    [acc[entry.appliance]] reads an inherited member when the label names
    one; such entry lists are outside the model ([None]). *)
Definition applianceUsage (usageData : list UsageEntry)
  : option PlainObject.t :=
  if forallb (fun entry => PlainObject.ordinary (appliance entry)) usageData
  then Some (fold_left accumulate usageData [])
  else None.

(** The callback of the reduce over the keys:
    [applianceUsage[a] > applianceUsage[b] ? a : b]. *)
Definition pick (o : PlainObject.t) (a b : string) : string :=
  if gt_undef (PlainObject.get o a) (PlainObject.get o b) then a else b.

Definition topAppliance (usageData : list UsageEntry) : option string :=
  match applianceUsage usageData with
  | Some o => Some (fold_left (pick o) (PlainObject.keys o) "General"%string)
  | None => None
  end.

(** The array [tips] after each block of pushes. *)
Definition after_high (usageData : list UsageEntry) (tips : list string)
  : list string :=
  if gt (avgDailyUsage usageData) 30
  then tips ++ [EnergyTips.tip_led; EnergyTips.tip_unplug]
  else tips.

Definition after_very_high (usageData : list UsageEntry) (tips : list string)
  : list string :=
  if gt (avgDailyUsage usageData) 50
  then tips ++ [EnergyTips.tip_energy_star; EnergyTips.tip_thermostat]
  else tips.

Definition after_appliance (top : string) (tips : list string) : list string :=
  if String.eqb top "HVAC" then tips ++ [EnergyTips.tip_hvac]
  else if String.eqb top "Water Heater"
       then tips ++ [EnergyTips.tip_water_heater]
       else tips.

Definition after_default (tips : list string) : list string :=
  if Nat.eqb (List.length tips) 0
  then tips ++ [EnergyTips.tip_solar; EnergyTips.tip_power_strips]
  else tips.

(** The array when control reaches the test [tips.length === 0]. *)
Definition ladder (usageData : list UsageEntry) : option (list string) :=
  match topAppliance usageData with
  | Some top =>
      Some (after_appliance top
              (after_very_high usageData (after_high usageData [])))
  | None => None
  end.

Definition tips (usageData : list UsageEntry) : option (list string) :=
  option_map after_default (ladder usageData).

Definition handler (usageData : list UsageEntry) : option Response :=
  option_map
    (fun tips => c_json (JObj [ ("tips", JArr (map JStr tips)) ]%string))
    (tips usageData).

End EnergyTips.

(** ** [GET /predict-usage] *)

Module PredictUsage.

(** [l.slice(-k)] *)
Definition slice_last (k : nat) (l : list UsageEntry) : list UsageEntry :=
  skipn (List.length l - k) l.

(** The four accumulators of the [forEach] loop. *)
Record Sums : Type :=
  mkSums { sumX : float; sumY : float; sumXY : float; sumXX : float }.

Definition step (s : Sums) (index : nat) (entry : UsageEntry) : Sums :=
  let x := of_nat index in
  let y := usage entry in
  mkSums (sumX s + x) (sumY s + y) (sumXY s + x * y) (sumXX s + x * x)%float.

Fixpoint forEach (index : nat) (l : list UsageEntry) (s : Sums) : Sums :=
  match l with
  | [] => s
  | entry :: r => forEach (S index) r (step s index entry)
  end.

Definition sums (data : list UsageEntry) : Sums :=
  forEach 0 data (mkSums 0 0 0 0).

Definition n (data : list UsageEntry) : float := of_nat (List.length data).

Definition slope (data : list UsageEntry) : float :=
  let s := sums data in
  ((n data * sumXY s - sumX s * sumY s)
   / (n data * sumXX s - sumX s * sumX s))%float.

Definition intercept (data : list UsageEntry) : float :=
  let s := sums data in
  ((sumY s - slope data * sumX s) / n data)%float.

(** One element of [predictions]. *)
Record Prediction : Type := mkPrediction {
  pdate : string;
  predictedUsage : float
}.

(** The body of the [for] loop at counter [i]; [clock i] is the reading of
    [new Date()] in that iteration. *)
Definition predict_day (clock : Z -> Z) (data : list UsageEntry) (i : Z)
  : Prediction :=
  let predictedUsage :=
    Math_max 0 (slope data * (n data + of_Z i - 1) + intercept data)%float in
  let date := JSDate.addDays (clock i) i in
  mkPrediction (JSDate.toISODate date)
               (Math_round (predictedUsage * 100) / 100)%float.

(** [for (let i = 1; i <= 7; i++)]: [fuel] bounds the iterations. *)
Fixpoint loop (fuel : nat) (clock : Z -> Z) (data : list UsageEntry) (i : Z)
  (predictions : list Prediction) : list Prediction :=
  match fuel with
  | O => predictions
  | S fuel' =>
      if i <=? 7
      then loop fuel' clock data (i + 1)
             (predictions ++ [predict_day clock data i])
      else predictions
  end.

Definition prediction_json (p : Prediction) : json :=
  JObj [ ("date", JStr (pdate p));
         ("predictedUsage", JSON_number (predictedUsage p)) ]%string.

Definition insufficient_message : string :=
  "Need at least 7 days of data for prediction".

Section Runtime.

(** [new Date(s).getTime()] of the runtime; [None] is [NaN]. *)
Variable Date_parse : string -> option Z.

(** [Array.prototype.sort] of the runtime, applied to a comparator whose
    result is a number or [NaN] ([None]). *)
Variable Array_sort :
  (UsageEntry -> UsageEntry -> option Z) -> list UsageEntry -> list UsageEntry.

(** The comparator [new Date(a.date).getTime() - new Date(b.date).getTime()]. *)
Definition compare_dates (a b : UsageEntry) : option Z :=
  match Date_parse (date a), Date_parse (date b) with
  | Some ta, Some tb => Some (ta - tb)
  | _, _ => None
  end.

Definition sortedData (usageData : list UsageEntry) : list UsageEntry :=
  slice_last 30 (Array_sort compare_dates usageData).

Definition predictions (clock : Z -> Z) (usageData : list UsageEntry)
  : list Prediction :=
  loop 8 clock (sortedData usageData) 1 [].

Definition handler (clock : Z -> Z) (usageData : list UsageEntry)
  : Response :=
  if (List.length usageData <? 7)%nat
  then c_json (JObj [ ("prediction", JNull);
                      ("message", JStr insufficient_message) ]%string)
  else c_json (JObj [ ("predictions",
                       JArr (map prediction_json
                                 (predictions clock usageData))) ]%string).

End Runtime.

End PredictUsage.

(** ** The contract of the runtime's sort *)

Module Runtime.

Section Sort.

Variable A : Type.

(** [a] sorts strictly before [b]: the comparator is negative. *)
Definition before (cmp : A -> A -> option Z) (a b : A) : bool :=
  match cmp a b with
  | Some v => v <? 0
  | None => false
  end.

(** A consistent comparator on the elements of [l]: it always yields a
    number, and its signs are those of a total preorder. *)
Definition consistent (cmp : A -> A -> option Z) (l : list A) : Prop :=
  (forall a b, In a l -> In b l -> exists v, cmp a b = Some v) /\
  (forall a, In a l -> cmp a a = Some 0) /\
  (forall a b v w, In a l -> In b l ->
      cmp a b = Some v -> cmp b a = Some w -> (v < 0 <-> 0 < w)) /\
  (forall a b c u v w, In a l -> In b l -> In c l ->
      cmp a b = Some u -> cmp b c = Some v -> cmp a c = Some w ->
      u <= 0 -> v <= 0 -> w <= 0).

(** The stable sort by a comparator: an element is placed in front of the
    later elements it does not sort after. *)
Definition stable_sort (cmp : A -> A -> option Z) (l : list A) : list A :=
  JSArray.sort (before cmp) l.

Variable Array_sort : (A -> A -> option Z) -> list A -> list A.

(** The result holds the elements of the array, whatever the comparator. *)
Definition permutes : Prop :=
  forall cmp l, Permutation (Array_sort cmp l) l.

(** With a consistent comparator the result is sorted, and stable. *)
Definition sorts_stably : Prop :=
  forall cmp l, consistent cmp l -> Array_sort cmp l = stable_sort cmp l.

End Sort.

Arguments before {A} cmp a b.
Arguments consistent {A} cmp l.
Arguments stable_sort {A} cmp l.
Arguments permutes {A} Array_sort.
Arguments sorts_stably {A} Array_sort.

End Runtime.

(** ** The contract of the runtime's date parser *)

Module RuntimeDate.

(** The runtime reads the date-only form [YYYY-MM-DD] as midnight UTC of
    that day, whatever else it accepts. *)
Definition reads_iso_dates (Date_parse : string -> option Z) : Prop :=
  forall s t, JSDate.getTime s = Some t -> Date_parse s = Some t.

End RuntimeDate.

(** ** Notions used to state the properties *)

Module Spec.

(** [Sigma f k] is the sum of [f 0], ..., [f (k - 1)], added in that order
    to [0]. *)
Fixpoint Sigma (f : nat -> float) (k : nat) : float :=
  match k with
  | O => 0%float
  | S k' => (Sigma f k' + f k')%float
  end.

(** The regressor is the rank of an entry, the response its usage. *)
Definition x_at (i : nat) : float := of_nat i.

Definition y_at (data : list UsageEntry) (i : nat) : float :=
  match nth_error data i with
  | Some entry => usage entry
  | None => 0%float
  end.

(** The usage fields summed in the order of the list. *)
Definition sum_usage (l : list UsageEntry) : float :=
  Sigma (y_at l) (List.length l).

(** Ordinary least squares of usage against rank, in the closed form of
    the specification. *)
Definition ols_slope (data : list UsageEntry) : float :=
  let k := List.length data in
  let n := of_nat k in
  ((n * Sigma (fun i => x_at i * y_at data i) k
    - Sigma x_at k * Sigma (y_at data) k)
   / (n * Sigma (fun i => x_at i * x_at i) k - Sigma x_at k * Sigma x_at k))%float.

Definition ols_intercept (data : list UsageEntry) : float :=
  let k := List.length data in
  let n := of_nat k in
  ((Sigma (y_at data) k - ols_slope data * Sigma x_at k) / n)%float.

Section Dates.

Variable Date_parse : string -> option Z.

(** The runtime reads the date of [entry]. *)
Definition parses (entry : UsageEntry) : Prop :=
  exists t, Date_parse (date entry) = Some t.

(** Both dates are read and [a] is not dated after [b]. *)
Definition date_le (a b : UsageEntry) : Prop :=
  exists ta tb,
    Date_parse (date a) = Some ta /\
    Date_parse (date b) = Some tb /\ ta <= tb.

(** [entry] is dated at the instant [t]. *)
Definition dated (t : Z) (entry : UsageEntry) : bool :=
  match Date_parse (date entry) with
  | Some t' => t' =? t
  | None => false
  end.

(** The date of [entry] falls in month [month] (1-12) of year [year]. *)
Definition date_in (month year : Z) (entry : UsageEntry) : Prop :=
  exists t,
    Date_parse (date entry) = Some t /\
    JSDate.MonthFromTime t + 1 = month /\
    JSDate.YearFromTime t = year.

End Dates.

(** A reply that reports a failure: an error status or an [error] key. *)
Definition reports_error (resp : Response) : Prop :=
  400 <= status resp \/ field "error" (body resp) <> None.

(** A reply that rejects the request: a failure is reported and no bill is
    produced. *)
Definition rejected (resp : Response) : Prop :=
  reports_error resp /\ field "bill" (body resp) = None.

(** A month outside 1-12, or a rate that is zero or negative. *)
Definition invalid_request (r : CalculateBill.Request) : Prop :=
  CalculateBill.month r < 1 \/ 12 < CalculateBill.month r \/
  exists rate,
    CalculateBill.ratePerKwh r = Some rate /\ (rate <=? 0)%float = true.

(** The usage of one appliance category as the reduce accumulates it, in
    the order of the list: a running sum that is [0], [-0] or [NaN] is
    replaced by [0] before the next usage is added. *)
Definition summed (usageData : list UsageEntry) (k : string) : float :=
  fold_left
    (fun sum entry =>
       if String.eqb (appliance entry) k
       then ((if falsy sum then 0 else sum) + usage entry)%float
       else sum)
    usageData 0%float.

(** The appliance categories in the order of [Object.keys]. *)
Definition categories (usageData : list UsageEntry) : list string :=
  match EnergyTips.applianceUsage usageData with
  | Some o => PlainObject.keys o
  | None => []
  end.

(** The category with the largest summed usage, the first one met in
    iteration order winning a tie. *)
Definition dominant_first (usageData : list UsageEntry) : string :=
  match categories usageData with
  | [] => "General"%string
  | k :: r =>
      fold_left
        (fun a b =>
           if gt (summed usageData b) (summed usageData a) then b else a)
        r k
  end.

(** The category with the largest summed usage, the last one met in
    iteration order winning a tie: [top] occurs in [ks], nothing before it
    is larger and everything after it is smaller. *)
Definition dominant_last (usageData : list UsageEntry) (ks : list string)
  (top : string) : Prop :=
  exists l1 l2,
    ks = l1 ++ top :: l2 /\
    (forall k, In k l1 ->
        gt (summed usageData k) (summed usageData top) = false) /\
    (forall k, In k l2 ->
        gt (summed usageData top) (summed usageData k) = true).

(** The tips of the two usage thresholds. *)
Definition threshold_tips (avg : float) : list string :=
  (if gt avg 30 then [EnergyTips.tip_led; EnergyTips.tip_unplug] else [])
  ++ (if gt avg 50
      then [EnergyTips.tip_energy_star; EnergyTips.tip_thermostat] else []).

(** The rule ladder with the dominant category chosen as [dominant_first]. *)
Definition ladder_first (usageData : list UsageEntry) : list string :=
  threshold_tips (EnergyTips.avgDailyUsage usageData)
  ++ Spec.appliance_tip (dominant_first usageData).

End Spec.

(** ** Sample data *)

Module Sample.
Local Open Scope string_scope.

Definition entry (d : string) (u : float) (a : string) : UsageEntry :=
  mkEntry "user-1" d u a 0 "2024-01-01T00:00:00.000Z".

(** Seven days with usage 1 to 7, stored out of date order. *)
Definition week : list UsageEntry :=
  [ entry "2024-01-03" 3 "HVAC"; entry "2024-01-01" 1 "General";
    entry "2024-01-02" 2 "Lighting"; entry "2024-01-07" 7 "HVAC";
    entry "2024-01-05" 5 "General"; entry "2024-01-04" 4 "HVAC";
    entry "2024-01-06" 6 "Electronics" ].

(** The same week with the date of one entry left empty. *)
Definition undated_week : list UsageEntry :=
  [ entry "2024-01-03" 3 "HVAC"; entry "2024-01-01" 1 "General";
    entry "" 2 "Lighting"; entry "2024-01-07" 7 "HVAC";
    entry "2024-01-05" 5 "General"; entry "2024-01-04" 4 "HVAC";
    entry "2024-01-06" 6 "Electronics" ].

(** A steep decline: the trend line is below zero a week later. *)
Definition decline : list UsageEntry :=
  [ entry "2024-01-01" 60 "General"; entry "2024-01-02" 50 "General";
    entry "2024-01-03" 40 "General"; entry "2024-01-04" 30 "General";
    entry "2024-01-05" 20 "General"; entry "2024-01-06" 10 "General";
    entry "2024-01-07" 0 "General" ].

(** A week whose second projection lies half a cent from two cents. *)
Definition cents : list UsageEntry :=
  [ entry "2024-01-01" 12.9 "General"; entry "2024-01-02" 19 "General";
    entry "2024-01-03" 49 "General"; entry "2024-01-04" 49 "General";
    entry "2024-01-05" 43 "General"; entry "2024-01-06" 9 "General";
    entry "2024-01-07" 12 "General" ].

Definition march : list UsageEntry :=
  [ entry "2024-03-01" 10 "General"; entry "2024-03-15" 5 "General" ].

Definition april_entry : UsageEntry := entry "2024-04-01" 100 "General".

Definition march_2024 : CalculateBill.Request :=
  CalculateBill.mkRequest 3 2024 (Some 0.12%float).

Definition negative_rate : CalculateBill.Request :=
  CalculateBill.mkRequest 3 2024 (Some (-1)%float).

(** Three entries of March 2024 whose sum depends on their order. *)
Definition tenths : list UsageEntry :=
  [ entry "2024-03-01" 0.1 "General"; entry "2024-03-02" 0.2 "General";
    entry "2024-03-03" 0.3 "General" ].

(** Three entries whose average is 30 in one order and above it in
    another. *)
Definition thirty : list UsageEntry :=
  [ entry "2024-03-01" 24.6 "General"; entry "2024-03-02" 25.7 "General";
    entry "2024-03-03" 39.7 "General" ].

Definition thirty_reordered : list UsageEntry :=
  [ entry "2024-03-01" 24.6 "General"; entry "2024-03-03" 39.7 "General";
    entry "2024-03-02" 25.7 "General" ].

(** Two categories with the same summed usage. *)
Definition tie : list UsageEntry :=
  [ entry "2024-01-01" 10 "HVAC"; entry "2024-01-02" 10 "Lighting" ].

(** Every reading of the clock is 2024-03-01T00:00:00Z. *)
Definition clock (i : Z) : Z := 1709251200000.

End Sample.

End Binary64.

(** ** Doubles and their exact values *)

Module Exact.

(** The entry with the exact values of its two numbers, when both are
    finite. *)
Definition entry (e : Binary64.UsageEntry) : option UsageEntry :=
  match Binary64.exact (Binary64.usage e), Binary64.exact (Binary64.cost e) with
  | Some u, Some c =>
      Some (mkEntry (Binary64.userId e) (Binary64.date e) u
                    (Binary64.appliance e) c (Binary64.timestamp e))
  | _, _ => None
  end.

Fixpoint entries (l : list Binary64.UsageEntry) : option (list UsageEntry) :=
  match l with
  | [] => Some []
  | e :: r =>
      match entry e, entries r with
      | Some e', Some r' => Some (e' :: r')
      | _, _ => None
      end
  end.

(** The trend line [slope * (n + i - 1) + intercept] of the closed form,
    in exact arithmetic. *)
Definition trend (data : list UsageEntry) (i : Z) : Q :=
  (Spec.ols_slope data
   * (inject_Z (Z.of_nat (List.length data)) + inject_Z i - 1)
   + Spec.ols_intercept data)%Q.

End Exact.

(** * Properties *)

(** ** Calendar facts *)

Lemma civil_month_range (z : Z) :
  1 <= snd (fst (JSDate.civil_from_days z)) <= 12.
Proof.
  unfold JSDate.civil_from_days.
  set (z' := z + 719468).
  set (era := z' / 146097).
  set (doe := z' - era * 146097).
  assert (Hdoe : 0 <= doe <= 146096).
  { unfold doe, era.
    pose proof (Z.mod_pos_bound z' 146097 ltac:(lia)) as Hm.
    rewrite Z.mod_eq in Hm by lia. lia. }
  clearbody doe era. clear z'.
  set (yoe := (doe - doe / 1460 + doe / 36524 - doe / 146096) / 365).
  set (doy := doe - (365 * yoe + yoe / 4 - yoe / 100)).
  assert (Hdoy : 0 <= doy <= 365)
    by (unfold doy, yoe; Z.div_mod_to_equations; lia).
  clearbody doy.
  set (mp := (5 * doy + 2) / 153).
  assert (Hmp : 0 <= mp <= 11) by (unfold mp; Z.div_mod_to_equations; lia).
  cbn [fst snd].
  destruct (mp <? 10) eqn:E; [apply Z.ltb_lt in E | apply Z.ltb_ge in E]; lia.
Qed.

Lemma MonthFromTime_range (t : Z) : 0 <= JSDate.MonthFromTime t <= 11.
Proof.
  unfold JSDate.MonthFromTime.
  pose proof (civil_month_range (JSDate.Day t)) as H.
  destruct (JSDate.civil_from_days (JSDate.Day t)) as [[y m] d].
  cbn [fst snd] in H. lia.
Qed.

Example getTime_epoch : JSDate.getTime "1970-01-01" = Some 0.
Proof. reflexivity. Qed.

Example getTime_march_first :
  JSDate.getTime "2024-03-01" = Some 1709251200000 /\
  JSDate.getMonth "2024-03-01" = Some 2 /\
  JSDate.getFullYear "2024-03-01" = Some 2024.
Proof. repeat split. Qed.

Example getTime_day_overflow :
  JSDate.getTime "2024-02-30" = JSDate.getTime "2024-03-01".
Proof. reflexivity. Qed.

Example getTime_not_iso :
  JSDate.getTime "2024-3-1" = None /\ JSDate.getTime "2024-13-01" = None.
Proof. split; reflexivity. Qed.

Example toISODate_samples :
  JSDate.toISODate 1709251200000 = "2024-03-01"%string /\
  JSDate.toISODate (JSDate.addDays 1709164800999 1) = "2024-03-01"%string /\
  JSDate.toISODate (JSDate.addDays 1735603200000 1) = "2025-01-01"%string /\
  JSDate.toISODate (-1) = "1969-12-31"%string.
Proof. repeat split. Qed.

(** ** Sums of usage *)

Lemma sum_usage_nonneg (l : list UsageEntry) :
  Forall (fun entry => 0 <= usage entry)%Q l -> (0 <= Spec.sum_usage l)%Q.
Proof.
  unfold Spec.sum_usage.
  induction 1 as [|x l Hx _ IH]; cbn [fold_right].
  - apply Qle_refl.
  - lra.
Qed.

(** ** Objects *)

Lemma get_some_in (o : JSObject.t) (k : string) :
  In k (map fst o) <-> exists v, JSObject.get o k = Some v.
Proof.
  unfold JSObject.get.
  induction o as [|[k' v'] o IH]; cbn.
  - split; [tauto|]. intros [v Hv]. discriminate.
  - destruct (String.eqb k k') eqn:E.
    + apply String.eqb_eq in E. subst k'. split; eauto.
    + rewrite <- IH. apply String.eqb_neq in E. split.
      * intros [H|H]; [congruence|exact H].
      * auto.
Qed.

Lemma insert_index_in (n : Z) (k : string) (l : list (Z * string)) (x : string) :
  In x (map snd (JSObject.insert_index n k l)) <-> x = k \/ In x (map snd l).
Proof.
  induction l as [|[n' k'] l IH]; cbn.
  - split; intros [H|H]; auto.
  - destruct (n <? n'); cbn.
    + split; intros [H|H]; auto.
    + rewrite IH. split; intros H; intuition auto.
Qed.

(** ** The dominant appliance *)

Lemma gt_true (a b : Q) : EnergyTips.gt a b = true <-> (b < a)%Q.
Proof.
  unfold EnergyTips.gt. rewrite negb_true_iff.
  destruct (Qle_bool a b) eqn:E.
  - apply Qle_bool_iff in E. split; [discriminate|]. intros H. lra.
  - split; [intros _|reflexivity].
    apply Qnot_le_lt. intros H. apply Qle_bool_iff in H. congruence.
Qed.

Lemma gt_false (a b : Q) : EnergyTips.gt a b = false <-> (a <= b)%Q.
Proof.
  unfold EnergyTips.gt. rewrite negb_false_iff. apply Qle_bool_iff.
Qed.

(** ** The tips *)

Lemma ladder_eq (usageData : list UsageEntry) :
  EnergyTips.ladder usageData
  = Spec.threshold_tips (EnergyTips.avgDailyUsage usageData)
    ++ Spec.appliance_tip (EnergyTips.topAppliance usageData).
Proof.
  unfold EnergyTips.ladder, EnergyTips.after_appliance,
    EnergyTips.after_very_high, EnergyTips.after_high,
    Spec.threshold_tips, Spec.appliance_tip.
  destruct (EnergyTips.gt (EnergyTips.avgDailyUsage usageData) 30),
    (EnergyTips.gt (EnergyTips.avgDailyUsage usageData) 50),
    (String.eqb (EnergyTips.topAppliance usageData) "HVAC"),
    (String.eqb (EnergyTips.topAppliance usageData) "Water Heater");
    reflexivity.
Qed.

Lemma tips_default (usageData : list UsageEntry) :
  (EnergyTips.ladder usageData = [] /\
   EnergyTips.tips usageData = Spec.generic_tips) \/
  (EnergyTips.ladder usageData <> [] /\
   EnergyTips.tips usageData = EnergyTips.ladder usageData).
Proof.
  unfold EnergyTips.tips, EnergyTips.after_default.
  destruct (EnergyTips.ladder usageData) as [|t l].
  - left. split; reflexivity.
  - right. split; [discriminate|reflexivity].
Qed.



(** C10: with no stored entries the average is 0, no threshold rule fires,
    the reduce over the empty key list returns its seed General, no
    appliance tip fires, and the reply is exactly the solar-panels tip
    followed by the smart-power-strips tip. *)
Theorem C10_tips_for_no_entries :
  (EnergyTips.avgDailyUsage [] == 0)%Q /\
  EnergyTips.gt (EnergyTips.avgDailyUsage []) 30 = false /\
  EnergyTips.gt (EnergyTips.avgDailyUsage []) 50 = false /\
  JSObject.keys (EnergyTips.applianceUsage []) = [] /\
  EnergyTips.topAppliance [] = "General"%string /\
  EnergyTips.ladder [] = [] /\
  EnergyTips.tips [] = [EnergyTips.tip_solar; EnergyTips.tip_power_strips] /\
  EnergyTips.handler []
  = JS.c_json
      (JS.JObj
         [ ("tips"%string,
            JS.JArr [ JS.JStr EnergyTips.tip_solar;
                      JS.JStr EnergyTips.tip_power_strips ]) ]).
Proof. repeat split. Qed.

(** ** Sorting by date and truncation *)

Lemma insert_perm (x : UsageEntry) (l : list UsageEntry) :
  Permutation (PredictUsage.insert x l) (x :: l).
Proof.
  induction l as [|y l IH]; cbn.
  - apply Permutation_refl.
  - destruct (PredictUsage.before y x).
    + eapply Permutation_trans; [apply perm_skip, IH|apply perm_swap].
    + apply Permutation_refl.
Qed.

Lemma sort_perm (l : list UsageEntry) : Permutation (PredictUsage.sort l) l.
Proof.
  induction l as [|x l IH]; cbn.
  - constructor.
  - eapply Permutation_trans; [apply insert_perm|]. constructor. exact IH.
Qed.

Lemma sort_length (l : list UsageEntry) :
  List.length (PredictUsage.sort l) = List.length l.
Proof. apply Permutation_length, sort_perm. Qed.

Lemma before_false_not_after (a b : UsageEntry) :
  PredictUsage.before a b = false -> Spec.not_after b a.
Proof.
  unfold PredictUsage.before, PredictUsage.compare_dates, Spec.not_after.
  destruct (JSDate.getTime (date a)) as [ta|], (JSDate.getTime (date b)) as [tb|];
    try exact (fun _ => I).
  intros H. apply Z.ltb_ge in H. lia.
Qed.

Lemma before_true_not_after (a b : UsageEntry) :
  PredictUsage.before a b = true -> Spec.not_after a b.
Proof.
  unfold PredictUsage.before, PredictUsage.compare_dates, Spec.not_after.
  destruct (JSDate.getTime (date a)) as [ta|], (JSDate.getTime (date b)) as [tb|];
    try exact (fun _ => I).
  intros H. apply Z.ltb_lt in H. lia.
Qed.

Lemma insert_hd (x : UsageEntry) (l : list UsageEntry) (a : UsageEntry) :
  HdRel Spec.not_after a l -> Spec.not_after a x ->
  HdRel Spec.not_after a (PredictUsage.insert x l).
Proof.
  intros Hl Hx. destruct l as [|y l]; cbn.
  - constructor. exact Hx.
  - destruct (PredictUsage.before y x); constructor.
    + inversion Hl. assumption.
    + exact Hx.
Qed.

Lemma insert_sorted (x : UsageEntry) (l : list UsageEntry) :
  Sorted Spec.not_after l -> Sorted Spec.not_after (PredictUsage.insert x l).
Proof.
  induction 1 as [|y l Hs IH Hh]; cbn.
  - repeat constructor.
  - destruct (PredictUsage.before y x) eqn:E.
    + constructor; [exact IH|].
      apply insert_hd; [exact Hh|]. apply before_true_not_after. exact E.
    + constructor.
      * constructor; assumption.
      * constructor. apply before_false_not_after. exact E.
Qed.

Lemma sort_sorted (l : list UsageEntry) :
  Sorted Spec.not_after (PredictUsage.sort l).
Proof.
  induction l as [|x l IH]; cbn.
  - constructor.
  - apply insert_sorted. exact IH.
Qed.

Lemma insert_stable (t : Z) (x : UsageEntry) (l : list UsageEntry) :
  filter (Spec.dated t) (PredictUsage.insert x l)
  = filter (Spec.dated t) (x :: l).
Proof.
  induction l as [|y l IH]; [reflexivity|].
  cbn [PredictUsage.insert].
  destruct (PredictUsage.before y x) eqn:E; [|reflexivity].
  cbn [filter] in *. rewrite IH.
  destruct (Spec.dated t x) eqn:Hx; [|reflexivity].
  assert (Hy : Spec.dated t y = false).
  { unfold PredictUsage.before, PredictUsage.compare_dates in E.
    unfold Spec.dated in *.
    destruct (JSDate.getTime (date y)) as [ty|]; [|reflexivity].
    destruct (JSDate.getTime (date x)) as [tx|]; [|discriminate].
    apply Z.ltb_lt in E. apply Z.eqb_eq in Hx. apply Z.eqb_neq. lia. }
  rewrite Hy. reflexivity.
Qed.

(** The sort is stable: entries of one date keep their relative order. *)
Lemma sort_stable (t : Z) (l : list UsageEntry) :
  filter (Spec.dated t) (PredictUsage.sort l) = filter (Spec.dated t) l.
Proof.
  induction l as [|x l IH]; [reflexivity|].
  cbn [PredictUsage.sort fold_right]. fold (PredictUsage.sort l).
  rewrite insert_stable. cbn [filter]. rewrite IH. reflexivity.
Qed.

(** With valid dates throughout, the order is ascending in the strong
    sense: every entry is dated no later than all that follow it. *)
Lemma sort_strongly_sorted (l : list UsageEntry) :
  Forall Spec.valid_date l -> StronglySorted Spec.date_le (PredictUsage.sort l).
Proof.
  intros Hv.
  assert (Hvs : Forall Spec.valid_date (PredictUsage.sort l)).
  { rewrite Forall_forall in *. intros x Hx. apply Hv.
    eapply Permutation_in; [apply sort_perm|exact Hx]. }
  apply Sorted_StronglySorted.
  - intros a b c (ta & tb & Ha & Hb & Hab) (tb' & tc & Hb' & Hc & Hbc).
    rewrite Hb in Hb'. injection Hb' as <-.
    exists ta, tc. repeat split; try assumption. lia.
  - pose proof (sort_sorted l) as Hs.
    induction Hs as [|a s Hs IH Hh].
    + constructor.
    + inversion Hvs as [|? ? Ha Hrest]; subst.
      constructor; [apply IH; exact Hrest|].
      destruct Hh as [|b s' Hab]; constructor.
      inversion Hrest as [|? ? Hb _]; subst.
      destruct Ha as [ta Ha], Hb as [tb Hb].
      unfold Spec.not_after in Hab. rewrite Ha, Hb in Hab.
      exists ta, tb. auto.
Qed.

Lemma slice_last_suffix (k : nat) (l : list UsageEntry) :
  (firstn (List.length l - k) l) ++ PredictUsage.slice_last k l = l /\
  List.length (PredictUsage.slice_last k l) = Nat.min (List.length l) k.
Proof.
  unfold PredictUsage.slice_last. split.
  - apply firstn_skipn.
  - rewrite length_skipn. lia.
Qed.

Lemma sortedData_length (usageData : list UsageEntry) :
  List.length (PredictUsage.sortedData usageData)
  = Nat.min (List.length usageData) 30.
Proof.
  unfold PredictUsage.sortedData.
  rewrite (proj2 (slice_last_suffix 30 _)), sort_length. reflexivity.
Qed.

(** ** The regression sums *)

Lemma forEach_app (i : nat) (l1 l2 : list UsageEntry) (s : PredictUsage.Sums) :
  PredictUsage.forEach i (l1 ++ l2) s
  = PredictUsage.forEach (i + List.length l1) l2 (PredictUsage.forEach i l1 s).
Proof.
  revert i s. induction l1 as [|x l1 IH]; intros i s; cbn.
  - rewrite Nat.add_0_r. reflexivity.
  - rewrite IH. f_equal. lia.
Qed.

Lemma sums_snoc (l : list UsageEntry) (x : UsageEntry) :
  PredictUsage.sums (l ++ [x])
  = PredictUsage.step (PredictUsage.sums l) (List.length l) x.
Proof. unfold PredictUsage.sums. rewrite forEach_app. reflexivity. Qed.

Lemma Sigma_ext (f g : nat -> Q) (k : nat) :
  (forall i, (i < k)%nat -> f i = g i) -> Spec.Sigma f k = Spec.Sigma g k.
Proof.
  induction k as [|k IH]; intros H; cbn.
  - reflexivity.
  - rewrite IH by (intros i Hi; apply H; lia). rewrite H by lia. reflexivity.
Qed.

Lemma y_at_snoc_old (l : list UsageEntry) (x : UsageEntry) (i : nat) :
  (i < List.length l)%nat -> Spec.y_at (l ++ [x]) i = Spec.y_at l i.
Proof. intros H. unfold Spec.y_at. rewrite nth_error_app1 by exact H. reflexivity. Qed.

Lemma y_at_snoc_new (l : list UsageEntry) (x : UsageEntry) :
  Spec.y_at (l ++ [x]) (List.length l) = usage x.
Proof.
  unfold Spec.y_at. rewrite nth_error_app2 by lia.
  rewrite Nat.sub_diag. reflexivity.
Qed.

(** The loop accumulates exactly the four sums of the closed form. *)
Lemma sums_Sigma (l : list UsageEntry) :
  PredictUsage.sums l
  = PredictUsage.mkSums
      (Spec.Sigma Spec.x_at (List.length l))
      (Spec.Sigma (Spec.y_at l) (List.length l))
      (Spec.Sigma (fun i => Spec.x_at i * Spec.y_at l i)%Q (List.length l))
      (Spec.Sigma (fun i => Spec.x_at i * Spec.x_at i)%Q (List.length l)).
Proof.
  induction l as [|x l IH] using rev_ind.
  - reflexivity.
  - rewrite sums_snoc, IH, length_app, Nat.add_comm. cbn [List.length plus].
    unfold PredictUsage.step. cbn [PredictUsage.sumX PredictUsage.sumY
      PredictUsage.sumXY PredictUsage.sumXX Spec.Sigma].
    rewrite y_at_snoc_new.
    rewrite (Sigma_ext (Spec.y_at (l ++ [x])) (Spec.y_at l))
      by (intros i Hi; apply y_at_snoc_old; exact Hi).
    rewrite (Sigma_ext (fun i => Spec.x_at i * Spec.y_at (l ++ [x]) i)%Q
                       (fun i => Spec.x_at i * Spec.y_at l i)%Q)
      by (intros i Hi; rewrite y_at_snoc_old by exact Hi; reflexivity).
    reflexivity.
Qed.

Lemma x_at_succ (k : nat) : (Spec.x_at (S k) == Spec.x_at k + 1)%Q.
Proof.
  unfold Spec.x_at. rewrite Nat2Z.inj_succ. unfold Z.succ.
  rewrite inject_Z_plus. reflexivity.
Qed.

Lemma Sigma_x (k : nat) :
  (2 * Spec.Sigma Spec.x_at k == Spec.x_at k * (Spec.x_at k - 1))%Q.
Proof.
  induction k as [|k IH]; cbn [Spec.Sigma].
  - reflexivity.
  - rewrite x_at_succ.
    setoid_replace (2 * (Spec.Sigma Spec.x_at k + Spec.x_at k))%Q
      with (2 * Spec.Sigma Spec.x_at k + 2 * Spec.x_at k)%Q by ring.
    rewrite IH. ring.
Qed.

Lemma Sigma_xx (k : nat) :
  (6 * Spec.Sigma (fun i => Spec.x_at i * Spec.x_at i) k
   == (Spec.x_at k - 1) * Spec.x_at k * (2 * Spec.x_at k - 1))%Q.
Proof.
  induction k as [|k IH]; cbn [Spec.Sigma].
  - reflexivity.
  - rewrite x_at_succ.
    setoid_replace
      (6 * (Spec.Sigma (fun i => Spec.x_at i * Spec.x_at i) k
            + Spec.x_at k * Spec.x_at k))%Q
      with (6 * Spec.Sigma (fun i => Spec.x_at i * Spec.x_at i) k
            + 6 * (Spec.x_at k * Spec.x_at k))%Q by ring.
    rewrite IH. ring.
Qed.

(** The divisor of the slope depends on the number of points only. *)
Lemma denominator_closed_form (data : list UsageEntry) :
  (12 * PredictUsage.denominator data
   == PredictUsage.n data * PredictUsage.n data
      * (PredictUsage.n data - 1) * (PredictUsage.n data + 1))%Q.
Proof.
  unfold PredictUsage.denominator. rewrite sums_Sigma.
  cbn [PredictUsage.sumX PredictUsage.sumXX].
  change (PredictUsage.n data) with (Spec.x_at (List.length data)).
  set (k := List.length data).
  pose proof (Sigma_x k) as Hx. pose proof (Sigma_xx k) as Hxx.
  set (sx := Spec.Sigma Spec.x_at k) in *.
  set (sxx := Spec.Sigma (fun i => Spec.x_at i * Spec.x_at i)%Q k) in *.
  set (n := Spec.x_at k) in *.
  setoid_replace (12 * (n * sxx - sx * sx))%Q
    with (2 * n * (6 * sxx) - 3 * ((2 * sx) * (2 * sx)))%Q by ring.
  rewrite Hx, Hxx. ring.
Qed.

Lemma predict_denominator_positive (data : list UsageEntry) :
  (2 <= List.length data)%nat -> (0 < PredictUsage.denominator data)%Q.
Proof.
  intros Hlen.
  pose proof (denominator_closed_form data) as H.
  assert (Hn : (2 <= PredictUsage.n data)%Q).
  { unfold PredictUsage.n. change 2%Q with (inject_Z 2).
    rewrite <- Zle_Qle. lia. }
  set (n := PredictUsage.n data) in *.
  set (d := PredictUsage.denominator data) in *.
  assert (Hpos : (0 < n * n * (n - 1) * (n + 1))%Q).
  { repeat apply Qmult_lt_0_compat; lra. }
  rewrite <- H in Hpos. lra.
Qed.

(** ** Rounding and clamping *)

Lemma Math_max_0 (v : Q) :
  ((0 <= v)%Q /\ JS.Math_max 0 v = v) \/ ((v < 0)%Q /\ JS.Math_max 0 v = 0%Q).
Proof.
  unfold JS.Math_max. destruct (Qle_bool 0 v) eqn:E.
  - left. split; [apply Qle_bool_iff; exact E|reflexivity].
  - right. split; [|reflexivity].
    apply Qnot_le_lt. intros H. apply Qle_bool_iff in H. congruence.
Qed.

Lemma Math_round_bounds (y : Q) :
  (y - (1 # 2) < JS.Math_round y)%Q /\ (JS.Math_round y <= y + (1 # 2))%Q.
Proof.
  unfold JS.Math_round.
  pose proof (Qfloor_le (y + (1 # 2))) as Hle.
  pose proof (Qlt_floor (y + (1 # 2))) as Hlt.
  rewrite inject_Z_plus in Hlt. change (inject_Z 1) with 1%Q in Hlt.
  split; lra.
Qed.

Lemma Math_round_nonneg (y : Q) : (0 <= y)%Q -> (0 <= JS.Math_round y)%Q.
Proof.
  intros Hy. unfold JS.Math_round.
  change 0%Q with (inject_Z 0). rewrite <- Zle_Qle.
  change 0 with (Qfloor 0). apply Qfloor_resp_le. lra.
Qed.

Lemma Math_round_small (y : Q) :
  (- (1 # 2) <= y)%Q -> (y < 1 # 2)%Q -> JS.Math_round y = 0%Q.
Proof.
  intros Hlo Hhi. unfold JS.Math_round.
  pose proof (Qfloor_le (y + (1 # 2))) as Hle.
  pose proof (Qlt_floor (y + (1 # 2))) as Hlt.
  assert (H1 : (inject_Z (Qfloor (y + (1 # 2))) < inject_Z 1)%Q)
    by (change (inject_Z 1) with 1%Q; lra).
  assert (H2 : (inject_Z 0 < inject_Z (Qfloor (y + (1 # 2)) + 1))%Q)
    by (change (inject_Z 0) with 0%Q; lra).
  rewrite <- Zlt_Qlt in H1, H2.
  replace (Qfloor (y + (1 # 2))) with 0 by lia. reflexivity.
Qed.

Lemma round_2dp (x : Q) : Spec.rounded_2dp x (JS.Math_round (x * 100) / 100).
Proof.
  unfold Spec.rounded_2dp.
  destruct (Math_round_bounds (x * 100)) as [Hlo Hhi].
  split; [|split].
  - exists (Qfloor (x * 100 + (1 # 2))). reflexivity.
  - apply Qlt_shift_div_l; lra.
  - apply Qle_shift_div_r; lra.
Qed.

(** ** The projection loop *)

Lemma predict_day_spec (clock : Z -> Z) (data : list UsageEntry) (i : Z) :
  let v := (PredictUsage.slope data * (PredictUsage.n data + inject_Z i - 1)
            + PredictUsage.intercept data)%Q in
  let p := PredictUsage.predict_day clock data i in
  PredictUsage.pdate p = JSDate.toISODate (clock i + i * JSDate.msPerDay) /\
  (0 <= PredictUsage.predictedUsage p)%Q /\
  Spec.rounded_2dp (JS.Math_max 0 v) (PredictUsage.predictedUsage p) /\
  ((0 <= v)%Q -> Spec.rounded_2dp v (PredictUsage.predictedUsage p)) /\
  ((v <= 0)%Q -> (PredictUsage.predictedUsage p == 0)%Q).
Proof.
  intros v p. subst p. unfold PredictUsage.predict_day.
  cbn [PredictUsage.pdate PredictUsage.predictedUsage]. fold v.
  split; [reflexivity|].
  destruct (Math_max_0 v) as [[Hv Hm]|[Hv Hm]]; rewrite Hm.
  - split; [|split; [|split]].
    + apply Qle_shift_div_l; [lra|].
      rewrite Qmult_0_l. apply Math_round_nonneg. lra.
    + apply round_2dp.
    + intros _. apply round_2dp.
    + intros Hneg. rewrite (Math_round_small (v * 100)) by lra. reflexivity.
  - split; [|split; [|split]].
    + vm_compute. discriminate.
    + apply round_2dp.
    + intros Hpos. lra.
    + intros _. reflexivity.
Qed.

(** ** The forecaster *)

(** C3: with fewer than 7 entries the reply has status 200 and the message
    of the claim, but its null marker is stored under the key
    [prediction]; the key [predictions], which the other branch and the
    client use, is absent. *)
Theorem C3_insufficient_data_reply (clock : Z -> Z) (usageData : list UsageEntry) :
  (List.length usageData < 7)%nat ->
  PredictUsage.handler clock usageData
  = JS.c_json
      (JS.JObj
         [ ("prediction"%string, JS.JNull);
           ("message"%string,
            JS.JStr "Need at least 7 days of data for prediction") ]) /\
  JS.status (PredictUsage.handler clock usageData) = 200 /\
  JS.field "message" (JS.body (PredictUsage.handler clock usageData))
  = Some (JS.JStr "Need at least 7 days of data for prediction") /\
  JS.field "prediction" (JS.body (PredictUsage.handler clock usageData))
  = Some JS.JNull /\
  JS.field "predictions" (JS.body (PredictUsage.handler clock usageData)) = None.
Proof.
  intros Hlen. unfold PredictUsage.handler.
  apply Nat.ltb_lt in Hlen. rewrite Hlen.
  repeat split.
Qed.

Lemma C3_insufficient_data_reply_witness :
  (List.length Sample.march < 7)%nat /\
  JS.field "predictions"
    (JS.body (PredictUsage.handler Sample.clock Sample.march)) = None.
Proof.
  assert (H : (List.length Sample.march < 7)%nat) by (cbn; lia).
  split; [exact H|].
  apply (C3_insufficient_data_reply Sample.clock Sample.march H).
Defined.

(** C9: with at least 7 entries the number of fitted points is between 7
    and 30, and the divisor [n * sumXX - sumX * sumX] of the unguarded
    slope division equals [n^2 (n - 1) (n + 1) / 12], which is positive;
    the divisor [n] of the intercept is positive too. *)
Theorem C9_slope_divisor_positive (usageData : list UsageEntry) :
  (7 <= List.length usageData)%nat ->
  let data := PredictUsage.sortedData usageData in
  (7 <= List.length data <= 30)%nat /\
  PredictUsage.slope data
  = ((PredictUsage.n data * PredictUsage.sumXY (PredictUsage.sums data)
      - PredictUsage.sumX (PredictUsage.sums data)
        * PredictUsage.sumY (PredictUsage.sums data))
     / PredictUsage.denominator data)%Q /\
  (12 * PredictUsage.denominator data
   == PredictUsage.n data * PredictUsage.n data
      * (PredictUsage.n data - 1) * (PredictUsage.n data + 1))%Q /\
  (0 < PredictUsage.denominator data)%Q /\
  ~ (PredictUsage.denominator data == 0)%Q /\
  PredictUsage.intercept data
  = ((PredictUsage.sumY (PredictUsage.sums data)
      - PredictUsage.slope data * PredictUsage.sumX (PredictUsage.sums data))
     / PredictUsage.n data)%Q /\
  (0 < PredictUsage.n data)%Q.
Proof.
  intros Hlen data.
  assert (Hdata : (7 <= List.length data <= 30)%nat)
    by (unfold data; rewrite sortedData_length; lia).
  assert (Hpos : (0 < PredictUsage.denominator data)%Q)
    by (apply predict_denominator_positive; lia).
  split; [exact Hdata|].
  split; [reflexivity|].
  split; [apply denominator_closed_form|].
  split; [exact Hpos|].
  split; [intros H0; rewrite H0 in Hpos; discriminate Hpos|].
  split; [reflexivity|].
  unfold PredictUsage.n. change 0%Q with (inject_Z 0).
  rewrite <- Zlt_Qlt. lia.
Qed.

Lemma C9_slope_divisor_positive_witness :
  (7 <= List.length Sample.week)%nat /\
  (0 < PredictUsage.denominator (PredictUsage.sortedData Sample.week))%Q.
Proof.
  assert (H : (7 <= List.length Sample.week)%nat) by (cbn; lia).
  split; [exact H|].
  apply (C9_slope_divisor_positive Sample.week H).
Defined.

(** ** Stable sorting *)

Section SortFacts.

Variable A : Type.
Variable before : A -> A -> bool.

Lemma jsarray_insert_perm (x : A) (l : list A) :
  Permutation (JSArray.insert before x l) (x :: l).
Proof.
  induction l as [|y l IH]; cbn.
  - apply Permutation_refl.
  - destruct (before y x).
    + eapply Permutation_trans; [apply perm_skip, IH|apply perm_swap].
    + apply Permutation_refl.
Qed.

Lemma jsarray_sort_perm (l : list A) : Permutation (JSArray.sort before l) l.
Proof.
  induction l as [|x l IH]; cbn.
  - constructor.
  - eapply Permutation_trans; [apply jsarray_insert_perm|].
    constructor. exact IH.
Qed.

(** An order relation that the comparator respects: what sorts before is
    in order, and what does not sort before is in the opposite order. *)
Variable R : A -> A -> Prop.
Hypothesis before_true : forall a b, before a b = true -> R a b.
Hypothesis before_false : forall a b, before a b = false -> R b a.

Lemma jsarray_insert_sorted (x : A) (l : list A) :
  Sorted R l -> Sorted R (JSArray.insert before x l).
Proof.
  induction 1 as [|y l Hs IH Hh]; cbn.
  - repeat constructor.
  - destruct (before y x) eqn:E.
    + constructor; [exact IH|].
      destruct l as [|z l]; cbn.
      * constructor. apply before_true. exact E.
      * destruct (before z x); constructor.
        -- inversion Hh. assumption.
        -- apply before_true. exact E.
    + constructor.
      * constructor; assumption.
      * constructor. apply before_false. exact E.
Qed.

Lemma jsarray_sort_sorted (l : list A) : Sorted R (JSArray.sort before l).
Proof.
  induction l as [|x l IH]; cbn.
  - constructor.
  - apply jsarray_insert_sorted. exact IH.
Qed.

(** Elements of one class, which the comparator never separates, keep
    their relative order. *)
Variable same : A -> bool.
Hypothesis same_not_before :
  forall y x, before y x = true -> same x = true -> same y = false.

Lemma jsarray_insert_stable (x : A) (l : list A) :
  filter same (JSArray.insert before x l) = filter same (x :: l).
Proof.
  induction l as [|y l IH]; [reflexivity|].
  cbn [JSArray.insert].
  destruct (before y x) eqn:E; [|reflexivity].
  cbn [filter] in *. rewrite IH.
  destruct (same x) eqn:Hx; [|reflexivity].
  rewrite (same_not_before y x E Hx). reflexivity.
Qed.

Lemma jsarray_sort_stable (l : list A) :
  filter same (JSArray.sort before l) = filter same l.
Proof.
  induction l as [|x l IH]; [reflexivity|].
  cbn [JSArray.sort fold_right]. fold (JSArray.sort before l).
  rewrite jsarray_insert_stable. cbn [filter]. rewrite IH. reflexivity.
Qed.

End SortFacts.

(** * Properties of the handlers over doubles *)

(** ** Sums in the order of the list *)

Lemma double_Sigma_ext (f g : nat -> float) (k : nat) :
  (forall i, (i < k)%nat -> f i = g i) ->
  Binary64.Spec.Sigma f k = Binary64.Spec.Sigma g k.
Proof.
  induction k as [|k IH]; intros H; cbn [Binary64.Spec.Sigma].
  - reflexivity.
  - rewrite IH by (intros i Hi; apply H; lia).
    rewrite (H k) by lia. reflexivity.
Qed.

Lemma double_y_at_snoc_old (l : list Binary64.UsageEntry)
  (x : Binary64.UsageEntry) (i : nat) :
  (i < List.length l)%nat ->
  Binary64.Spec.y_at (l ++ [x]) i = Binary64.Spec.y_at l i.
Proof.
  intros Hi. unfold Binary64.Spec.y_at. rewrite nth_error_app1 by exact Hi.
  reflexivity.
Qed.

Lemma double_y_at_snoc_new (l : list Binary64.UsageEntry)
  (x : Binary64.UsageEntry) :
  Binary64.Spec.y_at (l ++ [x]) (List.length l) = Binary64.usage x.
Proof.
  unfold Binary64.Spec.y_at. rewrite nth_error_app2 by lia.
  rewrite Nat.sub_diag. reflexivity.
Qed.

Lemma double_sum_usage_snoc (l : list Binary64.UsageEntry)
  (x : Binary64.UsageEntry) :
  Binary64.Spec.sum_usage (l ++ [x])
  = (Binary64.Spec.sum_usage l + Binary64.usage x)%float.
Proof.
  unfold Binary64.Spec.sum_usage.
  rewrite length_app, Nat.add_1_r. cbn [Binary64.Spec.Sigma].
  rewrite double_y_at_snoc_new.
  rewrite (double_Sigma_ext (Binary64.Spec.y_at (l ++ [x]))
             (Binary64.Spec.y_at l))
    by (intros i Hi; apply double_y_at_snoc_old; exact Hi).
  reflexivity.
Qed.

(** The reduce [(sum, entry) => sum + entry.usage] from [0] adds the usage
    fields in the order of the list. *)
Lemma double_reduce_sum (l : list Binary64.UsageEntry) :
  fold_left (fun sum entry => sum + Binary64.usage entry)%float l 0%float
  = Binary64.Spec.sum_usage l.
Proof.
  induction l as [|x l IH] using rev_ind.
  - reflexivity.
  - rewrite fold_left_app. cbn [fold_left]. rewrite IH.
    symmetry. apply double_sum_usage_snoc.
Qed.

(** ** The bill *)

Section Bill.

Variable Date_parse : string -> option Z.

Lemma double_in_month_spec (r : Binary64.CalculateBill.Request)
  (entry : Binary64.UsageEntry) :
  Binary64.CalculateBill.in_month Date_parse r entry = true <->
  Binary64.Spec.date_in Date_parse
    (Binary64.CalculateBill.month r) (Binary64.CalculateBill.year r) entry.
Proof.
  unfold Binary64.CalculateBill.in_month, Binary64.Spec.date_in.
  destruct (Date_parse (Binary64.date entry)) as [t|].
  - rewrite andb_true_iff, !Z.eqb_eq. split.
    + intros [Hm Hy]. exists t. repeat split; lia.
    + intros (t' & Ht & Hm & Hy). injection Ht as <-. lia.
  - split; [discriminate|]. intros (t & Ht & _). discriminate.
Qed.

Lemma double_in_month_out_of_range (r : Binary64.CalculateBill.Request)
  (entry : Binary64.UsageEntry) :
  Binary64.CalculateBill.month r < 1 \/ 12 < Binary64.CalculateBill.month r ->
  Binary64.CalculateBill.in_month Date_parse r entry = false.
Proof.
  intros Hr.
  destruct (Binary64.CalculateBill.in_month Date_parse r entry) eqn:E;
    [|reflexivity].
  apply double_in_month_spec in E. destruct E as (t & _ & Hm & _).
  pose proof (MonthFromTime_range t). lia.
Qed.

Lemma double_monthlyData_out_of_range (r : Binary64.CalculateBill.Request)
  (usageData : list Binary64.UsageEntry) :
  Binary64.CalculateBill.month r < 1 \/ 12 < Binary64.CalculateBill.month r ->
  Binary64.CalculateBill.monthlyData Date_parse r usageData = [].
Proof.
  intros Hr. unfold Binary64.CalculateBill.monthlyData.
  induction usageData as [|x l IH]; cbn; [reflexivity|].
  rewrite (double_in_month_out_of_range r x Hr). exact IH.
Qed.

Lemma double_monthlyData_skip (r : Binary64.CalculateBill.Request)
  (x : Binary64.UsageEntry) (l1 l2 : list Binary64.UsageEntry) :
  Binary64.CalculateBill.in_month Date_parse r x = false ->
  Binary64.CalculateBill.monthlyData Date_parse r (l1 ++ x :: l2)
  = Binary64.CalculateBill.monthlyData Date_parse r (l1 ++ l2).
Proof.
  intros Hx. unfold Binary64.CalculateBill.monthlyData.
  rewrite !filter_app. cbn. rewrite Hx. reflexivity.
Qed.

Lemma double_monthlyData_in (r : Binary64.CalculateBill.Request)
  (usageData : list Binary64.UsageEntry) (entry : Binary64.UsageEntry) :
  In entry (Binary64.CalculateBill.monthlyData Date_parse r usageData) <->
  In entry usageData /\
  Binary64.Spec.date_in Date_parse
    (Binary64.CalculateBill.month r) (Binary64.CalculateBill.year r) entry.
Proof.
  unfold Binary64.CalculateBill.monthlyData.
  rewrite filter_In, double_in_month_spec. reflexivity.
Qed.

Lemma double_monthlyData_perm (r : Binary64.CalculateBill.Request)
  (l l' : list Binary64.UsageEntry) :
  Permutation l l' ->
  Permutation (Binary64.CalculateBill.monthlyData Date_parse r l)
              (Binary64.CalculateBill.monthlyData Date_parse r l').
Proof.
  unfold Binary64.CalculateBill.monthlyData.
  induction 1 as [|x l l' _ IH|x y l|l l' l'' _ IH1 _ IH2]; cbn [filter].
  - constructor.
  - destruct (Binary64.CalculateBill.in_month Date_parse r x);
      [constructor|]; exact IH.
  - destruct (Binary64.CalculateBill.in_month Date_parse r x),
      (Binary64.CalculateBill.in_month Date_parse r y);
      try apply Permutation_refl.
    constructor.
  - eapply Permutation_trans; eassumption.
Qed.

Lemma double_bill_totalUsage_sum (r : Binary64.CalculateBill.Request)
  (usageData : list Binary64.UsageEntry) :
  Binary64.CalculateBill.totalUsage Date_parse r usageData
  = Binary64.Spec.sum_usage
      (Binary64.CalculateBill.monthlyData Date_parse r usageData).
Proof. apply double_reduce_sum. Qed.

(** What follows from reading the three dates of the literal case. *)
Hypothesis iso : Binary64.RuntimeDate.reads_iso_dates Date_parse.

Lemma double_march_kept :
  Binary64.CalculateBill.monthlyData Date_parse
    Binary64.Sample.march_2024 Binary64.Sample.march
  = Binary64.Sample.march.
Proof.
  unfold Binary64.CalculateBill.monthlyData, Binary64.Sample.march.
  cbn [filter]. unfold Binary64.CalculateBill.in_month.
  cbn [Binary64.date Binary64.Sample.entry].
  rewrite (iso "2024-03-01"%string 1709251200000) by reflexivity.
  rewrite (iso "2024-03-15"%string 1710460800000) by reflexivity.
  reflexivity.
Qed.

Lemma double_april_dropped :
  Binary64.CalculateBill.in_month Date_parse Binary64.Sample.march_2024
    Binary64.Sample.april_entry = false.
Proof.
  unfold Binary64.CalculateBill.in_month.
  cbn [Binary64.date Binary64.Sample.entry Binary64.Sample.april_entry].
  rewrite (iso "2024-04-01"%string 1711929600000) by reflexivity.
  reflexivity.
Qed.

End Bill.

(** C4 fails on the code: for the two March 2024 entries at rate 0.12 the
    reply carries the double product of 15 and 0.12, which is
    1.7999999999999998 and lies below 1.8. *)
Lemma C4_counterexample :
  Binary64.CalculateBill.totalUsage JSDate.getTime
    Binary64.Sample.march_2024 Binary64.Sample.march = 15%float /\
  Binary64.CalculateBill.estimatedCost JSDate.getTime
    Binary64.Sample.march_2024 Binary64.Sample.march
  = 1.7999999999999998%float /\
  (Binary64.CalculateBill.estimatedCost JSDate.getTime
     Binary64.Sample.march_2024 Binary64.Sample.march =? 1.8)%float = false /\
  (exists q,
      Binary64.exact
        (Binary64.CalculateBill.estimatedCost JSDate.getTime
           Binary64.Sample.march_2024 Binary64.Sample.march) = Some q /\
      (q < 18 # 10)%Q) /\
  Binary64.CalculateBill.handler JSDate.getTime
    Binary64.Sample.march_2024 Binary64.Sample.march
  = Binary64.c_json
      (Binary64.JObj
         [ ("bill"%string,
            Binary64.JObj
              [ ("month", Binary64.JInt 3);
                ("year", Binary64.JInt 2024);
                ("totalUsage", Binary64.JNum 15);
                ("ratePerKwh", Binary64.JNum 0.12);
                ("estimatedCost", Binary64.JNum 1.7999999999999998);
                ("entriesCount", Binary64.JInt 2) ]%string) ]).
Proof.
  split; [reflexivity|]. split; [reflexivity|]. split; [reflexivity|].
  split; [|reflexivity].
  eexists. split; [vm_compute; reflexivity|]. reflexivity.
Qed.

(** C4 as amended: the bill keeps exactly the entries dated in the
    requested month and year, in their order; the total is their usage
    added in that order, the count their number, and the cost the double
    product of the total and the rate of the request, 0.12 when the
    request has none.  The two March 2024 entries at rate 0.12 give a
    total of 15, a cost of 1.7999999999999998 and a count of 2, and an
    entry dated 2024-04-01 added anywhere leaves that reply unchanged. *)
Theorem C4_bill_calculation (Date_parse : string -> option Z)
  (r : Binary64.CalculateBill.Request)
  (usageData : list Binary64.UsageEntry) :
  let kept := Binary64.CalculateBill.monthlyData Date_parse r usageData in
  let total := Binary64.CalculateBill.totalUsage Date_parse r usageData in
  (forall entry,
      In entry kept <->
      In entry usageData /\
      Binary64.Spec.date_in Date_parse
        (Binary64.CalculateBill.month r) (Binary64.CalculateBill.year r)
        entry) /\
  (exists keep : Binary64.UsageEntry -> bool,
      (forall entry,
          keep entry = true <->
          Binary64.Spec.date_in Date_parse
            (Binary64.CalculateBill.month r) (Binary64.CalculateBill.year r)
            entry) /\
      kept = filter keep usageData) /\
  total = Binary64.Spec.sum_usage kept /\
  Binary64.CalculateBill.estimatedCost Date_parse r usageData
  = match Binary64.CalculateBill.ratePerKwh r with
    | Some rate => (total * rate)%float
    | None => (total * 0.12)%float
    end /\
  Binary64.CalculateBill.handler Date_parse r usageData
  = Binary64.c_json
      (Binary64.JObj
         [ ("bill"%string,
            Binary64.JObj
              [ ("month", Binary64.JInt (Binary64.CalculateBill.month r));
                ("year", Binary64.JInt (Binary64.CalculateBill.year r));
                ("totalUsage", Binary64.JSON_number total);
                ("ratePerKwh",
                 Binary64.JSON_number
                   match Binary64.CalculateBill.ratePerKwh r with
                   | Some rate => rate
                   | None => 0.12%float
                   end);
                ("estimatedCost",
                 Binary64.JSON_number
                   match Binary64.CalculateBill.ratePerKwh r with
                   | Some rate => (total * rate)%float
                   | None => (total * 0.12)%float
                   end);
                ("entriesCount", Binary64.JInt (Z.of_nat (List.length kept)))
              ]%string) ]) /\
  (Binary64.RuntimeDate.reads_iso_dates Date_parse ->
   Binary64.CalculateBill.handler Date_parse
     Binary64.Sample.march_2024 Binary64.Sample.march
   = Binary64.c_json
       (Binary64.JObj
          [ ("bill"%string,
             Binary64.JObj
               [ ("month", Binary64.JInt 3);
                 ("year", Binary64.JInt 2024);
                 ("totalUsage", Binary64.JNum 15);
                 ("ratePerKwh", Binary64.JNum 0.12);
                 ("estimatedCost", Binary64.JNum 1.7999999999999998);
                 ("entriesCount", Binary64.JInt 2) ]%string) ]) /\
   forall l1 l2 : list Binary64.UsageEntry,
     Binary64.CalculateBill.handler Date_parse Binary64.Sample.march_2024
       (l1 ++ Binary64.Sample.april_entry :: l2)
     = Binary64.CalculateBill.handler Date_parse Binary64.Sample.march_2024
         (l1 ++ l2)).
Proof.
  intros kept total.
  split; [intros entry; apply double_monthlyData_in|].
  split.
  { exists (Binary64.CalculateBill.in_month Date_parse r).
    split; [intros entry; apply double_in_month_spec|reflexivity]. }
  split; [apply double_bill_totalUsage_sum|].
  split; [reflexivity|].
  split; [reflexivity|].
  intros iso. split.
  - unfold Binary64.CalculateBill.handler, Binary64.CalculateBill.billData,
      Binary64.CalculateBill.estimatedCost, Binary64.CalculateBill.totalUsage.
    rewrite (double_march_kept Date_parse iso). reflexivity.
  - intros l1 l2.
    unfold Binary64.CalculateBill.handler, Binary64.CalculateBill.billData,
      Binary64.CalculateBill.estimatedCost, Binary64.CalculateBill.totalUsage.
    rewrite (double_monthlyData_skip Date_parse Binary64.Sample.march_2024
               Binary64.Sample.april_entry l1 l2)
      by (apply double_april_dropped; exact iso).
    reflexivity.
Qed.

Lemma C4_bill_calculation_witness :
  Binary64.RuntimeDate.reads_iso_dates JSDate.getTime /\
  Binary64.CalculateBill.handler JSDate.getTime Binary64.Sample.march_2024
    (Binary64.Sample.april_entry :: Binary64.Sample.march)
  = Binary64.CalculateBill.handler JSDate.getTime Binary64.Sample.march_2024
      Binary64.Sample.march.
Proof.
  assert (H : Binary64.RuntimeDate.reads_iso_dates JSDate.getTime)
    by (intros s t Hs; exact Hs).
  split; [exact H|].
  destruct (C4_bill_calculation JSDate.getTime Binary64.Sample.march_2024 [])
    as (_ & _ & _ & _ & _ & Hlit).
  destruct (Hlit H) as [_ Hskip].
  exact (Hskip [] Binary64.Sample.march).
Defined.

(** C5 on the code: a request whose month is outside 1-12, or whose rate
    is zero or negative, is answered like any other, with status 200, no
    [error] key and a bill; a month outside 1-12 matches no entry, and the
    two March 2024 entries at rate -1 are billed -15. *)
Theorem C5_invalid_request_is_billed (Date_parse : string -> option Z)
  (r : Binary64.CalculateBill.Request)
  (usageData : list Binary64.UsageEntry) :
  Binary64.Spec.invalid_request r ->
  Binary64.status (Binary64.CalculateBill.handler Date_parse r usageData)
  = 200 /\
  Binary64.field "error"
    (Binary64.body (Binary64.CalculateBill.handler Date_parse r usageData))
  = None /\
  Binary64.field "bill"
    (Binary64.body (Binary64.CalculateBill.handler Date_parse r usageData))
  = Some (Binary64.CalculateBill.billData Date_parse r usageData) /\
  ~ Binary64.Spec.rejected
      (Binary64.CalculateBill.handler Date_parse r usageData) /\
  (Binary64.CalculateBill.month r < 1 \/ 12 < Binary64.CalculateBill.month r ->
   Binary64.CalculateBill.monthlyData Date_parse r usageData = [] /\
   Binary64.CalculateBill.totalUsage Date_parse r usageData = 0%float) /\
  (Binary64.RuntimeDate.reads_iso_dates Date_parse ->
   Binary64.CalculateBill.handler Date_parse
     Binary64.Sample.negative_rate Binary64.Sample.march
   = Binary64.c_json
       (Binary64.JObj
          [ ("bill"%string,
             Binary64.JObj
               [ ("month", Binary64.JInt 3);
                 ("year", Binary64.JInt 2024);
                 ("totalUsage", Binary64.JNum 15);
                 ("ratePerKwh", Binary64.JNum (-1));
                 ("estimatedCost", Binary64.JNum (-15));
                 ("entriesCount", Binary64.JInt 2) ]%string) ])).
Proof.
  intros _.
  split; [reflexivity|]. split; [reflexivity|]. split; [reflexivity|].
  split.
  { intros [_ Hbill]. discriminate Hbill. }
  split.
  - intros Hm. unfold Binary64.CalculateBill.totalUsage.
    rewrite double_monthlyData_out_of_range by exact Hm.
    split; reflexivity.
  - intros iso.
    unfold Binary64.CalculateBill.handler, Binary64.CalculateBill.billData,
      Binary64.CalculateBill.estimatedCost, Binary64.CalculateBill.totalUsage.
    change (Binary64.CalculateBill.monthlyData Date_parse
              Binary64.Sample.negative_rate Binary64.Sample.march)
      with (Binary64.CalculateBill.monthlyData Date_parse
              Binary64.Sample.march_2024 Binary64.Sample.march).
    rewrite (double_march_kept Date_parse iso). reflexivity.
Qed.

Lemma C5_invalid_request_is_billed_witness :
  Binary64.Spec.invalid_request Binary64.Sample.negative_rate /\
  Binary64.status
    (Binary64.CalculateBill.handler JSDate.getTime
       Binary64.Sample.negative_rate Binary64.Sample.march) = 200 /\
  Binary64.field "estimatedCost"
    (Binary64.CalculateBill.billData JSDate.getTime
       Binary64.Sample.negative_rate Binary64.Sample.march)
  = Some (Binary64.JNum (-15)).
Proof.
  assert (H : Binary64.Spec.invalid_request Binary64.Sample.negative_rate).
  { right. right. exists (-1)%float. split; reflexivity. }
  split; [exact H|].
  destruct (C5_invalid_request_is_billed JSDate.getTime
              Binary64.Sample.negative_rate Binary64.Sample.march H)
    as (Hs & _).
  split; [exact Hs|reflexivity].
Defined.

(** ** The order of doubles *)

Lemma SFltb_key (x y : spec_float) :
  x <> S754_nan -> y <> S754_nan ->
  (SFltb x y = true <->
   Binary64.key_lt (Binary64.order_key x) (Binary64.order_key y)).
Proof.
  intros Hx Hy. unfold SFltb, SFcompare.
  destruct x as [sx|sx| |sx mx ex], y as [sy|sy| |sy my ey];
    try congruence; try destruct sx; try destruct sy;
    cbn [Binary64.order_key Binary64.key_lt];
    try (destruct (Z.compare_spec ex ey) as [He|He|He];
         [subst ey; fold (Pos.compare mx my);
          destruct (Pos.compare_spec mx my) as [Hm|Hm|Hm]| |]);
    cbn;
    (split;
     [ first [discriminate | intros _; lia]
     | first [intros _; reflexivity | intros H; exfalso; lia] ]).
Qed.

Lemma is_nan_false (x : float) :
  PrimFloat.is_nan x = false -> Prim2SF x <> S754_nan.
Proof.
  unfold PrimFloat.is_nan. rewrite FloatAxioms.eqb_spec. intros H E. rewrite E in H.
  discriminate H.
Qed.

Lemma gt_nan_false (a b : float) :
  Prim2SF a = S754_nan \/ Prim2SF b = S754_nan -> Binary64.gt a b = false.
Proof.
  unfold Binary64.gt. rewrite FloatAxioms.ltb_spec. unfold SFltb, SFcompare.
  intros [E|E]; rewrite E; [destruct (Prim2SF b)|destruct (Prim2SF a)];
    reflexivity.
Qed.

Lemma gt_key (a b : float) :
  Prim2SF a <> S754_nan -> Prim2SF b <> S754_nan ->
  (Binary64.gt a b = true <-> Binary64.key_lt (Binary64.order_key (Prim2SF b)) (Binary64.order_key (Prim2SF a))).
Proof.
  intros Ha Hb. unfold Binary64.gt. rewrite FloatAxioms.ltb_spec.
  apply SFltb_key; assumption.
Qed.

Lemma spec_float_nan_dec (x : spec_float) : {x = S754_nan} + {x <> S754_nan}.
Proof. destruct x; [right|right|left|right]; congruence. Qed.

(** Not above and then not above again, through a number. *)
Lemma gt_false_trans (a b c : float) :
  PrimFloat.is_nan b = false ->
  Binary64.gt a b = false -> Binary64.gt b c = false ->
  Binary64.gt a c = false.
Proof.
  intros Hb Hab Hbc. apply is_nan_false in Hb.
  destruct (spec_float_nan_dec (Prim2SF a)) as [Ea|Ea];
    [apply gt_nan_false; left; exact Ea|].
  destruct (spec_float_nan_dec (Prim2SF c)) as [Ec|Ec];
    [apply gt_nan_false; right; exact Ec|].
  destruct (Binary64.gt a c) eqn:E; [|reflexivity].
  apply (gt_key a c Ea Ec) in E.
  assert (Nab : ~ Binary64.key_lt (Binary64.order_key (Prim2SF b)) (Binary64.order_key (Prim2SF a)))
    by (intros H; apply (gt_key a b Ea Hb) in H; congruence).
  assert (Nbc : ~ Binary64.key_lt (Binary64.order_key (Prim2SF c)) (Binary64.order_key (Prim2SF b)))
    by (intros H; apply (gt_key b c Hb Ec) in H; congruence).
  exfalso. revert E Nab Nbc. unfold Binary64.key_lt.
  destruct (Binary64.order_key (Prim2SF a)) as [[a1 a2] a3],
    (Binary64.order_key (Prim2SF b)) as [[b1 b2] b3],
    (Binary64.order_key (Prim2SF c)) as [[c1 c2] c3]. lia.
Qed.

(** Below a number that is not above a third. *)
Lemma gt_true_false_trans (a b c : float) :
  Binary64.gt a b = true -> Binary64.gt a c = false ->
  Binary64.gt b c = false.
Proof.
  intros Hab Hac.
  destruct (spec_float_nan_dec (Prim2SF a)) as [Ea|Ea];
    [rewrite gt_nan_false in Hab by (left; exact Ea); discriminate|].
  destruct (spec_float_nan_dec (Prim2SF b)) as [Eb|Eb];
    [rewrite gt_nan_false in Hab by (right; exact Eb); discriminate|].
  destruct (spec_float_nan_dec (Prim2SF c)) as [Ec|Ec];
    [apply gt_nan_false; right; exact Ec|].
  destruct (Binary64.gt b c) eqn:E; [|reflexivity].
  apply (gt_key b c Eb Ec) in E.
  apply (gt_key a b Ea Eb) in Hab.
  assert (Nac : ~ Binary64.key_lt (Binary64.order_key (Prim2SF c)) (Binary64.order_key (Prim2SF a)))
    by (intros H; apply (gt_key a c Ea Ec) in H; congruence).
  exfalso. revert E Hab Nac. unfold Binary64.key_lt.
  destruct (Binary64.order_key (Prim2SF a)) as [[a1 a2] a3],
    (Binary64.order_key (Prim2SF b)) as [[b1 b2] b3],
    (Binary64.order_key (Prim2SF c)) as [[c1 c2] c3]. lia.
Qed.

Lemma gt_irrefl (a : float) : Binary64.gt a a = false.
Proof.
  destruct (spec_float_nan_dec (Prim2SF a)) as [Ea|Ea];
    [apply gt_nan_false; left; exact Ea|].
  destruct (Binary64.gt a a) eqn:E; [|reflexivity].
  apply (gt_key a a Ea Ea) in E. exfalso. revert E. unfold Binary64.key_lt.
  destruct (Binary64.order_key (Prim2SF a)) as [[a1 a2] a3]. lia.
Qed.

(** ** Objects with number values *)

Lemma plain_get_set_same (o : Binary64.PlainObject.t) (k : string) (v : float) :
  Binary64.PlainObject.get (Binary64.PlainObject.set o k v) k = Some v.
Proof.
  unfold Binary64.PlainObject.get.
  induction o as [|[k' v'] o IH]; cbn.
  - rewrite String.eqb_refl. reflexivity.
  - destruct (String.eqb k k') eqn:E; cbn; rewrite E.
    + reflexivity.
    + exact IH.
Qed.

Lemma plain_get_set_other (o : Binary64.PlainObject.t) (k k' : string)
  (v : float) :
  k <> k' ->
  Binary64.PlainObject.get (Binary64.PlainObject.set o k v) k'
  = Binary64.PlainObject.get o k'.
Proof.
  intros Hk. unfold Binary64.PlainObject.get.
  induction o as [|[k0 v0] o IH]; cbn.
  - destruct (String.eqb k' k) eqn:E; [|reflexivity].
    apply String.eqb_eq in E. congruence.
  - destruct (String.eqb k k0) eqn:E; cbn.
    + apply String.eqb_eq in E. subst k0.
      destruct (String.eqb k' k) eqn:E'; [|reflexivity].
      apply String.eqb_eq in E'. congruence.
    + rewrite IH. reflexivity.
Qed.

Lemma plain_get_some_in (o : Binary64.PlainObject.t) (k : string) :
  In k (map fst o) <-> exists v, Binary64.PlainObject.get o k = Some v.
Proof.
  unfold Binary64.PlainObject.get.
  induction o as [|[k' v'] o IH]; cbn.
  - split; [tauto|]. intros [v Hv]. discriminate.
  - destruct (String.eqb k k') eqn:E.
    + apply String.eqb_eq in E. subst k'. split; eauto.
    + rewrite <- IH. apply String.eqb_neq in E. split.
      * intros [H|H]; [congruence|exact H].
      * auto.
Qed.

Lemma plain_index_keys_in (o : Binary64.PlainObject.t) (x : string) :
  In x (map snd (Binary64.PlainObject.index_keys o)) <->
  In x (map fst o) /\ JSObject.array_index x <> None.
Proof.
  unfold Binary64.PlainObject.index_keys.
  induction o as [|[k v] o IH]; cbn [fold_right map fst In].
  - cbn. tauto.
  - destruct (JSObject.array_index k) as [n|] eqn:E.
    + rewrite insert_index_in, IH. split.
      * intros [->|[H1 H2]]; [|tauto]. split; [auto|congruence].
      * intros [[->|H1] H2]; auto.
    + rewrite IH. split.
      * tauto.
      * intros [[->|H1] H2]; [congruence|tauto].
Qed.

Lemma plain_keys_in (o : Binary64.PlainObject.t) (x : string) :
  In x (Binary64.PlainObject.keys o) <-> In x (map fst o).
Proof.
  unfold Binary64.PlainObject.keys, Binary64.PlainObject.string_keys.
  rewrite in_app_iff, plain_index_keys_in, filter_In.
  destruct (JSObject.array_index x); split; intros H.
  - destruct H as [[H _]|[_ H]]; [exact H|discriminate].
  - left. split; [exact H|discriminate].
  - destruct H as [[_ H]|[H _]]; [congruence|exact H].
  - right. split; [exact H|reflexivity].
Qed.

(** ** Usage per appliance, in doubles *)

Lemma double_summed_snoc (l : list Binary64.UsageEntry)
  (x : Binary64.UsageEntry) (k : string) :
  Binary64.Spec.summed (l ++ [x]) k
  = if String.eqb (Binary64.appliance x) k
    then ((if Binary64.falsy (Binary64.Spec.summed l k)
           then 0 else Binary64.Spec.summed l k)
          + Binary64.usage x)%float
    else Binary64.Spec.summed l k.
Proof. unfold Binary64.Spec.summed. rewrite fold_left_app. reflexivity. Qed.

Lemma double_summed_absent (l : list Binary64.UsageEntry) (k : string) :
  (forall entry, In entry l -> Binary64.appliance entry <> k) ->
  Binary64.Spec.summed l k = 0%float.
Proof.
  induction l as [|x l IH] using rev_ind; intros H.
  - reflexivity.
  - rewrite double_summed_snoc.
    destruct (String.eqb (Binary64.appliance x) k) eqn:E.
    + apply String.eqb_eq in E. exfalso.
      apply (H x); [apply in_or_app; right; left; reflexivity|exact E].
    + apply IH. intros entry Hin. apply H, in_or_app. left. exact Hin.
Qed.

Lemma double_accumulate_snoc (l : list Binary64.UsageEntry)
  (x : Binary64.UsageEntry) :
  fold_left Binary64.EnergyTips.accumulate (l ++ [x]) []
  = Binary64.EnergyTips.accumulate
      (fold_left Binary64.EnergyTips.accumulate l []) x.
Proof. rewrite fold_left_app. reflexivity. Qed.

(** The object holds, for each appliance that occurs, its summed usage, and
    nothing for the others. *)
Lemma double_accumulate_get (l : list Binary64.UsageEntry) (k : string) :
  match Binary64.PlainObject.get
          (fold_left Binary64.EnergyTips.accumulate l []) k with
  | Some v =>
      v = Binary64.Spec.summed l k /\
      exists entry, In entry l /\ Binary64.appliance entry = k
  | None => forall entry, In entry l -> Binary64.appliance entry <> k
  end.
Proof.
  induction l as [|x l IH] using rev_ind.
  - cbn. intros entry [].
  - rewrite double_accumulate_snoc.
    unfold Binary64.EnergyTips.accumulate at 1.
    destruct (String.eqb (Binary64.appliance x) k) eqn:E.
    + apply String.eqb_eq in E. subst k. rewrite plain_get_set_same. split.
      * rewrite double_summed_snoc, String.eqb_refl.
        destruct (Binary64.PlainObject.get
                    (fold_left Binary64.EnergyTips.accumulate l [])
                    (Binary64.appliance x)) as [v|].
        -- destruct IH as [IH _]. rewrite <- IH. reflexivity.
        -- rewrite (double_summed_absent l _ IH). reflexivity.
      * exists x. split; [apply in_or_app; right; left|]; reflexivity.
    + pose proof E as E'. apply String.eqb_neq in E'.
      rewrite plain_get_set_other by exact E'.
      destruct (Binary64.PlainObject.get
                  (fold_left Binary64.EnergyTips.accumulate l []) k) as [v|].
      * destruct IH as [IH (entry & Hin & Hk)]. split.
        -- rewrite double_summed_snoc, E. exact IH.
        -- exists entry. split; [apply in_or_app; left; exact Hin|exact Hk].
      * intros entry Hin. apply in_app_or in Hin.
        destruct Hin as [Hin|[<-|[]]].
        -- apply IH. exact Hin.
        -- exact E'.
Qed.

Lemma double_accumulate_keys (l : list Binary64.UsageEntry) (k : string) :
  In k (Binary64.PlainObject.keys
          (fold_left Binary64.EnergyTips.accumulate l [])) <->
  exists entry, In entry l /\ Binary64.appliance entry = k.
Proof.
  rewrite plain_keys_in, plain_get_some_in.
  pose proof (double_accumulate_get l k) as H.
  destruct (Binary64.PlainObject.get
              (fold_left Binary64.EnergyTips.accumulate l []) k) as [v|].
  - split; [intros _; apply H|intros _; eauto].
  - split.
    + intros [v Hv]. discriminate.
    + intros (entry & Hin & Hk). exfalso. exact (H entry Hin Hk).
Qed.

Lemma double_accumulate_key_value (l : list Binary64.UsageEntry) (k : string) :
  In k (Binary64.PlainObject.keys
          (fold_left Binary64.EnergyTips.accumulate l [])) ->
  Binary64.PlainObject.get (fold_left Binary64.EnergyTips.accumulate l []) k
  = Some (Binary64.Spec.summed l k).
Proof.
  intros Hk. apply plain_keys_in, plain_get_some_in in Hk.
  destruct Hk as [v Hv].
  pose proof (double_accumulate_get l k) as H. rewrite Hv in H.
  destruct H as [-> _]. exact Hv.
Qed.

(** ** The dominant appliance, in doubles *)

Lemma double_gt_undef_true (x y : option float) :
  Binary64.EnergyTips.gt_undef x y = true ->
  exists a b, x = Some a /\ y = Some b /\ Binary64.gt a b = true.
Proof.
  destruct x as [a|], y as [b|]; cbn; try discriminate.
  intros H. exists a, b. auto.
Qed.

(** The reduce keeps its seed only while the seed is strictly larger than
    every key; otherwise it ends on the last key of largest value. *)
Lemma double_fold_pick (o : Binary64.PlainObject.t) (ks : list string)
  (seed : string) :
  (forall k, In k ks ->
     exists v, Binary64.PlainObject.get o k = Some v /\
               PrimFloat.is_nan v = false) ->
  (fold_left (Binary64.EnergyTips.pick o) ks seed = seed /\
   forall k, In k ks ->
     Binary64.EnergyTips.gt_undef
       (Binary64.PlainObject.get o seed) (Binary64.PlainObject.get o k) = true)
  \/
  (exists l1 l2 vt,
      ks = l1 ++ fold_left (Binary64.EnergyTips.pick o) ks seed :: l2 /\
      Binary64.PlainObject.get o
        (fold_left (Binary64.EnergyTips.pick o) ks seed) = Some vt /\
      (forall k, In k l1 ->
         exists v, Binary64.PlainObject.get o k = Some v /\
                   Binary64.gt v vt = false) /\
      (forall k, In k l2 ->
         exists v, Binary64.PlainObject.get o k = Some v /\
                   Binary64.gt vt v = true)).
Proof.
  induction ks as [|b ks IH] using rev_ind; intros Hdef.
  - left. split; [reflexivity|]. intros k [].
  - rewrite fold_left_app. cbn [fold_left].
    assert (Hks : forall k, In k ks ->
              exists v, Binary64.PlainObject.get o k = Some v /\
                        PrimFloat.is_nan v = false)
      by (intros k Hk; apply Hdef, in_or_app; left; exact Hk).
    destruct (Hdef b) as (vb & Hb & Nb);
      [apply in_or_app; right; left; reflexivity|].
    specialize (IH Hks).
    set (top := fold_left (Binary64.EnergyTips.pick o) ks seed) in *.
    unfold Binary64.EnergyTips.pick at 1 2 3.
    destruct (Binary64.EnergyTips.gt_undef
                (Binary64.PlainObject.get o top)
                (Binary64.PlainObject.get o b)) eqn:E.
    + destruct IH as [[Hseed Hall]|(l1 & l2 & vt & Heq & Hvt & H1 & H2)].
      * left. split; [exact Hseed|]. intros k Hk.
        apply in_app_or in Hk. destruct Hk as [Hk|[<-|[]]].
        -- apply Hall. exact Hk.
        -- rewrite <- Hseed. exact E.
      * right. exists l1, (l2 ++ [b]), vt. split; [|split; [exact Hvt|split]].
        -- rewrite Heq at 1. rewrite <- app_assoc. reflexivity.
        -- exact H1.
        -- intros k Hk. apply in_app_or in Hk. destruct Hk as [Hk|[<-|[]]].
           ++ apply H2. exact Hk.
           ++ rewrite Hvt, Hb in E. cbn in E. exists vb. auto.
    + right. exists ks, [], vb.
      split; [reflexivity|]. split; [exact Hb|]. split; [|intros k []].
      intros k Hk.
      destruct IH as [[Hseed Hall]|(l1 & l2 & vt & Heq & Hvt & H1 & H2)].
      * specialize (Hall k Hk). apply double_gt_undef_true in Hall.
        destruct Hall as (vs & vk & Hs & Hvk & Hlt).
        rewrite Hseed, Hs, Hb in E. cbn in E.
        exists vk. split; [exact Hvk|].
        exact (gt_true_false_trans vs vk vb Hlt E).
      * rewrite Hvt, Hb in E. cbn in E.
        assert (Nt : PrimFloat.is_nan vt = false).
        { destruct (Hks top) as (vt' & Hvt' & Nt).
          - rewrite Heq. apply in_or_app. right. left. reflexivity.
          - rewrite Hvt in Hvt'. injection Hvt' as <-. exact Nt. }
        rewrite Heq in Hk. apply in_app_or in Hk.
        destruct Hk as [Hk|[<-|Hk]].
        -- destruct (H1 k Hk) as (va & Ha & Hle).
           exists va. split; [exact Ha|].
           exact (gt_false_trans va vt vb Nt Hle E).
        -- exists vt. auto.
        -- destruct (H2 k Hk) as (va & Ha & Hlt).
           exists va. split; [exact Ha|].
           exact (gt_true_false_trans vt va vb Hlt E).
Qed.

(** ** The tips, in doubles *)

Lemma double_topAppliance_dominant (usageData : list Binary64.UsageEntry) :
  Forall (fun entry =>
            PrimFloat.is_nan
              (Binary64.Spec.summed usageData (Binary64.appliance entry))
            = false) usageData ->
  let o := fold_left Binary64.EnergyTips.accumulate usageData [] in
  let top :=
    fold_left (Binary64.EnergyTips.pick o) (Binary64.PlainObject.keys o)
              "General"%string in
  (usageData = [] /\ top = "General"%string) \/
  Binary64.Spec.dominant_last usageData (Binary64.PlainObject.keys o) top.
Proof.
  intros Hnan o top.
  assert (Hval : forall k, In k (Binary64.PlainObject.keys o) ->
            Binary64.PlainObject.get o k
            = Some (Binary64.Spec.summed usageData k))
    by (intros k Hk; apply double_accumulate_key_value; exact Hk).
  assert (Hdef : forall k, In k (Binary64.PlainObject.keys o) ->
            exists v, Binary64.PlainObject.get o k = Some v /\
                      PrimFloat.is_nan v = false).
  { intros k Hk. exists (Binary64.Spec.summed usageData k).
    split; [apply Hval; exact Hk|].
    apply double_accumulate_keys in Hk. destruct Hk as (entry & Hin & <-).
    rewrite Forall_forall in Hnan. apply Hnan. exact Hin. }
  destruct (double_fold_pick o (Binary64.PlainObject.keys o) "General" Hdef)
    as [[Hseed Hall]|(l1 & l2 & vt & Heq & Hvt & H1 & H2)].
  - destruct usageData as [|x l].
    + left. split; reflexivity.
    + exfalso.
      assert (Hx : In (Binary64.appliance x) (Binary64.PlainObject.keys o)).
      { apply double_accumulate_keys. exists x. split; [left|]; reflexivity. }
      apply Hall, double_gt_undef_true in Hx.
      destruct Hx as (g & _ & Hg & _ & _).
      assert (HG : In "General"%string (Binary64.PlainObject.keys o)).
      { apply plain_keys_in, plain_get_some_in. exists g. exact Hg. }
      apply Hall, double_gt_undef_true in HG.
      destruct HG as (a & b & Ha & Hb & Hab).
      rewrite Ha in Hb. injection Hb as <-.
      rewrite gt_irrefl in Hab. discriminate.
  - right. fold top in Heq, Hvt.
    assert (Htop : In top (Binary64.PlainObject.keys o))
      by (rewrite Heq; apply in_or_app; right; left; reflexivity).
    rewrite (Hval top Htop) in Hvt. injection Hvt as <-.
    exists l1, l2. split; [exact Heq|]. split.
    + intros k Hk. destruct (H1 k Hk) as (v & Hv & Hle).
      rewrite Hval in Hv
        by (rewrite Heq; apply in_or_app; left; exact Hk).
      injection Hv as <-. exact Hle.
    + intros k Hk. destruct (H2 k Hk) as (v & Hv & Hlt).
      rewrite Hval in Hv
        by (rewrite Heq; apply in_or_app; right; right; exact Hk).
      injection Hv as <-. exact Hlt.
Qed.

(** C6 fails on the code: with HVAC and Lighting tied at 10, the first key
    met is HVAC, which would earn the HVAC tip, but the reduce ends on
    Lighting and the reply holds the two generic tips only. *)
Lemma C6_counterexample :
  Binary64.Spec.categories Binary64.Sample.tie
  = ["HVAC"; "Lighting"]%string /\
  Binary64.Spec.summed Binary64.Sample.tie "HVAC" = 10%float /\
  Binary64.Spec.summed Binary64.Sample.tie "Lighting" = 10%float /\
  Binary64.Spec.dominant_first Binary64.Sample.tie = "HVAC"%string /\
  Binary64.Spec.ladder_first Binary64.Sample.tie = [EnergyTips.tip_hvac] /\
  Binary64.EnergyTips.topAppliance Binary64.Sample.tie
  = Some "Lighting"%string /\
  Binary64.EnergyTips.ladder Binary64.Sample.tie = Some [] /\
  Binary64.EnergyTips.handler Binary64.Sample.tie
  = Some (Binary64.c_json
            (Binary64.JObj
               [ ("tips"%string,
                  Binary64.JArr
                    [ Binary64.JStr EnergyTips.tip_solar;
                      Binary64.JStr EnergyTips.tip_power_strips ]) ])).
Proof. repeat (split; [reflexivity|]). reflexivity. Qed.

(** C6 as amended: for labels that name no inherited member and category
    sums that are numbers, the engine evaluates the rule ladder in order,
    with [avgDailyUsage = totalUsage / max(count, 1)]: the LED and unplug
    tips above 30, then the efficient-appliances and thermostat tips above
    50, then one appliance tip when the dominant category is HVAC or Water
    Heater.  The dominant category is a key of largest summed usage, and
    among tied keys the last one in [Object.keys] order; with no entries it
    is General. *)
Theorem C6_rule_ladder (usageData : list Binary64.UsageEntry) :
  forallb (fun entry =>
             Binary64.PlainObject.ordinary (Binary64.appliance entry))
          usageData = true ->
  Forall (fun entry =>
            PrimFloat.is_nan
              (Binary64.Spec.summed usageData (Binary64.appliance entry))
            = false) usageData ->
  let avg := Binary64.EnergyTips.avgDailyUsage usageData in
  exists (o : Binary64.PlainObject.t) (top : string),
    avg = (Binary64.Spec.sum_usage usageData
           / Binary64.Math_max
               (Binary64.of_nat (List.length usageData)) 1)%float /\
    Binary64.EnergyTips.applianceUsage usageData = Some o /\
    (forall k,
        In k (Binary64.PlainObject.keys o) <->
        exists entry, In entry usageData /\ Binary64.appliance entry = k) /\
    (forall k,
        In k (Binary64.PlainObject.keys o) ->
        Binary64.PlainObject.get o k
        = Some (Binary64.Spec.summed usageData k)) /\
    Binary64.EnergyTips.topAppliance usageData = Some top /\
    ((usageData = [] /\ top = "General"%string) \/
     Binary64.Spec.dominant_last usageData (Binary64.PlainObject.keys o) top) /\
    let ladder :=
      (if Binary64.gt avg 30
       then [EnergyTips.tip_led; EnergyTips.tip_unplug] else [])
      ++ (if Binary64.gt avg 50
          then [EnergyTips.tip_energy_star; EnergyTips.tip_thermostat]
          else [])
      ++ (if String.eqb top "HVAC" then [EnergyTips.tip_hvac]
          else if String.eqb top "Water Heater"
               then [EnergyTips.tip_water_heater]
               else []) in
    Binary64.EnergyTips.ladder usageData = Some ladder /\
    Binary64.EnergyTips.handler usageData
    = Some (Binary64.c_json
              (Binary64.JObj
                 [ ("tips"%string,
                    Binary64.JArr
                      (map Binary64.JStr
                           match ladder with
                           | [] => [EnergyTips.tip_solar;
                                    EnergyTips.tip_power_strips]
                           | _ :: _ => ladder
                           end)) ])).
Proof.
  intros Hord Hnan avg.
  set (o := fold_left Binary64.EnergyTips.accumulate usageData []).
  set (top := fold_left (Binary64.EnergyTips.pick o)
                        (Binary64.PlainObject.keys o) "General"%string).
  assert (Ho : Binary64.EnergyTips.applianceUsage usageData = Some o)
    by (unfold Binary64.EnergyTips.applianceUsage; rewrite Hord; reflexivity).
  assert (Ht : Binary64.EnergyTips.topAppliance usageData = Some top)
    by (unfold Binary64.EnergyTips.topAppliance; rewrite Ho; reflexivity).
  exists o, top.
  split.
  { unfold avg, Binary64.EnergyTips.avgDailyUsage,
      Binary64.EnergyTips.totalUsage.
    rewrite double_reduce_sum. reflexivity. }
  split; [exact Ho|].
  split; [intros k; apply double_accumulate_keys|].
  split; [intros k; apply double_accumulate_key_value|].
  split; [exact Ht|].
  split; [apply double_topAppliance_dominant; exact Hnan|].
  intros ladder.
  assert (Hl : Binary64.EnergyTips.ladder usageData = Some ladder).
  { unfold Binary64.EnergyTips.ladder. rewrite Ht. f_equal.
    unfold ladder, Binary64.EnergyTips.after_appliance,
      Binary64.EnergyTips.after_very_high, Binary64.EnergyTips.after_high.
    fold avg.
    destruct (Binary64.gt avg 30), (Binary64.gt avg 50),
      (String.eqb top "HVAC"), (String.eqb top "Water Heater");
      reflexivity. }
  split; [exact Hl|].
  unfold Binary64.EnergyTips.handler, Binary64.EnergyTips.tips.
  rewrite Hl. cbn [option_map]. unfold Binary64.EnergyTips.after_default.
  destruct ladder as [|t rest]; reflexivity.
Qed.

Lemma C6_rule_ladder_witness :
  exists top,
    Binary64.EnergyTips.topAppliance Binary64.Sample.week = Some top /\
    Binary64.Spec.dominant_last Binary64.Sample.week
      ["HVAC"; "General"; "Lighting"; "Electronics"]%string top.
Proof.
  assert (H1 : forallb
                 (fun entry =>
                    Binary64.PlainObject.ordinary (Binary64.appliance entry))
                 Binary64.Sample.week = true) by reflexivity.
  assert (H2 : Forall
                 (fun entry =>
                    PrimFloat.is_nan
                      (Binary64.Spec.summed Binary64.Sample.week
                         (Binary64.appliance entry)) = false)
                 Binary64.Sample.week)
    by (repeat constructor).
  destruct (C6_rule_ladder Binary64.Sample.week H1 H2)
    as (o & top & _ & Ho & _ & _ & Ht & Hdom & _).
  exists top. split; [exact Ht|].
  injection Ho as <-.
  destruct Hdom as [[Hnil _]|Hdom]; [discriminate Hnil|exact Hdom].
Defined.

(** ** The aggregate, in doubles *)

(** C8 fails on the code: the three entries 0.1, 0.2, 0.3 total
    0.6000000000000001 in that order and 0.6 in the reverse order, in the
    tip engine and in the bill; and three entries whose average is 30 in
    one order and above 30 in another receive different tips. *)
Lemma C8_counterexample :
  Permutation Binary64.Sample.tenths (rev Binary64.Sample.tenths) /\
  Binary64.EnergyTips.totalUsage Binary64.Sample.tenths
  = 0.6000000000000001%float /\
  Binary64.EnergyTips.totalUsage (rev Binary64.Sample.tenths) = 0.6%float /\
  Binary64.CalculateBill.totalUsage JSDate.getTime Binary64.Sample.march_2024
    Binary64.Sample.tenths = 0.6000000000000001%float /\
  Binary64.CalculateBill.totalUsage JSDate.getTime Binary64.Sample.march_2024
    (rev Binary64.Sample.tenths) = 0.6%float /\
  (0.6000000000000001 =? 0.6)%float = false /\
  Permutation Binary64.Sample.thirty Binary64.Sample.thirty_reordered /\
  Binary64.EnergyTips.avgDailyUsage Binary64.Sample.thirty = 30%float /\
  Binary64.EnergyTips.avgDailyUsage Binary64.Sample.thirty_reordered
  = 30.000000000000004%float /\
  Binary64.EnergyTips.tips Binary64.Sample.thirty
  = Some [EnergyTips.tip_solar; EnergyTips.tip_power_strips] /\
  Binary64.EnergyTips.tips Binary64.Sample.thirty_reordered
  = Some [EnergyTips.tip_led; EnergyTips.tip_unplug].
Proof.
  split; [apply Permutation_rev|].
  do 5 (split; [reflexivity|]).
  split.
  { unfold Binary64.Sample.thirty, Binary64.Sample.thirty_reordered.
    apply perm_skip, perm_swap. }
  repeat (split; [reflexivity|]). reflexivity.
Qed.

(** C8 as amended: the total is the usage fields added in the order of the
    list, starting from 0, in the tip engine and, over the kept entries,
    in the bill; a reordering permutes the kept entries and leaves their
    count unchanged; the average divides the total by [max(count, 1)];
    for no entries the total and the count are 0, the divisor is 1 and the
    average is 0, where the unguarded quotient would be [NaN]. *)
Theorem C8_totalUsage_in_store_order (Date_parse : string -> option Z)
  (r : Binary64.CalculateBill.Request) (l l' : list Binary64.UsageEntry) :
  Permutation l l' ->
  Binary64.EnergyTips.totalUsage l = Binary64.Spec.sum_usage l /\
  Binary64.CalculateBill.totalUsage Date_parse r l
  = Binary64.Spec.sum_usage
      (Binary64.CalculateBill.monthlyData Date_parse r l) /\
  Permutation (Binary64.CalculateBill.monthlyData Date_parse r l)
              (Binary64.CalculateBill.monthlyData Date_parse r l') /\
  List.length (Binary64.CalculateBill.monthlyData Date_parse r l')
  = List.length (Binary64.CalculateBill.monthlyData Date_parse r l) /\
  Binary64.EnergyTips.avgDailyUsage l
  = (Binary64.EnergyTips.totalUsage l
     / Binary64.Math_max (Binary64.of_nat (List.length l)) 1)%float /\
  (Binary64.EnergyTips.totalUsage [] = 0%float /\
   List.length (@nil Binary64.UsageEntry) = 0%nat /\
   Binary64.Math_max (Binary64.of_nat 0) 1 = 1%float /\
   Binary64.EnergyTips.avgDailyUsage [] = 0%float /\
   PrimFloat.is_nan (Binary64.EnergyTips.avgDailyUsage []) = false /\
   (Binary64.EnergyTips.totalUsage [] / Binary64.of_nat 0)%float
   = PrimFloat.nan) /\
  (Binary64.CalculateBill.monthlyData Date_parse r l = [] ->
   Binary64.CalculateBill.totalUsage Date_parse r l = 0%float /\
   Binary64.field "entriesCount"
     (Binary64.CalculateBill.billData Date_parse r l)
   = Some (Binary64.JInt 0)).
Proof.
  intros Hperm.
  split; [apply double_reduce_sum|].
  split; [apply double_bill_totalUsage_sum|].
  split; [apply double_monthlyData_perm; exact Hperm|].
  split.
  { symmetry. apply Permutation_length, double_monthlyData_perm. exact Hperm. }
  split; [reflexivity|].
  split; [repeat (split; [reflexivity|]); reflexivity|].
  intros Hnil.
  unfold Binary64.CalculateBill.totalUsage, Binary64.CalculateBill.billData.
  rewrite Hnil. split; reflexivity.
Qed.

Lemma C8_totalUsage_in_store_order_witness :
  Permutation Binary64.Sample.tenths (rev Binary64.Sample.tenths) /\
  List.length
    (Binary64.CalculateBill.monthlyData JSDate.getTime
       Binary64.Sample.march_2024 (rev Binary64.Sample.tenths))
  = List.length
      (Binary64.CalculateBill.monthlyData JSDate.getTime
         Binary64.Sample.march_2024 Binary64.Sample.tenths).
Proof.
  assert (H : Permutation Binary64.Sample.tenths (rev Binary64.Sample.tenths))
    by apply Permutation_rev.
  split; [exact H|].
  apply (C8_totalUsage_in_store_order JSDate.getTime
           Binary64.Sample.march_2024 _ _ H).
Defined.

(** ** Signs of doubles *)

Lemma binary_round_aux_sign (sx : bool) (mx ex : Z) (lx : location) :
  binary_round_aux prec emax sx mx ex lx = S754_nan \/
  binary_round_aux prec emax sx mx ex lx = S754_zero sx \/
  binary_round_aux prec emax sx mx ex lx = S754_infinity sx \/
  exists m e, binary_round_aux prec emax sx mx ex lx = S754_finite sx m e.
Proof.
  unfold binary_round_aux.
  destruct (shr_fexp prec emax mx ex lx) as [mrs' e'].
  destruct (shr_fexp prec emax _ e' loc_Exact) as [mrs'' e''].
  destruct (shr_m mrs'') as [|m|m]; auto.
  destruct (e'' <=? emax - prec); eauto 10.
Qed.

Lemma binary_round_aux_not_negative (mx ex : Z) (lx : location) :
  Binary64.not_negative (binary_round_aux prec emax false mx ex lx).
Proof.
  destruct (binary_round_aux_sign false mx ex lx)
    as [E|[E|[E|(m & e & E)]]]; rewrite E; exact I.
Qed.

Lemma not_negative_ltb_zero (x : float) :
  Binary64.not_negative (Prim2SF x) -> (x <? 0)%float = false.
Proof.
  rewrite FloatAxioms.ltb_spec.
  change (Prim2SF 0) with (S754_zero false).
  destruct (Prim2SF x) as [s|[|]| |[|] m e]; cbn; intros H;
    try reflexivity; destruct H.
Qed.

Lemma mul_100_not_negative (x : float) :
  Binary64.not_negative (Prim2SF x) -> Binary64.not_negative (Prim2SF (x * 100)%float).
Proof.
  rewrite FloatAxioms.mul_spec.
  change (Prim2SF 100) with (S754_finite false 7036874417766400 (-46)).
  unfold SF64mul, SFmul.
  destruct (Prim2SF x) as [s|[|]| |[|] m e]; cbn [Binary64.not_negative xorb];
    intros H; try exact I; try destruct H.
  apply binary_round_aux_not_negative.
Qed.

Lemma div_100_not_negative (x : float) :
  Binary64.not_negative (Prim2SF x) -> Binary64.not_negative (Prim2SF (x / 100)%float).
Proof.
  rewrite FloatAxioms.div_spec.
  change (Prim2SF 100) with (S754_finite false 7036874417766400 (-46)).
  unfold SF64div, SFdiv.
  destruct (Prim2SF x) as [s|[|]| |[|] m e]; cbn [Binary64.not_negative xorb];
    intros H; try exact I; try destruct H.
  destruct (SFdiv_core_binary prec emax (Z.pos m) e
              (Z.pos 7036874417766400) (-46)) as [[mz ez] lz].
  apply binary_round_aux_not_negative.
Qed.

Lemma of_Z_pos_not_negative (p : positive) :
  Binary64.not_negative (Prim2SF (Binary64.of_Z (Zpos p))).
Proof.
  unfold Binary64.of_Z. rewrite FloatAxioms.of_uint63_spec.
  pose proof (Uint63.to_Z_bounded (Uint63.of_Z (Z.pos p))) as Hb.
  destruct (Uint63.to_Z (Uint63.of_Z (Z.pos p))) as [|q|q];
    cbn [binary_normalize].
  - exact I.
  - unfold binary_round.
    destruct (shl_align q 0 _) as [mz ez].
    apply binary_round_aux_not_negative.
  - lia.
Qed.

Lemma Math_round_not_negative (x : float) :
  Binary64.not_negative (Prim2SF x) -> Binary64.not_negative (Prim2SF (Binary64.Math_round x)).
Proof.
  intros H. unfold Binary64.Math_round, Binary64.exact.
  destruct (Prim2SF x) as [s|s| |s m e] eqn:E; try (rewrite E; exact H).
  destruct (0 <=? e); [rewrite E; exact H|].
  destruct s; [destruct H|].
  assert (Hr : 0 <= Qfloor (inject_Z (Z.pos m) * Qpower 2 e + (1 # 2))).
  { change 0 with (Qfloor 0). apply Qfloor_resp_le.
    assert (0 <= inject_Z (Z.pos m) * Qpower 2 e)%Q.
    { apply Qmult_le_0_compat; [|apply Qpower_0_le]; discriminate. }
    lra. }
  destruct (Qfloor (inject_Z (Z.pos m) * Qpower 2 e + (1 # 2))) as [|p|p];
    cbn [Z.eqb].
  - exact I.
  - apply of_Z_pos_not_negative.
  - lia.
Qed.

Lemma SFeqb_refl (x : spec_float) : x <> S754_nan -> SFeqb x x = true.
Proof.
  unfold SFeqb, SFcompare. destruct x as [s|[|]| |[|] m e]; try reflexivity.
  - congruence.
  - intros _. rewrite Z.compare_refl.
    fold (Pos.compare m m). rewrite Pos.compare_refl. reflexivity.
  - intros _. rewrite Z.compare_refl.
    fold (Pos.compare m m). rewrite Pos.compare_refl. reflexivity.
Qed.

Lemma is_nan_spec (x : float) :
  Prim2SF x <> S754_nan -> PrimFloat.is_nan x = false.
Proof.
  intros H. unfold PrimFloat.is_nan. rewrite FloatAxioms.eqb_spec.
  rewrite (SFeqb_refl _ H). reflexivity.
Qed.

(** [Math.max(0, v)] is [NaN], [0] or a positive [v]. *)
Lemma Math_max_0_not_negative (v : float) :
  Binary64.not_negative (Prim2SF (Binary64.Math_max 0 v)).
Proof.
  unfold Binary64.Math_max.
  change (PrimFloat.is_nan 0) with false. cbn [orb].
  destruct (PrimFloat.is_nan v); [exact I|].
  destruct (0 <? v)%float eqn:E.
  - rewrite FloatAxioms.ltb_spec in E.
    change (Prim2SF 0) with (S754_zero false) in E.
    destruct (Prim2SF v) as [s|[|]| |[|] m e]; try exact I; discriminate E.
  - destruct (v <? 0)%float; [exact I|].
    change (PrimFloat.get_sign 0) with false. exact I.
Qed.

Lemma Math_max_0_clamps (v : float) :
  (v <=? 0)%float = true -> Binary64.Math_max 0 v = 0%float.
Proof.
  intros H. rewrite FloatAxioms.leb_spec in H.
  change (Prim2SF 0) with (S754_zero false) in H.
  unfold Binary64.Math_max.
  change (PrimFloat.is_nan 0) with false. cbn [orb].
  assert (Hn : PrimFloat.is_nan v = false).
  { apply is_nan_spec. intros E. rewrite E in H. discriminate H. }
  rewrite Hn.
  assert (Hlt : (0 <? v)%float = false).
  { rewrite FloatAxioms.ltb_spec.
    change (Prim2SF 0) with (S754_zero false).
    destruct (Prim2SF v) as [s|[|]| |[|] m e]; try reflexivity;
      discriminate H. }
  rewrite Hlt.
  destruct (v <? 0)%float; [reflexivity|].
  change (PrimFloat.get_sign 0) with false. reflexivity.
Qed.

(** The rounded projection is never below zero, and is zero when the trend
    line is at or below zero. *)
Lemma rounded_projection_not_negative (v : float) :
  (Binary64.Math_round (Binary64.Math_max 0 v * 100) / 100 <? 0)%float
  = false.
Proof.
  apply not_negative_ltb_zero, div_100_not_negative,
    Math_round_not_negative, mul_100_not_negative, Math_max_0_not_negative.
Qed.

Lemma rounded_projection_clamped (v : float) :
  (v <=? 0)%float = true ->
  (Binary64.Math_round (Binary64.Math_max 0 v * 100) / 100)%float = 0%float.
Proof. intros H. rewrite (Math_max_0_clamps v H). reflexivity. Qed.

(** ** Sorting by date, by the contract of the runtime *)

Section DateOrder.

Variable Date_parse : string -> option Z.

Lemma compare_dates_consistent (l : list Binary64.UsageEntry) :
  Forall (Binary64.Spec.parses Date_parse) l ->
  Binary64.Runtime.consistent
    (Binary64.PredictUsage.compare_dates Date_parse) l.
Proof.
  intros Hv. rewrite Forall_forall in Hv.
  unfold Binary64.Runtime.consistent, Binary64.PredictUsage.compare_dates.
  split; [|split; [|split]].
  - intros a b Ha Hb.
    destruct (Hv a Ha) as [ta ->], (Hv b Hb) as [tb ->]. eauto.
  - intros a Ha. destruct (Hv a Ha) as [ta ->]. f_equal. lia.
  - intros a b v w Ha Hb.
    destruct (Hv a Ha) as [ta ->], (Hv b Hb) as [tb ->].
    intros [= <-] [= <-]. lia.
  - intros a b c u v w Ha Hb Hc.
    destruct (Hv a Ha) as [ta ->], (Hv b Hb) as [tb ->],
      (Hv c Hc) as [tc ->].
    intros [= <-] [= <-] [= <-]. lia.
Qed.

Lemma stable_sort_perm (l : list Binary64.UsageEntry) :
  Permutation
    (Binary64.Runtime.stable_sort
       (Binary64.PredictUsage.compare_dates Date_parse) l) l.
Proof. apply jsarray_sort_perm. Qed.

(** With dates that all parse, the stable sort is ascending in the strong
    sense: every entry is dated no later than all that follow it. *)
Lemma stable_sort_ascending (l : list Binary64.UsageEntry) :
  Forall (Binary64.Spec.parses Date_parse) l ->
  StronglySorted (Binary64.Spec.date_le Date_parse)
    (Binary64.Runtime.stable_sort
       (Binary64.PredictUsage.compare_dates Date_parse) l).
Proof.
  intros Hv.
  set (s := Binary64.Runtime.stable_sort
              (Binary64.PredictUsage.compare_dates Date_parse) l).
  assert (Hvs : Forall (Binary64.Spec.parses Date_parse) s).
  { rewrite Forall_forall in *. intros x Hx. apply Hv.
    eapply Permutation_in; [apply stable_sort_perm|exact Hx]. }
  assert (Hs : Sorted
                 (fun a b =>
                    match Date_parse (Binary64.date a),
                          Date_parse (Binary64.date b) with
                    | Some ta, Some tb => ta <= tb
                    | _, _ => True
                    end) s).
  { apply jsarray_sort_sorted.
    - intros a b. unfold Binary64.Runtime.before,
        Binary64.PredictUsage.compare_dates.
      destruct (Date_parse (Binary64.date a)),
        (Date_parse (Binary64.date b)); try exact (fun _ => I).
      intros H. apply Z.ltb_lt in H. lia.
    - intros a b. unfold Binary64.Runtime.before,
        Binary64.PredictUsage.compare_dates.
      destruct (Date_parse (Binary64.date a)),
        (Date_parse (Binary64.date b)); try exact (fun _ => I).
      intros H. apply Z.ltb_ge in H. lia. }
  apply Sorted_StronglySorted.
  - intros a b c (ta & tb & Ha & Hb & Hab) (tb' & tc & Hb' & Hc & Hbc).
    rewrite Hb in Hb'. injection Hb' as <-.
    exists ta, tc. repeat split; try assumption. lia.
  - clearbody s. induction Hs as [|a s Hs IH Hh].
    + constructor.
    + inversion Hvs as [|? ? Ha Hrest]; subst.
      constructor; [apply IH; exact Hrest|].
      destruct Hh as [|b s' Hab]; constructor.
      inversion Hrest as [|? ? Hb _]; subst.
      destruct Ha as [ta Ha], Hb as [tb Hb].
      rewrite Ha, Hb in Hab.
      exists ta, tb. auto.
Qed.

(** Entries of one date keep their relative order. *)
Lemma stable_sort_stable (t : Z) (l : list Binary64.UsageEntry) :
  filter (Binary64.Spec.dated Date_parse t)
    (Binary64.Runtime.stable_sort
       (Binary64.PredictUsage.compare_dates Date_parse) l)
  = filter (Binary64.Spec.dated Date_parse t) l.
Proof.
  apply jsarray_sort_stable.
  intros y x. unfold Binary64.Runtime.before,
    Binary64.PredictUsage.compare_dates, Binary64.Spec.dated.
  destruct (Date_parse (Binary64.date x)) as [tx|];
    [|destruct (Date_parse (Binary64.date y)); discriminate].
  destruct (Date_parse (Binary64.date y)) as [ty|]; [|reflexivity].
  intros H Hx. apply Z.ltb_lt in H. apply Z.eqb_eq in Hx.
  apply Z.eqb_neq. lia.
Qed.

End DateOrder.

Lemma double_slice_last_suffix (k : nat) (l : list Binary64.UsageEntry) :
  (firstn (List.length l - k) l) ++ Binary64.PredictUsage.slice_last k l = l /\
  List.length (Binary64.PredictUsage.slice_last k l)
  = Nat.min (List.length l) k.
Proof.
  unfold Binary64.PredictUsage.slice_last. split.
  - apply firstn_skipn.
  - rewrite length_skipn. lia.
Qed.

(** ** The regression sums, in doubles *)

Lemma double_forEach_app (i : nat) (l1 l2 : list Binary64.UsageEntry)
  (s : Binary64.PredictUsage.Sums) :
  Binary64.PredictUsage.forEach i (l1 ++ l2) s
  = Binary64.PredictUsage.forEach (i + List.length l1) l2
      (Binary64.PredictUsage.forEach i l1 s).
Proof.
  revert i s. induction l1 as [|x l1 IH]; intros i s; cbn.
  - rewrite Nat.add_0_r. reflexivity.
  - rewrite IH. f_equal. lia.
Qed.

Lemma double_sums_snoc (l : list Binary64.UsageEntry)
  (x : Binary64.UsageEntry) :
  Binary64.PredictUsage.sums (l ++ [x])
  = Binary64.PredictUsage.step (Binary64.PredictUsage.sums l)
      (List.length l) x.
Proof.
  unfold Binary64.PredictUsage.sums. rewrite double_forEach_app. reflexivity.
Qed.

(** The loop accumulates exactly the four sums of the closed form, each in
    rank order. *)
Lemma double_sums_Sigma (l : list Binary64.UsageEntry) :
  Binary64.PredictUsage.sums l
  = Binary64.PredictUsage.mkSums
      (Binary64.Spec.Sigma Binary64.Spec.x_at (List.length l))
      (Binary64.Spec.Sigma (Binary64.Spec.y_at l) (List.length l))
      (Binary64.Spec.Sigma
         (fun i => Binary64.Spec.x_at i * Binary64.Spec.y_at l i)%float
         (List.length l))
      (Binary64.Spec.Sigma
         (fun i => Binary64.Spec.x_at i * Binary64.Spec.x_at i)%float
         (List.length l)).
Proof.
  induction l as [|x l IH] using rev_ind.
  - reflexivity.
  - rewrite double_sums_snoc, IH, length_app, Nat.add_comm.
    cbn [List.length plus].
    unfold Binary64.PredictUsage.step.
    cbn [Binary64.PredictUsage.sumX Binary64.PredictUsage.sumY
         Binary64.PredictUsage.sumXY Binary64.PredictUsage.sumXX
         Binary64.Spec.Sigma].
    rewrite double_y_at_snoc_new.
    rewrite (double_Sigma_ext (Binary64.Spec.y_at (l ++ [x]))
               (Binary64.Spec.y_at l))
      by (intros i Hi; apply double_y_at_snoc_old; exact Hi).
    rewrite (double_Sigma_ext
               (fun i => Binary64.Spec.x_at i
                         * Binary64.Spec.y_at (l ++ [x]) i)%float
               (fun i => Binary64.Spec.x_at i * Binary64.Spec.y_at l i)%float)
      by (intros i Hi; rewrite double_y_at_snoc_old by exact Hi; reflexivity).
    reflexivity.
Qed.

Lemma double_slope_ols (data : list Binary64.UsageEntry) :
  Binary64.PredictUsage.slope data = Binary64.Spec.ols_slope data.
Proof.
  unfold Binary64.PredictUsage.slope, Binary64.Spec.ols_slope,
    Binary64.PredictUsage.n.
  rewrite double_sums_Sigma. reflexivity.
Qed.

Lemma double_intercept_ols (data : list Binary64.UsageEntry) :
  Binary64.PredictUsage.intercept data = Binary64.Spec.ols_intercept data.
Proof.
  unfold Binary64.PredictUsage.intercept, Binary64.Spec.ols_intercept,
    Binary64.PredictUsage.n.
  rewrite double_slope_ols, double_sums_Sigma. reflexivity.
Qed.

Lemma double_forEach_usage_ext (i : nat) (d1 d2 : list Binary64.UsageEntry)
  (s : Binary64.PredictUsage.Sums) :
  map Binary64.usage d1 = map Binary64.usage d2 ->
  Binary64.PredictUsage.forEach i d1 s = Binary64.PredictUsage.forEach i d2 s.
Proof.
  revert i s d2. induction d1 as [|x d1 IH]; intros i s [|y d2] H;
    try discriminate; cbn.
  - reflexivity.
  - cbn in H. injection H as Hxy Hrest.
    unfold Binary64.PredictUsage.step. rewrite Hxy. apply IH. exact Hrest.
Qed.

(** The fit depends on the usage values in rank order only. *)
Lemma double_regression_usage_ext (d1 d2 : list Binary64.UsageEntry) :
  map Binary64.usage d1 = map Binary64.usage d2 ->
  Binary64.PredictUsage.n d1 = Binary64.PredictUsage.n d2 /\
  Binary64.PredictUsage.slope d1 = Binary64.PredictUsage.slope d2 /\
  Binary64.PredictUsage.intercept d1 = Binary64.PredictUsage.intercept d2.
Proof.
  intros H.
  assert (Hn : Binary64.PredictUsage.n d1 = Binary64.PredictUsage.n d2).
  { unfold Binary64.PredictUsage.n.
    rewrite <- (length_map Binary64.usage d1), H, length_map. reflexivity. }
  assert (Hs : Binary64.PredictUsage.sums d1 = Binary64.PredictUsage.sums d2)
    by (apply double_forEach_usage_ext; exact H).
  assert (Hslope : Binary64.PredictUsage.slope d1
                   = Binary64.PredictUsage.slope d2)
    by (unfold Binary64.PredictUsage.slope; rewrite Hn, Hs; reflexivity).
  split; [exact Hn|]. split; [exact Hslope|].
  unfold Binary64.PredictUsage.intercept. rewrite Hn, Hs, Hslope. reflexivity.
Qed.

(** ** The forecaster, in doubles *)

Lemma double_predictions_unrolled (Date_parse : string -> option Z)
  (Array_sort : (Binary64.UsageEntry -> Binary64.UsageEntry -> option Z) ->
                list Binary64.UsageEntry -> list Binary64.UsageEntry)
  (clock : Z -> Z) (usageData : list Binary64.UsageEntry) :
  Binary64.PredictUsage.predictions Date_parse Array_sort clock usageData
  = map (Binary64.PredictUsage.predict_day clock
           (Binary64.PredictUsage.sortedData Date_parse Array_sort usageData))
        [1; 2; 3; 4; 5; 6; 7].
Proof. reflexivity. Qed.

Lemma double_undated_week_unsorted (Date_parse : string -> option Z)
  (l : list Binary64.UsageEntry) :
  Date_parse ""%string = None ->
  Permutation l Binary64.Sample.undated_week ->
  ~ StronglySorted (Binary64.Spec.date_le Date_parse) l.
Proof.
  intros Hempty Hp Hs.
  assert (Hin : In (Binary64.Sample.entry "" 2 "Lighting") l).
  { eapply Permutation_in; [apply Permutation_sym, Hp|]. cbn. tauto. }
  assert (Hlen : List.length l = 7%nat)
    by (rewrite (Permutation_length Hp); reflexivity).
  assert (Hno : forall a,
             ~ Binary64.Spec.date_le Date_parse a
                 (Binary64.Sample.entry "" 2 "Lighting") /\
             ~ Binary64.Spec.date_le Date_parse
                 (Binary64.Sample.entry "" 2 "Lighting") a).
  { intros a. split; intros (ta & tb & Ha & Hb & _);
      cbn [Binary64.date Binary64.Sample.entry] in *; congruence. }
  destruct Hs as [|a rest Hrest Hall]; [discriminate Hlen|].
  destruct Hin as [->|Hin].
  - destruct rest as [|b rest]; [discriminate Hlen|].
    inversion Hall as [|? ? Hab _]; subst.
    exact (proj2 (Hno b) Hab).
  - rewrite Forall_forall in Hall.
    exact (proj1 (Hno a) (Hall _ Hin)).
Qed.



Lemma stable_sort_contract :
  Binary64.Runtime.permutes (@Binary64.Runtime.stable_sort Binary64.UsageEntry)
  /\ Binary64.Runtime.sorts_stably
       (@Binary64.Runtime.stable_sort Binary64.UsageEntry).
Proof.
  split.
  - intros cmp l. apply jsarray_sort_perm.
  - intros cmp l _. reflexivity.
Qed.


(** C2 fails on the code: for a week of usage 12.9, 19, 49, 49, 43, 9, 12
    the second projection is 22.575 as the code computes it, a double just
    below 22.575, and just below 22.575 in exact arithmetic too, so that
    it rounds to 22.57; the reply holds 22.58, a cent above, because the
    product by 100 is itself rounded, to 2257.5. *)
Lemma C2_counterexample :
  let data :=
    Binary64.PredictUsage.sortedData JSDate.getTime
      (@Binary64.Runtime.stable_sort Binary64.UsageEntry)
      Binary64.Sample.cents in
  let v :=
    (Binary64.PredictUsage.slope data
     * (Binary64.PredictUsage.n data + Binary64.of_Z 2 - 1)
     + Binary64.PredictUsage.intercept data)%float in
  Binary64.PredictUsage.handler JSDate.getTime
    (@Binary64.Runtime.stable_sort Binary64.UsageEntry)
    Binary64.Sample.clock Binary64.Sample.cents
  = Binary64.c_json
      (Binary64.JObj
         [ ("predictions"%string,
            Binary64.JArr
              [ Binary64.JObj [ ("date", Binary64.JStr "2024-03-02");
                                ("predictedUsage", Binary64.JNum 23.6) ];
                Binary64.JObj [ ("date", Binary64.JStr "2024-03-03");
                                ("predictedUsage", Binary64.JNum 22.58) ];
                Binary64.JObj [ ("date", Binary64.JStr "2024-03-04");
                                ("predictedUsage", Binary64.JNum 21.55) ];
                Binary64.JObj [ ("date", Binary64.JStr "2024-03-05");
                                ("predictedUsage", Binary64.JNum 20.53) ];
                Binary64.JObj [ ("date", Binary64.JStr "2024-03-06");
                                ("predictedUsage", Binary64.JNum 19.5) ];
                Binary64.JObj [ ("date", Binary64.JStr "2024-03-07");
                                ("predictedUsage", Binary64.JNum 18.47) ];
                Binary64.JObj [ ("date", Binary64.JStr "2024-03-08");
                                ("predictedUsage", Binary64.JNum 17.45) ]
              ]%string) ]) /\
  v = 22.575%float /\
  (v * 100)%float = 2257.5%float /\
  exists (exact_v exact_reply : Q) (exact_data : list UsageEntry),
    Binary64.exact v = Some exact_v /\
    Binary64.exact 22.58 = Some exact_reply /\
    Exact.entries data = Some exact_data /\
    Spec.rounded_2dp exact_v (2257 # 100) /\
    Spec.rounded_2dp (Exact.trend exact_data 2) (2257 # 100) /\
    ((2257 # 100) + (99 # 10000) < exact_reply)%Q.
Proof.
  intros data v.
  split; [reflexivity|]. split; [reflexivity|]. split; [reflexivity|].
  eexists. eexists. eexists.
  split; [vm_compute; reflexivity|].
  split; [vm_compute; reflexivity|].
  split; [vm_compute; reflexivity|].
  split.
  { split; [exists 2257; reflexivity|].
    split; [reflexivity|vm_compute; discriminate]. }
  split.
  { split; [exists 2257; reflexivity|].
    split; [reflexivity|vm_compute; discriminate]. }
  reflexivity.
Qed.

(** C2 as amended: with at least 7 entries the reply holds exactly 7
    pairs of a date and a predicted usage, for i = 1..7 in order; the i-th
    usage is [Math.round(max(0, slope * (n + i - 1) + intercept) * 100) /
    100] evaluated in doubles, which is never negative and is 0 when the
    trend line is at or below 0; the i-th date is the calendar date i days
    after the clock reading of the request, whatever the entries are. *)
Theorem C2_seven_day_projection
  (Date_parse : string -> option Z)
  (Array_sort : (Binary64.UsageEntry -> Binary64.UsageEntry -> option Z) ->
                list Binary64.UsageEntry -> list Binary64.UsageEntry)
  (clock : Z -> Z) (usageData : list Binary64.UsageEntry) :
  (7 <= List.length usageData)%nat ->
  let data :=
    Binary64.PredictUsage.sortedData Date_parse Array_sort usageData in
  let trend := fun i : Z =>
    (Binary64.PredictUsage.slope data
     * (Binary64.of_nat (List.length data) + Binary64.of_Z i - 1)
     + Binary64.PredictUsage.intercept data)%float in
  let predictedUsage := fun i : Z =>
    (Binary64.Math_round (Binary64.Math_max 0 (trend i) * 100) / 100)%float in
  Binary64.PredictUsage.handler Date_parse Array_sort clock usageData
  = Binary64.c_json
      (Binary64.JObj
         [ ("predictions"%string,
            Binary64.JArr
              (map (fun i : Z =>
                      Binary64.JObj
                        [ ("date"%string,
                           Binary64.JStr
                             (JSDate.toISODate
                                (clock i + i * JSDate.msPerDay)));
                          ("predictedUsage"%string,
                           Binary64.JSON_number (predictedUsage i)) ])
                   [1; 2; 3; 4; 5; 6; 7])) ]) /\
  (forall i : Z,
      (predictedUsage i <? 0)%float = false /\
      ((trend i <=? 0)%float = true -> predictedUsage i = 0%float) /\
      JSDate.Day (clock i + i * JSDate.msPerDay) = JSDate.Day (clock i) + i).
Proof.
  intros Hlen data trend predictedUsage.
  split.
  { unfold Binary64.PredictUsage.handler.
    destruct (List.length usageData <? 7)%nat eqn:E;
      [apply Nat.ltb_lt in E; lia|].
    rewrite double_predictions_unrolled. reflexivity. }
  intros i. split; [apply rounded_projection_not_negative|].
  split; [apply rounded_projection_clamped|].
  unfold JSDate.Day. apply Z.div_add. unfold JSDate.msPerDay. lia.
Qed.

Lemma C2_seven_day_projection_witness :
  (7 <= List.length Binary64.Sample.decline)%nat /\
  Binary64.PredictUsage.handler JSDate.getTime
    (@Binary64.Runtime.stable_sort Binary64.UsageEntry)
    Binary64.Sample.clock Binary64.Sample.decline
  = Binary64.c_json
      (Binary64.JObj
         [ ("predictions"%string,
            Binary64.JArr
              [ Binary64.JObj [ ("date", Binary64.JStr "2024-03-02");
                                ("predictedUsage", Binary64.JNum 0) ];
                Binary64.JObj [ ("date", Binary64.JStr "2024-03-03");
                                ("predictedUsage", Binary64.JNum 0) ];
                Binary64.JObj [ ("date", Binary64.JStr "2024-03-04");
                                ("predictedUsage", Binary64.JNum 0) ];
                Binary64.JObj [ ("date", Binary64.JStr "2024-03-05");
                                ("predictedUsage", Binary64.JNum 0) ];
                Binary64.JObj [ ("date", Binary64.JStr "2024-03-06");
                                ("predictedUsage", Binary64.JNum 0) ];
                Binary64.JObj [ ("date", Binary64.JStr "2024-03-07");
                                ("predictedUsage", Binary64.JNum 0) ];
                Binary64.JObj [ ("date", Binary64.JStr "2024-03-08");
                                ("predictedUsage", Binary64.JNum 0) ]
              ]%string) ]).
Proof.
  assert (H : (7 <= List.length Binary64.Sample.decline)%nat) by (cbn; lia).
  split; [exact H|].
  destruct (C2_seven_day_projection JSDate.getTime
              (@Binary64.Runtime.stable_sort Binary64.UsageEntry)
              Binary64.Sample.clock Binary64.Sample.decline H)
    as [Hreply _].
  rewrite Hreply. reflexivity.
Defined.

(** * Properties of the other handlers and of the client code *)

(** ** Decimal digits *)

Lemma digit_of_digit_char (d : Z) :
  0 <= d <= 9 -> JSDate.digit_of (JSString.digit_char d) = Some d.
Proof.
  intros H.
  assert (C : d = 0 \/ d = 1 \/ d = 2 \/ d = 3 \/ d = 4 \/ d = 5 \/ d = 6
              \/ d = 7 \/ d = 8 \/ d = 9) by lia.
  repeat (destruct C as [-> | C]; [reflexivity|]). subst d. reflexivity.
Qed.

Lemma string_length_app (a b : string) :
  String.length (a ++ b) = (String.length a + String.length b)%nat.
Proof. induction a as [|x a IH]; cbn; [reflexivity|]. rewrite IH. reflexivity. Qed.

Lemma chars_app (a b : string) :
  list_ascii_of_string (a ++ b)
  = (list_ascii_of_string a ++ list_ascii_of_string b)%list.
Proof. induction a as [|x a IH]; cbn; [reflexivity|]. rewrite IH. reflexivity. Qed.

Lemma chars_length (a : string) :
  List.length (list_ascii_of_string a) = String.length a.
Proof. induction a as [|x a IH]; cbn; [reflexivity|]. rewrite IH. reflexivity. Qed.

Lemma pad_length (w : nat) (n : Z) : String.length (JSDate.pad w n) = w.
Proof.
  revert n. induction w as [|w IH]; intros n; cbn [JSDate.pad].
  - reflexivity.
  - rewrite string_length_app, IH. cbn. lia.
Qed.

Lemma string_app_assoc (a b c : string) : ((a ++ b) ++ c = a ++ (b ++ c))%string.
Proof. induction a as [|x a IH]; cbn; [reflexivity|]. rewrite IH. reflexivity. Qed.

(** A number of exactly [w] digits prints as its [w] digits. *)
Lemma digits_pad (w : nat) (fuel : nat) (n : Z) (acc : string) :
  (1 <= w <= fuel)%nat -> 10 ^ (Z.of_nat w - 1) <= n < 10 ^ Z.of_nat w ->
  JSString.digits fuel n acc = (JSDate.pad w n ++ acc)%string.
Proof.
  revert fuel n acc. induction w as [|w IH]; intros fuel n acc Hw Hn; [lia|].
  destruct fuel as [|fuel]; [lia|].
  cbn [JSString.digits JSDate.pad]. rewrite string_app_assoc.
  change (ascii_of_N (Z.to_N (48 + n mod 10)))
    with (JSString.digit_char (n mod 10)).
  destruct w as [|w].
  - cbn in Hn. assert (E : (n <? 10) = true) by (apply Z.ltb_lt; lia).
    rewrite E. reflexivity.
  - assert (Hp : 10 ^ Z.of_nat (S (S w)) = 10 * 10 ^ Z.of_nat (S w)).
    { rewrite (Nat2Z.inj_succ (S w)), Z.pow_succ_r by lia. reflexivity. }
    assert (Hq : 10 ^ (Z.of_nat (S (S w)) - 1) = 10 * 10 ^ (Z.of_nat (S w) - 1)).
    { rewrite (Nat2Z.inj_succ (S w)).
      replace (Z.succ (Z.of_nat (S w)) - 1) with (Z.succ (Z.of_nat (S w) - 1)) by lia.
      rewrite Z.pow_succ_r by lia. reflexivity. }
    assert (Hpos : 0 < 10 ^ (Z.of_nat (S w) - 1)) by (apply Z.pow_pos_nonneg; lia).
    assert (E : (n <? 10) = false) by (apply Z.ltb_ge; lia).
    rewrite E. rewrite (IH fuel (n / 10)); [reflexivity|lia|].
    rewrite Hp, Hq in Hn. split.
    + apply Z.div_le_lower_bound; lia.
    + apply Z.div_lt_upper_bound; lia.
Qed.

Lemma digits_value_app (acc : Z) (l1 l2 : list ascii) :
  JSDate.digits_value acc (l1 ++ l2)
  = match JSDate.digits_value acc l1 with
    | Some v => JSDate.digits_value v l2
    | None => None
    end.
Proof.
  revert acc. induction l1 as [|c l1 IH]; intros acc; cbn; [reflexivity|].
  destruct (JSDate.digit_of c); [apply IH|reflexivity].
Qed.

(** Reading back [w] printed digits gives the number. *)
Lemma digits_value_pad (w : nat) (n acc : Z) :
  0 <= n < 10 ^ Z.of_nat w ->
  JSDate.digits_value acc (list_ascii_of_string (JSDate.pad w n))
  = Some (acc * 10 ^ Z.of_nat w + n).
Proof.
  revert n acc. induction w as [|w IH]; intros n acc Hn.
  - cbn in *. f_equal. lia.
  - cbn [JSDate.pad]. rewrite chars_app, digits_value_app.
    assert (Hp : 10 ^ Z.of_nat (S w) = 10 * 10 ^ Z.of_nat w).
    { rewrite Nat2Z.inj_succ, Z.pow_succ_r by lia. reflexivity. }
    rewrite Hp in *.
    assert (Hpos : 0 < 10 ^ Z.of_nat w) by (apply Z.pow_pos_nonneg; lia).
    rewrite IH.
    + cbn [list_ascii_of_string JSDate.digits_value].
      change (ascii_of_N (Z.to_N (48 + n mod 10)))
        with (JSString.digit_char (n mod 10)).
      rewrite digit_of_digit_char
        by (pose proof (Z.mod_pos_bound n 10 ltac:(lia)); lia).
      f_equal. pose proof (Z.div_mod n 10 ltac:(lia)). lia.
    + split; [apply Z.div_pos; lia|apply Z.div_lt_upper_bound; lia].
Qed.

Lemma digits_value_pad_0 (w : nat) (n : Z) :
  0 <= n < 10 ^ Z.of_nat w ->
  JSDate.digits_value 0 (list_ascii_of_string (JSDate.pad w n)) = Some n.
Proof. intros H. rewrite digits_value_pad by exact H. reflexivity. Qed.

(** ** The calendar *)

(** The day number of the civil date of a day number is that day number,
    and the day of the month is between 1 and 31. *)
Lemma civil_round_trip (z : Z) :
  let '(y, m, d) := JSDate.civil_from_days z in
  JSDate.days_from_civil y m d = z /\ 1 <= m <= 12 /\ 1 <= d <= 31.
Proof.
  unfold JSDate.civil_from_days.
  set (z' := z + 719468).
  set (era := z' / 146097).
  set (doe := z' - era * 146097).
  assert (Hdoe : 0 <= doe <= 146096).
  { unfold doe, era.
    pose proof (Z.mod_pos_bound z' 146097 ltac:(lia)) as Hm.
    rewrite Z.mod_eq in Hm by lia. lia. }
  assert (Hz : z = era * 146097 + doe - 719468) by (unfold doe, z'; lia).
  clearbody doe era. clear z'. subst z.
  set (yoe := (doe - doe / 1460 + doe / 36524 - doe / 146096) / 365).
  assert (Hyoe : 0 <= yoe <= 399)
    by (unfold yoe; Z.div_mod_to_equations; lia).
  set (doy := doe - (365 * yoe + yoe / 4 - yoe / 100)).
  assert (Hdoy : 0 <= doy <= 365)
    by (unfold doy, yoe; Z.div_mod_to_equations; lia).
  assert (Hdoe' : doe = yoe * 365 + yoe / 4 - yoe / 100 + doy)
    by (unfold doy; lia).
  clearbody doy. clearbody yoe.
  set (mp := (5 * doy + 2) / 153).
  assert (Hmp : 0 <= mp <= 11) by (unfold mp; Z.div_mod_to_equations; lia).
  set (d := doy - (153 * mp + 2) / 5 + 1).
  assert (Hd : 1 <= d <= 31)
    by (unfold d, mp; Z.div_mod_to_equations; lia).
  assert (Hdoy' : doy = (153 * mp + 2) / 5 + d - 1) by (unfold d; lia).
  clearbody d. clearbody mp.
  unfold JSDate.days_from_civil.
  destruct (mp <? 10) eqn:E; [apply Z.ltb_lt in E | apply Z.ltb_ge in E].
  - assert (E1 : (mp + 3 <=? 2) = false) by (apply Z.leb_gt; lia).
    assert (E2 : (2 <? mp + 3) = true) by (apply Z.ltb_lt; lia).
    rewrite E1, E2.
    replace (mp + 3 - 3) with mp by lia.
    replace ((yoe + era * 400) / 400) with era
      by (apply Z.div_unique with yoe; lia).
    replace (yoe + era * 400 - era * 400) with yoe by lia.
    split; [lia|]. split; lia.
  - assert (E1 : (mp - 9 <=? 2) = true) by (apply Z.leb_le; lia).
    assert (E2 : (2 <? mp - 9) = false) by (apply Z.ltb_ge; lia).
    rewrite E1, E2.
    replace (mp - 9 + 9) with mp by lia.
    replace (yoe + era * 400 + 1 - 1) with (yoe + era * 400) by lia.
    replace ((yoe + era * 400) / 400) with era
      by (apply Z.div_unique with yoe; lia).
    replace (yoe + era * 400 - era * 400) with yoe by lia.
    split; [lia|]. split; lia.
Qed.

(** ** Dates written and read back *)

Example toISOString_samples :
  JSTime.toISOString 1709294400000 = "2024-03-01T12:00:00.000Z"%string /\
  JSTime.toISOString (-1) = "1969-12-31T23:59:59.999Z"%string /\
  ListUsage.parse_timestamp "2024-03-01T24:00:00.000Z"
  = ListUsage.parse_timestamp "2024-03-02T00:00:00.000Z".
Proof. repeat split. Qed.

Lemma parse_ymd_pad (y m d : Z) :
  0 <= y <= 9999 -> 0 <= m <= 99 -> 0 <= d <= 99 ->
  JSDate.parse_ymd
    (JSDate.pad 4 y ++ "-" ++ JSDate.pad 2 m ++ "-" ++ JSDate.pad 2 d)
  = Some (y, m, d).
Proof.
  intros Hy Hm Hd.
  pose proof (digits_value_pad_0 4 y ltac:(cbn; lia)) as Py.
  pose proof (digits_value_pad_0 2 m ltac:(cbn; lia)) as Pm.
  pose proof (digits_value_pad_0 2 d ltac:(cbn; lia)) as Pd.
  unfold JSDate.parse_ymd.
  cbn [JSDate.pad append list_ascii_of_string] in *.
  rewrite Py, Pm, Pd. reflexivity.
Qed.

Lemma getTime_toISODate (t : Z) :
  0 <= JSDate.YearFromTime t <= 9999 ->
  JSDate.getTime (JSDate.toISODate t) = Some (JSDate.msPerDay * JSDate.Day t).
Proof.
  unfold JSDate.YearFromTime, JSDate.getTime, JSDate.toISODate.
  pose proof (civil_round_trip (JSDate.Day t)) as H.
  destruct (JSDate.civil_from_days (JSDate.Day t)) as [[y m] d].
  destruct H as (Hz & Hm & Hd). intros Hy.
  unfold JSDate.year_string.
  assert (E : ((0 <=? y) && (y <=? 9999))%bool = true).
  { apply andb_true_iff. split; apply Z.leb_le; lia. }
  rewrite E, parse_ymd_pad by lia.
  assert (E' : ((1 <=? m) && (m <=? 12) && (1 <=? d) && (d <=? 31))%bool = true).
  { rewrite !andb_true_iff. repeat split; apply Z.leb_le; lia. }
  rewrite E', Hz. reflexivity.
Qed.

Lemma parse_timestamp_toISOString (t : Z) :
  0 <= JSDate.YearFromTime t <= 9999 ->
  ListUsage.parse_timestamp (JSTime.toISOString t) = Some t.
Proof.
  unfold JSDate.YearFromTime, JSTime.toISOString, JSDate.toISODate.
  pose proof (civil_round_trip (JSDate.Day t)) as H.
  destruct (JSDate.civil_from_days (JSDate.Day t)) as [[y m] d].
  destruct H as (Hz & Hm & Hd). intros Hy.
  unfold JSDate.year_string.
  assert (E : ((0 <=? y) && (y <=? 9999))%bool = true).
  { apply andb_true_iff. split; apply Z.leb_le; lia. }
  rewrite E.
  set (ms := t mod JSDate.msPerDay).
  assert (Hms : 0 <= ms < 86400000)
    by (apply Z.mod_pos_bound; unfold JSDate.msPerDay; lia).
  assert (Ht : t = JSDate.msPerDay * JSDate.Day t + ms).
  { unfold ms, JSDate.Day. apply Z.div_mod. unfold JSDate.msPerDay. lia. }
  clearbody ms.
  set (h := ms / 3600000). set (n := (ms / 60000) mod 60).
  set (s := (ms / 1000) mod 60). set (f := ms mod 1000).
  assert (Hh : 0 <= h <= 23) by (unfold h; Z.div_mod_to_equations; lia).
  assert (Hn : 0 <= n <= 59) by (unfold n; Z.div_mod_to_equations; lia).
  assert (Hs : 0 <= s <= 59) by (unfold s; Z.div_mod_to_equations; lia).
  assert (Hf : 0 <= f <= 999) by (unfold f; Z.div_mod_to_equations; lia).
  assert (Hsum : h * 3600000 + n * 60000 + s * 1000 + f = ms)
    by (unfold h, n, s, f; Z.div_mod_to_equations; lia).
  clearbody h n s f.
  pose proof (digits_value_pad_0 4 y ltac:(cbn; lia)) as Py.
  pose proof (digits_value_pad_0 2 m ltac:(cbn; lia)) as Pm.
  pose proof (digits_value_pad_0 2 d ltac:(cbn; lia)) as Pd.
  pose proof (digits_value_pad_0 2 h ltac:(cbn; lia)) as Ph.
  pose proof (digits_value_pad_0 2 n ltac:(cbn; lia)) as Pn.
  pose proof (digits_value_pad_0 2 s ltac:(cbn; lia)) as Ps.
  pose proof (digits_value_pad_0 3 f ltac:(cbn; lia)) as Pf.
  unfold ListUsage.parse_timestamp, ListUsage.two_digits.
  cbn [JSDate.pad append list_ascii_of_string] in *.
  rewrite Py, Pm, Pd, Ph, Pn, Ps, Pf.
  assert (E1 : ((1 <=? m) && (m <=? 12) && (1 <=? d) && (d <=? 31))%bool
               = true).
  { rewrite !andb_true_iff. repeat split; apply Z.leb_le; lia. }
  assert (E2 : ((h <=? 23) && (n <=? 59) && (s <=? 59))%bool = true).
  { rewrite !andb_true_iff. repeat split; apply Z.leb_le; lia. }
  rewrite E1, E2. cbn [andb orb]. f_equal. rewrite Hz. lia.
Qed.

(** ** Splitting and joining *)

Lemma split_plain (c : ascii) (x : string) :
  JSString.contains c x = false -> JSString.split c x = [x].
Proof.
  induction x as [|a x IH]; cbn; [reflexivity|].
  intros H. apply orb_false_iff in H. destruct H as [Ha Hx].
  rewrite Ha, (IH Hx). reflexivity.
Qed.

Lemma split_app (c : ascii) (x rest : string) :
  JSString.contains c x = false ->
  JSString.split c (x ++ String c rest) = x :: JSString.split c rest.
Proof.
  induction x as [|a x IH]; cbn.
  - intros _. rewrite Ascii.eqb_refl. reflexivity.
  - intros H. apply orb_false_iff in H. destruct H as [Ha Hx].
    rewrite Ha, (IH Hx). reflexivity.
Qed.

Lemma contains_app (c : ascii) (a b : string) :
  JSString.contains c (a ++ b)
  = (JSString.contains c a || JSString.contains c b)%bool.
Proof.
  induction a as [|x a IH]; cbn; [reflexivity|].
  rewrite IH, orb_assoc. reflexivity.
Qed.

Lemma contains_join (c : ascii) (sep : string) (l : list string) :
  JSString.contains c sep = false ->
  Forall (fun x => JSString.contains c x = false) l ->
  JSString.contains c (JSString.join sep l) = false.
Proof.
  intros Hsep. induction 1 as [|x l Hx Hl IH]; [reflexivity|].
  destruct l as [|y l]; [exact Hx|].
  change (JSString.join sep (x :: y :: l))
    with (x ++ sep ++ JSString.join sep (y :: l))%string.
  rewrite !contains_app, Hx, Hsep, IH. reflexivity.
Qed.

(** Splitting a joined array gives the array back when no element holds
    the separator. *)
Lemma split_join (c : ascii) (l : list string) :
  l <> [] ->
  Forall (fun x => JSString.contains c x = false) l ->
  JSString.split c (JSString.join (String c EmptyString) l) = l.
Proof.
  intros Hne H. induction H as [|x l Hx Hl IH]; [congruence|].
  destruct l as [|y l]; [apply split_plain; exact Hx|].
  change (JSString.join (String c EmptyString) (x :: y :: l))
    with (x ++ String c (JSString.join (String c EmptyString) (y :: l)))%string.
  rewrite split_app by exact Hx. rewrite IH by discriminate. reflexivity.
Qed.

(** ** The store *)

Lemma kv_get_set_same (kv : KV.t) (k : string) (v : KV.record) :
  KV.get (KV.set kv k v) k = Some v.
Proof.
  unfold KV.get. induction kv as [|[k' v'] kv IH]; cbn.
  - rewrite String.eqb_refl. reflexivity.
  - destruct (String.eqb k k') eqn:E; cbn.
    + rewrite String.eqb_refl. reflexivity.
    + rewrite E. exact IH.
Qed.

Lemma kv_get_set_other (kv : KV.t) (k k' : string) (v : KV.record) :
  k <> k' -> KV.get (KV.set kv k v) k' = KV.get kv k'.
Proof.
  intros Hk. unfold KV.get. induction kv as [|[k0 v0] kv IH]; cbn.
  - destruct (String.eqb k' k) eqn:E; [|reflexivity].
    apply String.eqb_eq in E. congruence.
  - destruct (String.eqb k k0) eqn:E; cbn.
    + apply String.eqb_eq in E. subst k0.
      destruct (String.eqb k' k) eqn:E'; [|reflexivity].
      apply String.eqb_eq in E'. congruence.
    + rewrite IH. reflexivity.
Qed.

Lemma kv_get_del_same (kv : KV.t) (k : string) : KV.get (KV.del kv k) k = None.
Proof.
  unfold KV.get. induction kv as [|[k' v'] kv IH]; cbn; [reflexivity|].
  destruct (String.eqb k k') eqn:E; cbn; [exact IH|].
  rewrite E. exact IH.
Qed.

Lemma kv_get_del_other (kv : KV.t) (k k' : string) :
  k <> k' -> KV.get (KV.del kv k) k' = KV.get kv k'.
Proof.
  intros Hk. unfold KV.get. induction kv as [|[k0 v0] kv IH]; cbn; [reflexivity|].
  destruct (String.eqb k k0) eqn:E; cbn.
  - apply String.eqb_eq in E. subst k0.
    destruct (String.eqb k' k) eqn:E'; [|exact IH].
    apply String.eqb_eq in E'. congruence.
  - rewrite IH. reflexivity.
Qed.

Lemma truthy_string_some (s : string) :
  s <> EmptyString -> JSValue.truthy_string (Some s) = Some s.
Proof.
  intros H. cbn. destruct (String.eqb s "") eqn:E; [|reflexivity].
  apply String.eqb_eq in E. contradiction.
Qed.

(** ** One-time codes *)

Lemma string_app_nil_r (a : string) : (a ++ "")%string = a.
Proof. induction a as [|x a IH]; cbn; [reflexivity|]. rewrite IH. reflexivity. Qed.

Lemma digits_nonempty (fuel : nat) (n : Z) (acc : string) :
  JSString.digits (S fuel) n acc <> EmptyString.
Proof.
  revert n acc. induction fuel as [|fuel IH]; intros n acc.
  - cbn. destruct (n <? 10); discriminate.
  - cbn [JSString.digits]. destruct (n <? 10); [discriminate|]. apply IH.
Qed.

Lemma Int_toString_nonempty (n : Z) : JSString.Int_toString n <> EmptyString.
Proof.
  unfold JSString.Int_toString. destruct (n <? 0); [discriminate|].
  apply digits_nonempty.
Qed.

Lemma otp_number_range (random : Q) :
  (0 <= random)%Q -> (random < 1)%Q ->
  100000 <= Qfloor (100000 + random * 900000) <= 999999.
Proof.
  intros H0 H1. set (x := (100000 + random * 900000)%Q).
  assert (Hlo : (inject_Z 100000 <= x)%Q)
    by (unfold x; change (inject_Z 100000) with 100000%Q; lra).
  assert (Hhi : (x < inject_Z 1000000)%Q)
    by (unfold x; change (inject_Z 1000000) with 1000000%Q; lra).
  split.
  - apply Qfloor_resp_le in Hlo. rewrite Qfloor_Z in Hlo. exact Hlo.
  - pose proof (Qfloor_le x) as Hf.
    assert (Hlt : (inject_Z (Qfloor x) < inject_Z 1000000)%Q) by lra.
    rewrite <- Zlt_Qlt in Hlt. lia.
Qed.

Lemma Int_toString_six (n : Z) :
  100000 <= n <= 999999 -> JSString.Int_toString n = JSDate.pad 6 n.
Proof.
  intros H. unfold JSString.Int_toString.
  assert (E : (n <? 0) = false) by (apply Z.ltb_ge; lia). rewrite E.
  assert (Hlog : 16 <= Z.log2 n).
  { change 16 with (Z.log2 100000). apply Z.log2_le_mono. lia. }
  rewrite (digits_pad 6); [apply string_app_nil_r| |cbn; lia].
  split; [lia|]. change 6%nat with (Z.to_nat 6). lia.
Qed.

(** X1: The code of [generate-otp] has exactly six characters, all of them
    digits, and reads as a number from 100000 to 999999. *)
Theorem otp_code_is_six_digits (random : Q) :
  (0 <= random)%Q -> (random < 1)%Q ->
  String.length (Otp.generate_code random) = 6%nat /\
  exists n,
    100000 <= n <= 999999 /\
    JSDate.digits_value 0 (list_ascii_of_string (Otp.generate_code random))
    = Some n.
Proof.
  intros H0 H1. pose proof (otp_number_range random H0 H1) as Hn.
  unfold Otp.generate_code. rewrite Int_toString_six by exact Hn.
  split; [apply pad_length|].
  exists (Qfloor (100000 + random * 900000)). split; [exact Hn|].
  apply digits_value_pad_0. change (10 ^ Z.of_nat 6) with 1000000. lia.
Qed.

Lemma otp_code_is_six_digits_witness :
  (0 <= Sample2.random)%Q /\ (Sample2.random < 1)%Q /\
  String.length (Otp.generate_code Sample2.random) = 6%nat.
Proof.
  assert (H0 : (0 <= Sample2.random)%Q) by (vm_compute; discriminate).
  assert (H1 : (Sample2.random < 1)%Q) by reflexivity.
  split; [exact H0|]. split; [exact H1|].
  apply (otp_code_is_six_digits Sample2.random H0 H1).
Defined.

Lemma generate_code_nonempty (random : Q) :
  JSValue.truthy_string (Some (Otp.generate_code random))
  = Some (Otp.generate_code random).
Proof. apply truthy_string_some, Int_toString_nonempty. Qed.

(** X2: A code is accepted up to and including ten minutes after it was
    generated, whatever the store held before, and only once: the record
    is deleted and the same code is then unknown. *)
Theorem otp_verifies_once (kv : KV.t) (random : Q) (now now' now'' : Z)
  (email : string) :
  email <> EmptyString -> now' <= now + 600000 ->
  let generated := Otp.generate kv random now (Some email) in
  let otp := Otp.generate_code random in
  JSValue.code (fst generated) = 200 /\
  JSValue.prop "otp" (JSValue.payload (fst generated)) = JSValue.VStr otp /\
  Otp.verify (snd generated) now' (Some email) (Some otp)
  = (JSValue.c_json
       (JSValue.VObj
          [ ("success", JSValue.VBool true);
            ("message", JSValue.VStr "OTP verified successfully") ]%string),
     KV.del (snd generated) (Otp.key email)) /\
  Otp.verify (KV.del (snd generated) (Otp.key email)) now''
    (Some email) (Some otp)
  = (JSValue.error "OTP not found or expired" 400,
     KV.del (snd generated) (Otp.key email)).
Proof.
  intros He Hnow generated otp. subst generated otp.
  unfold Otp.generate. rewrite (truthy_string_some email He).
  cbn [fst snd]. split; [reflexivity|]. split; [reflexivity|].
  unfold Otp.verify.
  rewrite (truthy_string_some email He), generate_code_nonempty.
  rewrite kv_get_set_same, kv_get_del_same.
  split; [|reflexivity].
  unfold Otp.is_expired, Otp.otp_differs. cbn [KV.expiresAt_of KV.otp_of].
  assert (E : (now + 10 * 60 * 1000 <? now') = false) by (apply Z.ltb_ge; lia).
  rewrite E, String.eqb_refl. reflexivity.
Qed.

Lemma otp_verifies_once_witness :
  Sample2.email <> EmptyString /\
  Sample2.noon + 600000 <= Sample2.noon + 600000 /\
  fst (Otp.verify
         (snd (Otp.generate [] Sample2.random Sample2.noon (Some Sample2.email)))
         (Sample2.noon + 600000) (Some Sample2.email)
         (Some (Otp.generate_code Sample2.random)))
  = JSValue.c_json
      (JSValue.VObj
         [ ("success", JSValue.VBool true);
           ("message", JSValue.VStr "OTP verified successfully") ]%string).
Proof.
  assert (He : Sample2.email <> EmptyString) by discriminate.
  assert (Hn : Sample2.noon + 600000 <= Sample2.noon + 600000) by lia.
  split; [exact He|]. split; [exact Hn|].
  destruct (otp_verifies_once [] Sample2.random Sample2.noon
              (Sample2.noon + 600000) 0 Sample2.email He Hn)
    as (_ & _ & Hv & _).
  rewrite Hv. reflexivity.
Defined.

(** X3: After ten minutes the code is refused even when it is the right one,
    and its record is deleted. *)
Theorem otp_expires_after_ten_minutes (kv : KV.t) (random : Q) (now now' : Z)
  (email guess : string) :
  email <> EmptyString -> guess <> EmptyString -> now + 600000 < now' ->
  let kv1 := snd (Otp.generate kv random now (Some email)) in
  Otp.verify kv1 now' (Some email) (Some guess)
  = (JSValue.error "OTP has expired" 400, KV.del kv1 (Otp.key email)) /\
  KV.get (KV.del kv1 (Otp.key email)) (Otp.key email) = None.
Proof.
  intros He Hg Hnow kv1. subst kv1.
  unfold Otp.generate. rewrite (truthy_string_some email He). cbn [snd].
  split; [|apply kv_get_del_same].
  unfold Otp.verify.
  rewrite (truthy_string_some email He), (truthy_string_some guess Hg).
  rewrite kv_get_set_same.
  unfold Otp.is_expired. cbn [KV.expiresAt_of].
  assert (E : (now + 10 * 60 * 1000 <? now') = true) by (apply Z.ltb_lt; lia).
  rewrite E. reflexivity.
Qed.

Lemma otp_expires_after_ten_minutes_witness :
  Sample2.email <> EmptyString /\
  fst (Otp.verify
         (snd (Otp.generate [] Sample2.random Sample2.noon (Some Sample2.email)))
         (Sample2.noon + 600001) (Some Sample2.email)
         (Some (Otp.generate_code Sample2.random)))
  = JSValue.error "OTP has expired" 400.
Proof.
  assert (He : Sample2.email <> EmptyString) by discriminate.
  split; [exact He|].
  assert (Hg : Otp.generate_code Sample2.random <> EmptyString)
    by (vm_compute; discriminate).
  assert (Hn : Sample2.noon + 600000 < Sample2.noon + 600001) by lia.
  destruct (otp_expires_after_ten_minutes [] Sample2.random Sample2.noon
              (Sample2.noon + 600001) Sample2.email
              (Otp.generate_code Sample2.random) He Hg Hn) as [Hv _].
  rewrite Hv. reflexivity.
Defined.

(** X4: A wrong guess before the expiry is answered with "Invalid OTP" and
    changes nothing in the store: the code stays valid and the number of
    guesses is not limited. *)
Theorem otp_wrong_guess_keeps_code (kv : KV.t) (now expiresAt : Z)
  (email guess otp stored_email : string) :
  email <> EmptyString -> guess <> EmptyString ->
  KV.get kv (Otp.key email) = Some (KV.OtpRecord otp expiresAt stored_email) ->
  now <= expiresAt -> guess <> otp ->
  Otp.verify kv now (Some email) (Some guess)
  = (JSValue.error "Invalid OTP" 400, kv).
Proof.
  intros He Hg Hget Hnow Hneq. unfold Otp.verify.
  rewrite (truthy_string_some email He), (truthy_string_some guess Hg), Hget.
  unfold Otp.is_expired, Otp.otp_differs. cbn [KV.expiresAt_of KV.otp_of].
  assert (E : (expiresAt <? now) = false) by (apply Z.ltb_ge; lia).
  assert (E' : String.eqb otp guess = false)
    by (apply String.eqb_neq; congruence).
  rewrite E, E'. reflexivity.
Qed.

Lemma otp_wrong_guess_keeps_code_witness :
  Otp.verify [(Otp.key Sample2.email,
               KV.OtpRecord "550000" (Sample2.noon + 600000) Sample2.email)]
    Sample2.noon (Some Sample2.email) (Some "000000"%string)
  = (JSValue.error "Invalid OTP" 400,
     [(Otp.key Sample2.email,
       KV.OtpRecord "550000" (Sample2.noon + 600000) Sample2.email)]).
Proof.
  apply (otp_wrong_guess_keeps_code _ Sample2.noon (Sample2.noon + 600000)
           Sample2.email "000000" "550000" Sample2.email).
  - discriminate.
  - discriminate.
  - reflexivity.
  - lia.
  - discriminate.
Defined.

(** ** Keys *)

Lemma otp_key_inj (a b : string) : Otp.key a = Otp.key b -> a = b.
Proof. unfold Otp.key. cbn. intros H. injection H as H. exact H. Qed.

Lemma goal_key_inj (a b : string) : EnergyGoal.key a = EnergyGoal.key b -> a = b.
Proof. unfold EnergyGoal.key. cbn. intros H. injection H as H. exact H. Qed.

Lemma alert_key_inj (a b : string) :
  AlertSettings.key a = AlertSettings.key b -> a = b.
Proof. unfold AlertSettings.key. cbn. intros H. injection H as H. exact H. Qed.

Lemma keys_disjoint (a b c : string) :
  Otp.key a <> EnergyGoal.key b /\ Otp.key a <> AlertSettings.key c /\
  EnergyGoal.key b <> AlertSettings.key c.
Proof. repeat split; discriminate. Qed.

(** Each writer changes the record of its own key at most. *)
Lemma otp_generate_frame (kv : KV.t) (random : Q) (now : Z)
  (email : option string) (k : string) :
  (forall e, email = Some e -> k <> Otp.key e) ->
  KV.get (snd (Otp.generate kv random now email)) k = KV.get kv k.
Proof.
  intros Hk. unfold Otp.generate.
  destruct (JSValue.truthy_string email) as [e|] eqn:E; [|reflexivity].
  cbn [snd]. apply kv_get_set_other. intros Heq. apply (Hk e); [|congruence].
  destruct email as [x|]; [|discriminate]. cbn in E.
  destruct (String.eqb x ""); [discriminate|congruence].
Qed.

Lemma otp_verify_frame (kv : KV.t) (now : Z) (email otp : option string)
  (k : string) :
  (forall e, email = Some e -> k <> Otp.key e) ->
  KV.get (snd (Otp.verify kv now email otp)) k = KV.get kv k.
Proof.
  intros Hk. unfold Otp.verify.
  destruct (JSValue.truthy_string email) as [e|] eqn:E; [|reflexivity].
  assert (He : k <> Otp.key e).
  { apply Hk. destruct email as [x|]; [|discriminate]. cbn in E.
    destruct (String.eqb x ""); [discriminate|congruence]. }
  destruct (JSValue.truthy_string otp) as [o|]; [|reflexivity].
  destruct (KV.get kv (Otp.key e)) as [r|]; [|reflexivity].
  destruct (Otp.is_expired now r); cbn [snd].
  - apply kv_get_del_other. congruence.
  - destruct (Otp.otp_differs r o); cbn [snd]; [reflexivity|].
    apply kv_get_del_other. congruence.
Qed.

Lemma goal_post_frame (kv : KV.t) (now : Z) (userId : option string)
  (goal : JSValue.value) (k : string) :
  (forall u, userId = Some u -> k <> EnergyGoal.key u) ->
  KV.get (snd (EnergyGoal.post_handler kv now userId goal)) k = KV.get kv k.
Proof.
  intros Hk. unfold EnergyGoal.post_handler.
  destruct (JSValue.truthy_string userId) as [u|] eqn:E; [|reflexivity].
  destruct (JSValue.truthy goal); [|reflexivity].
  cbn [snd]. apply kv_get_set_other. intros Heq. apply (Hk u); [|congruence].
  destruct userId as [x|]; [|discriminate]. cbn in E.
  destruct (String.eqb x ""); [discriminate|congruence].
Qed.

Lemma alert_post_frame (kv : KV.t) (now : Z) (userId : option string)
  (enabled threshold : JSValue.value) (k : string) :
  (forall u, userId = Some u -> k <> AlertSettings.key u) ->
  KV.get (snd (AlertSettings.post_handler kv now userId enabled threshold)) k
  = KV.get kv k.
Proof.
  intros Hk. unfold AlertSettings.post_handler.
  destruct (JSValue.truthy_string userId) as [u|] eqn:E; [|reflexivity].
  destruct (JSValue.is_undefined threshold); [reflexivity|].
  cbn [snd]. apply kv_get_set_other. intros Heq. apply (Hk u); [|congruence].
  destruct userId as [x|]; [|discriminate]. cbn in E.
  destruct (String.eqb x ""); [discriminate|congruence].
Qed.

(** ** Goals and alert settings *)

(** X5: A goal that is saved is the goal that is read back. *)
Theorem goal_round_trip (kv : KV.t) (now : Z) (userId : string)
  (goal : JSValue.value) :
  userId <> EmptyString -> JSValue.truthy goal = true ->
  let saved := EnergyGoal.post_handler kv now (Some userId) goal in
  fst saved
  = JSValue.c_json
      (JSValue.VObj [ ("success", JSValue.VBool true); ("goal", goal) ]%string) /\
  EnergyGoal.get_handler (snd saved) userId
  = JSValue.c_json (JSValue.VObj [ ("goal"%string, goal) ]).
Proof.
  intros Hu Hg saved. subst saved. unfold EnergyGoal.post_handler.
  rewrite (truthy_string_some userId Hu), Hg. cbn [fst snd].
  split; [reflexivity|].
  unfold EnergyGoal.get_handler. rewrite kv_get_set_same.
  unfold EnergyGoal.stored_goal, JSValue.or_else. cbn [KV.goal_of].
  rewrite Hg. reflexivity.
Qed.

Lemma goal_round_trip_witness :
  EnergyGoal.get_handler
    (snd (EnergyGoal.post_handler [] Sample2.noon (Some "user-1"%string)
            (JSValue.VNum 300)))
    "user-1"
  = JSValue.c_json (JSValue.VObj [ ("goal"%string, JSValue.VNum 300) ]).
Proof.
  apply (goal_round_trip [] Sample2.noon "user-1" (JSValue.VNum 300)).
  - discriminate.
  - reflexivity.
Defined.

(** X6: A falsy goal (0, the empty string, [null], [false] or a missing field)
    is refused with status 400 and the store is left as it was, whatever
    the store holds; and no request to the endpoint clears a goal: after
    any POST a user who had a truthy goal still has one. *)
Theorem goal_is_never_cleared (kv : KV.t) (now : Z) (userId : option string)
  (goal : JSValue.value) (owner : string) :
  (JSValue.truthy goal = false ->
   EnergyGoal.post_handler kv now userId goal
   = (JSValue.error "Missing required fields" 400, kv)) /\
  (JSValue.truthy
     (EnergyGoal.stored_goal (KV.get kv (EnergyGoal.key owner))) = true ->
   JSValue.truthy
     (EnergyGoal.stored_goal
        (KV.get (snd (EnergyGoal.post_handler kv now userId goal))
                (EnergyGoal.key owner))) = true).
Proof.
  split.
  - intros Hg. unfold EnergyGoal.post_handler. rewrite Hg.
    destruct (JSValue.truthy_string userId); reflexivity.
  - intros Hold. unfold EnergyGoal.post_handler.
    destruct (JSValue.truthy_string userId) as [u|]; [|exact Hold].
    destruct (JSValue.truthy goal) eqn:Hg; [|exact Hold].
    cbn [snd].
    destruct (String.eqb (EnergyGoal.key u) (EnergyGoal.key owner)) eqn:E.
    + apply String.eqb_eq in E. rewrite <- E, kv_get_set_same. exact Hg.
    + apply String.eqb_neq in E. rewrite kv_get_set_other by exact E.
      exact Hold.
Qed.

Lemma goal_is_never_cleared_witness :
  EnergyGoal.post_handler [] Sample2.noon (Some "user-1"%string)
    (JSValue.VNum 0)
  = (JSValue.error "Missing required fields" 400, []) /\
  JSValue.truthy
    (EnergyGoal.stored_goal
       (KV.get
          (snd (EnergyGoal.post_handler
                  [(EnergyGoal.key "user-1",
                    KV.GoalRecord "user-1" (JSValue.VNum 300) "")]
                  Sample2.noon (Some "user-2"%string) (JSValue.VNum 0)))
          (EnergyGoal.key "user-1"))) = true.
Proof.
  split.
  - apply (goal_is_never_cleared [] Sample2.noon (Some "user-1"%string)
             (JSValue.VNum 0) "user-1").
    reflexivity.
  - apply (goal_is_never_cleared
             [(EnergyGoal.key "user-1",
               KV.GoalRecord "user-1" (JSValue.VNum 300) "")]
             Sample2.noon (Some "user-2"%string) (JSValue.VNum 0) "user-1").
    reflexivity.
Defined.

(** X7: Alert settings are accepted whenever the user id is present and the
    threshold is not [undefined], but they are read back through
    [|| false] and [|| 50]: a truthy value comes back as saved, a falsy
    threshold (0 or [null]) comes back as 50 although the POST echoed it,
    and a falsy [enabled] comes back as [false]. *)
Theorem alert_settings_read_back (kv : KV.t) (now : Z) (userId : string)
  (enabled threshold : JSValue.value) :
  userId <> EmptyString -> JSValue.is_undefined threshold = false ->
  let saved :=
    AlertSettings.post_handler kv now (Some userId) enabled threshold in
  fst saved
  = JSValue.c_json
      (JSValue.VObj [ ("success", JSValue.VBool true);
                      ("enabled", enabled);
                      ("threshold", threshold) ]%string) /\
  AlertSettings.get_handler (snd saved) userId
  = JSValue.c_json
      (JSValue.VObj
         [ ("enabled",
            if JSValue.truthy enabled then enabled else JSValue.VBool false);
           ("threshold",
            if JSValue.truthy threshold then threshold else JSValue.VNum 50)
         ]%string).
Proof.
  intros Hu Ht saved. subst saved. unfold AlertSettings.post_handler.
  rewrite (truthy_string_some userId Hu), Ht. cbn [fst snd].
  split; [reflexivity|].
  unfold AlertSettings.get_handler. rewrite kv_get_set_same. reflexivity.
Qed.

Lemma alert_settings_read_back_witness :
  JSValue.prop "threshold"
    (JSValue.payload
       (fst (AlertSettings.post_handler [] Sample2.noon (Some "user-1"%string)
               (JSValue.VBool true) (JSValue.VNum 0))))
  = JSValue.VNum 0 /\
  JSValue.prop "threshold"
    (JSValue.payload
       (AlertSettings.get_handler
          (snd (AlertSettings.post_handler [] Sample2.noon
                  (Some "user-1"%string) (JSValue.VBool true) (JSValue.VNum 0)))
          "user-1"))
  = JSValue.VNum 50.
Proof.
  destruct (alert_settings_read_back [] Sample2.noon "user-1"
              (JSValue.VBool true) (JSValue.VNum 0)) as [Hp Hg].
  - discriminate.
  - reflexivity.
  - rewrite Hp, Hg. split; reflexivity.
Defined.

(** X8: The three families of keys never meet: saving a goal, saving alert
    settings, generating or verifying a code leaves the replies of the
    other endpoints, and the data of every other user or address, as they
    were. *)
Theorem handlers_do_not_interfere (kv : KV.t) (now : Z) (random : Q)
  (userId email otp : option string) (goal enabled threshold : JSValue.value)
  (other : string) :
  (forall s, userId = Some s -> s <> other) ->
  (forall s, email = Some s -> s <> other) ->
  let kv_goal := snd (EnergyGoal.post_handler kv now userId goal) in
  let kv_alert :=
    snd (AlertSettings.post_handler kv now userId enabled threshold) in
  let kv_otp := snd (Otp.generate kv random now email) in
  let kv_verify := snd (Otp.verify kv now email otp) in
  (EnergyGoal.get_handler kv_goal other = EnergyGoal.get_handler kv other /\
   AlertSettings.get_handler kv_alert other
   = AlertSettings.get_handler kv other /\
   KV.get kv_otp (Otp.key other) = KV.get kv (Otp.key other) /\
   KV.get kv_verify (Otp.key other) = KV.get kv (Otp.key other)) /\
  (forall u,
      AlertSettings.get_handler kv_goal u = AlertSettings.get_handler kv u /\
      EnergyGoal.get_handler kv_alert u = EnergyGoal.get_handler kv u /\
      EnergyGoal.get_handler kv_otp u = EnergyGoal.get_handler kv u /\
      EnergyGoal.get_handler kv_verify u = EnergyGoal.get_handler kv u /\
      AlertSettings.get_handler kv_otp u = AlertSettings.get_handler kv u /\
      AlertSettings.get_handler kv_verify u = AlertSettings.get_handler kv u /\
      KV.get kv_goal (Otp.key u) = KV.get kv (Otp.key u) /\
      KV.get kv_alert (Otp.key u) = KV.get kv (Otp.key u)).
Proof.
  intros Hu He kv_goal kv_alert kv_otp kv_verify.
  subst kv_goal kv_alert kv_otp kv_verify.
  unfold EnergyGoal.get_handler, AlertSettings.get_handler.
  split.
  - split; [|split; [|split]].
    + rewrite goal_post_frame; [reflexivity|].
      intros s Hs Heq. apply goal_key_inj in Heq. apply (Hu s Hs). congruence.
    + rewrite alert_post_frame; [reflexivity|].
      intros s Hs Heq. apply alert_key_inj in Heq. apply (Hu s Hs). congruence.
    + apply otp_generate_frame.
      intros s Hs Heq. apply otp_key_inj in Heq. apply (He s Hs). congruence.
    + apply otp_verify_frame.
      intros s Hs Heq. apply otp_key_inj in Heq. apply (He s Hs). congruence.
  - intros u.
    rewrite (goal_post_frame kv now userId goal (AlertSettings.key u))
      by (intros s _; discriminate).
    rewrite (alert_post_frame kv now userId enabled threshold (EnergyGoal.key u))
      by (intros s _; discriminate).
    rewrite (otp_generate_frame kv random now email (EnergyGoal.key u))
      by (intros s _; discriminate).
    rewrite (otp_verify_frame kv now email otp (EnergyGoal.key u))
      by (intros s _; discriminate).
    rewrite (otp_generate_frame kv random now email (AlertSettings.key u))
      by (intros s _; discriminate).
    rewrite (otp_verify_frame kv now email otp (AlertSettings.key u))
      by (intros s _; discriminate).
    rewrite (goal_post_frame kv now userId goal (Otp.key u))
      by (intros s _; discriminate).
    rewrite (alert_post_frame kv now userId enabled threshold (Otp.key u))
      by (intros s _; discriminate).
    repeat split.
Qed.

Lemma handlers_do_not_interfere_witness :
  EnergyGoal.get_handler
    (snd (EnergyGoal.post_handler [] Sample2.noon (Some "user-1"%string)
            (JSValue.VNum 300)))
    "user-2"
  = EnergyGoal.get_handler [] "user-2".
Proof.
  apply (handlers_do_not_interfere [] Sample2.noon Sample2.random
           (Some "user-1"%string) (Some Sample2.email) None
           (JSValue.VNum 300) JSValue.VNull JSValue.VNull "user-2").
  - intros s Hs. injection Hs as <-. discriminate.
  - intros s Hs. injection Hs as <-. discriminate.
Defined.

(** ** The CSV export *)

Lemma split_length (c : ascii) (s : string) :
  List.length (JSString.split c s) = S (Notions.occurrences c s).
Proof.
  induction s as [|a s IH]; cbn; [reflexivity|].
  destruct (Ascii.eqb a c); cbn.
  - rewrite IH. reflexivity.
  - destruct (JSString.split c s) as [|h t]; cbn in *; lia.
Qed.

Lemma occurrences_app (c : ascii) (a b : string) :
  Notions.occurrences c (a ++ b)
  = (Notions.occurrences c a + Notions.occurrences c b)%nat.
Proof. induction a as [|x a IH]; cbn; [reflexivity|]. rewrite IH. lia. Qed.

(** X10: No cell is quoted or escaped: a row of the export splits at its commas
    into four cells plus one more for every comma inside a cell. *)
Theorem csv_row_cell_count (Number_toString : Q -> string) (entry : UsageEntry) :
  List.length
    (JSString.split JSString.comma
       (JSString.join "," (ExportCsv.row Number_toString entry)))
  = (4 + (Notions.occurrences JSString.comma (date entry)
          + Notions.occurrences JSString.comma
              (Number_toString (usage entry))
          + Notions.occurrences JSString.comma (appliance entry)
          + Notions.occurrences JSString.comma
              (Number_toString (EnergyTips.or_zero (Some (cost entry))))))%nat.
Proof.
  rewrite split_length. unfold ExportCsv.row. cbn [JSString.join].
  rewrite !occurrences_app. cbn [Notions.occurrences].
  change (if Ascii.eqb "," JSString.comma then 1%nat else 0%nat) with 1%nat.
  lia.
Qed.

(** X9: When no cell holds a comma or a line feed, the export reads back: its
    lines are the header and one line per entry, in the order of the
    store, and every line splits into its four cells. *)
Theorem csv_reads_back (Number_toString : Q -> string)
  (usageData : list UsageEntry) :
  Forall (fun entry =>
            Forall Notions.plain_cell (ExportCsv.row Number_toString entry))
         usageData ->
  map (JSString.split JSString.comma)
      (JSString.split JSString.newline
         (ExportCsv.csvContent Number_toString usageData))
  = ExportCsv.headers :: ExportCsv.rows Number_toString usageData /\
  List.length
    (JSString.split JSString.newline
       (ExportCsv.csvContent Number_toString usageData))
  = S (List.length usageData).
Proof.
  intros Hplain.
  assert (Hlines :
    JSString.split JSString.newline
      (ExportCsv.csvContent Number_toString usageData)
    = JSString.join "," ExportCsv.headers
      :: map (fun r => JSString.join "," r)
             (ExportCsv.rows Number_toString usageData)).
  { unfold ExportCsv.csvContent. apply split_join; [discriminate|].
    constructor; [reflexivity|].
    unfold ExportCsv.rows. rewrite map_map. apply Forall_map.
    eapply Forall_impl; [|exact Hplain].
    intros entry Hrow. apply contains_join; [reflexivity|].
    eapply Forall_impl; [|exact Hrow]. intros cell [_ H]. exact H. }
  rewrite Hlines. split.
  - cbn [map]. f_equal.
    unfold ExportCsv.rows. rewrite !map_map.
    apply map_ext_Forall. eapply Forall_impl; [|exact Hplain].
    intros entry Hrow.
    apply (split_join JSString.comma); [discriminate|].
    eapply Forall_impl; [|exact Hrow]. intros cell [H _]. exact H.
  - cbn [List.length]. unfold ExportCsv.rows. rewrite !length_map.
    reflexivity.
Qed.

Lemma csv_reads_back_witness :
  map (JSString.split JSString.comma)
      (JSString.split JSString.newline
         (ExportCsv.csvContent Sample2.render_integer Sample.march))
  = ExportCsv.headers :: ExportCsv.rows Sample2.render_integer Sample.march.
Proof.
  apply (csv_reads_back Sample2.render_integer Sample.march).
  repeat constructor.
Defined.

(** ** The bearer token *)

Lemma visible_cons (c : ascii) (r : string) :
  Auth.visible (String c r) = true ->
  Auth.http_whitespace c = false /\ Ascii.eqb c JSString.space = false /\
  Auth.visible r = true.
Proof.
  cbn [Auth.visible]. rewrite !andb_true_iff.
  intros [[Hlo Hhi] Hr]. apply N.leb_le in Hlo, Hhi.
  split; [|split; [|exact Hr]].
  - unfold Auth.http_whitespace.
    rewrite !orb_false_iff, !N.eqb_neq. lia.
  - apply Ascii.eqb_neq. intros ->. cbn in Hlo. lia.
Qed.

Lemma strip_trailing_plain (s : string) :
  s <> EmptyString -> Auth.visible s = true -> Auth.strip_trailing s = s.
Proof.
  induction s as [|c r IH]; intros Hne Hs; [congruence|].
  apply visible_cons in Hs. destruct Hs as (Hc & _ & Hr).
  cbn [Auth.strip_trailing].
  destruct r as [|c' r'].
  - cbn. rewrite Hc. reflexivity.
  - rewrite IH by (discriminate || exact Hr). reflexivity.
Qed.

Lemma strip_trailing_app (p s : string) :
  s <> EmptyString -> Auth.visible s = true ->
  Auth.strip_trailing (p ++ s) = (p ++ s)%string.
Proof.
  intros Hne Hs. induction p as [|c p IH].
  - apply strip_trailing_plain; assumption.
  - cbn [String.append Auth.strip_trailing]. rewrite IH.
    destruct (p ++ s)%string eqn:E; [|reflexivity].
    destruct p; cbn in E; [congruence|discriminate].
Qed.

Lemma visible_no_space (s : string) :
  Auth.visible s = true -> JSString.contains JSString.space s = false.
Proof.
  induction s as [|c r IH]; intros H; [reflexivity|].
  apply visible_cons in H. destruct H as (_ & Hc & Hr).
  cbn [JSString.contains]. rewrite (IH Hr), Hc. reflexivity.
Qed.

(** X11: The server recovers the access token that the client puts in the
    [Authorization] header when the token is not empty and made of visible
    ASCII characters; for the empty token the header arrives as [Bearer]
    and yields no token, as does a missing header. *)
Theorem accessToken_of_bearer (access_token : string) :
  access_token <> EmptyString ->
  Auth.visible access_token = true ->
  Auth.header access_token = ("Bearer " ++ access_token)%string /\
  Auth.accessToken (Some (Auth.header access_token)) = Some access_token /\
  Auth.header "" = "Bearer"%string /\
  Auth.accessToken (Some (Auth.header "")) = None /\
  Auth.accessToken None = None.
Proof.
  intros Hne Hs.
  assert (Hh : Auth.header access_token = ("Bearer " ++ access_token)%string).
  { unfold Auth.header, Auth.normalize, Auth.bearer.
    change (Auth.strip_leading ("Bearer " ++ access_token))
      with ("Bearer " ++ access_token)%string.
    apply strip_trailing_app; assumption. }
  split; [exact Hh|]. split; [|repeat split].
  rewrite Hh. unfold Auth.accessToken.
  change ("Bearer " ++ access_token)%string
    with ("Bearer" ++ String JSString.space access_token)%string.
  rewrite split_app by reflexivity. cbn [nth_error].
  rewrite split_plain by (apply visible_no_space; exact Hs).
  reflexivity.
Qed.

Lemma accessToken_of_bearer_witness :
  Auth.accessToken (Some (Auth.header "eyJhbGciOi.eyJzdWIi.c2ln"))
  = Some "eyJhbGciOi.eyJzdWIi.c2ln"%string.
Proof.
  apply (accessToken_of_bearer "eyJhbGciOi.eyJzdWIi.c2ln").
  - discriminate.
  - reflexivity.
Defined.

(** ** The listing of the entries *)

(** X12: The listing holds every fetched entry exactly once, ordered from the
    most recently created to the oldest, entries of one time stamp staying
    in the order of the store. *)
Theorem listing_is_newest_first (usageData : list UsageEntry) :
  Permutation (ListUsageHandler.sortedData usageData) usageData /\
  Sorted Notions.not_older (ListUsageHandler.sortedData usageData) /\
  (forall t,
      filter (Notions.created_at t) (ListUsageHandler.sortedData usageData)
      = filter (Notions.created_at t) usageData) /\
  JSValue.prop "data" (JSValue.payload (ListUsageHandler.handler usageData))
  = JSValue.VArr
      (map ListUsageHandler.entry_value
           (ListUsageHandler.sortedData usageData)).
Proof.
  unfold ListUsageHandler.sortedData.
  split; [apply jsarray_sort_perm|]. split; [|split; [|reflexivity]].
  - apply jsarray_sort_sorted.
    + intros a b. unfold ListUsageHandler.before, Notions.not_older.
      destruct (ListUsage.parse_timestamp (timestamp a)),
        (ListUsage.parse_timestamp (timestamp b)); try exact (fun _ => I).
      intros H. apply Z.ltb_lt in H. lia.
    + intros a b. unfold ListUsageHandler.before, Notions.not_older.
      destruct (ListUsage.parse_timestamp (timestamp a)),
        (ListUsage.parse_timestamp (timestamp b)); try exact (fun _ => I).
      intros H. apply Z.ltb_ge in H. lia.
  - intros t. apply jsarray_sort_stable.
    intros y x. unfold ListUsageHandler.before, Notions.created_at.
    destruct (ListUsage.parse_timestamp (timestamp x)) as [tx|];
      [|discriminate].
    destruct (ListUsage.parse_timestamp (timestamp y)) as [ty|];
      [|reflexivity].
    intros H Hx. apply Z.ltb_lt in H. apply Z.eqb_eq in Hx.
    apply Z.eqb_neq. lia.
Qed.

(** X13: A time stamp written by [toISOString] in the years 0 to 9999 reads
    back as the same instant, so two entries stamped by the server are
    listed by their instants of creation. *)
Theorem timestamp_round_trip (t : Z) :
  0 <= JSDate.YearFromTime t <= 9999 ->
  ListUsage.parse_timestamp (JSTime.toISOString t) = Some t /\
  String.length (JSTime.toISOString t) = 24%nat.
Proof.
  intros Hy. split; [apply parse_timestamp_toISOString; exact Hy|].
  unfold JSTime.toISOString, JSDate.toISODate, JSDate.YearFromTime in *.
  destruct (JSDate.civil_from_days (JSDate.Day t)) as [[y m] d].
  unfold JSDate.year_string.
  assert (E : ((0 <=? y) && (y <=? 9999))%bool = true).
  { apply andb_true_iff. split; apply Z.leb_le; lia. }
  rewrite E. rewrite !string_length_app, !pad_length. reflexivity.
Qed.

Lemma timestamp_round_trip_witness :
  ListUsage.parse_timestamp (JSTime.toISOString Sample2.noon) = Some Sample2.noon.
Proof.
  apply (timestamp_round_trip Sample2.noon). vm_compute. split; discriminate.
Defined.

(** ** Dates of the forecast *)

Lemma Day_of_midnight (z : Z) : JSDate.Day (JSDate.msPerDay * z) = z.
Proof.
  unfold JSDate.Day. rewrite Z.mul_comm. apply Z.div_mul.
  unfold JSDate.msPerDay. lia.
Qed.

(** X14: A date printed as [YYYY-MM-DD] reads back as the midnight that starts
    the same UTC day, with the same month and year; an entry dated so is
    kept by the bill of exactly that month and year. *)
Theorem date_string_round_trip (t : Z) (entry : UsageEntry)
  (r : CalculateBill.Request) :
  0 <= JSDate.YearFromTime t <= 9999 ->
  date entry = JSDate.toISODate t ->
  JSDate.getTime (JSDate.toISODate t) = Some (JSDate.msPerDay * JSDate.Day t) /\
  JSDate.getMonth (JSDate.toISODate t) = Some (JSDate.MonthFromTime t) /\
  JSDate.getFullYear (JSDate.toISODate t) = Some (JSDate.YearFromTime t) /\
  (CalculateBill.in_month r entry = true <->
   CalculateBill.month r = JSDate.MonthFromTime t + 1 /\
   CalculateBill.year r = JSDate.YearFromTime t).
Proof.
  intros Hy Hd.
  pose proof (getTime_toISODate t Hy) as Hg.
  assert (Hm : JSDate.getMonth (JSDate.toISODate t)
               = Some (JSDate.MonthFromTime t)).
  { unfold JSDate.getMonth. rewrite Hg. cbn [option_map].
    unfold JSDate.MonthFromTime. rewrite Day_of_midnight. reflexivity. }
  assert (Hf : JSDate.getFullYear (JSDate.toISODate t)
               = Some (JSDate.YearFromTime t)).
  { unfold JSDate.getFullYear. rewrite Hg. cbn [option_map].
    unfold JSDate.YearFromTime. rewrite Day_of_midnight. reflexivity. }
  split; [exact Hg|]. split; [exact Hm|]. split; [exact Hf|].
  unfold CalculateBill.in_month. rewrite Hd, Hm, Hf.
  rewrite andb_true_iff, !Z.eqb_eq. lia.
Qed.

Lemma date_string_round_trip_witness :
  JSDate.getTime (JSDate.toISODate Sample2.noon)
  = Some (JSDate.msPerDay * JSDate.Day Sample2.noon).
Proof.
  apply (date_string_round_trip Sample2.noon
           (Sample.entry (JSDate.toISODate Sample2.noon) 1 "General")
           Sample.march_2024).
  - vm_compute. split; discriminate.
  - reflexivity.
Defined.

(** X15: Every date of the forecast is a valid date: it reads back as the
    midnight that starts the day [i] days after the day of the clock. *)
Theorem forecast_dates_are_valid (clock : Z -> Z)
  (usageData : list UsageEntry) (i : Z) :
  0 <= JSDate.YearFromTime (clock i + i * JSDate.msPerDay) <= 9999 ->
  JSDate.getTime
    (PredictUsage.pdate
       (PredictUsage.predict_day clock (PredictUsage.sortedData usageData) i))
  = Some (JSDate.msPerDay * (JSDate.Day (clock i) + i)).
Proof.
  intros Hy. unfold PredictUsage.predict_day. cbn [PredictUsage.pdate].
  unfold JSDate.addDays. rewrite getTime_toISODate by exact Hy.
  do 2 f_equal. unfold JSDate.Day. apply Z.div_add.
  unfold JSDate.msPerDay. lia.
Qed.

Lemma forecast_dates_are_valid_witness :
  JSDate.getTime
    (PredictUsage.pdate
       (PredictUsage.predict_day Sample.clock
          (PredictUsage.sortedData Sample.week) 7))
  = Some (JSDate.msPerDay * (JSDate.Day (Sample.clock 7) + 7)).
Proof.
  apply (forecast_dates_are_valid Sample.clock Sample.week 7).
  vm_compute. split; discriminate.
Defined.

(** ** The fit of a linear history *)

Lemma Sigma_ext_eq (f g : nat -> Q) (k : nat) :
  (forall i, (i < k)%nat -> (f i == g i)%Q) ->
  (Spec.Sigma f k == Spec.Sigma g k)%Q.
Proof.
  induction k as [|k IH]; intros H; cbn [Spec.Sigma].
  - reflexivity.
  - rewrite IH by (intros i Hi; apply H; lia). rewrite (H k) by lia.
    reflexivity.
Qed.

Lemma Sigma_line (a b : Q) (k : nat) :
  (Spec.Sigma (fun i => a + b * Spec.x_at i) k
   == a * Spec.x_at k + b * Spec.Sigma Spec.x_at k)%Q.
Proof.
  induction k as [|k IH]; cbn [Spec.Sigma].
  - unfold Spec.x_at. cbn. ring.
  - rewrite IH, x_at_succ. ring.
Qed.

Lemma Sigma_x_line (a b : Q) (k : nat) :
  (Spec.Sigma (fun i => Spec.x_at i * (a + b * Spec.x_at i)) k
   == a * Spec.Sigma Spec.x_at k
      + b * Spec.Sigma (fun i => Spec.x_at i * Spec.x_at i) k)%Q.
Proof.
  induction k as [|k IH]; cbn [Spec.Sigma].
  - ring.
  - rewrite IH. ring.
Qed.

Lemma fit_of_line (a b : Q) (data : list UsageEntry) :
  (2 <= List.length data)%nat -> Notions.on_line a b data ->
  (PredictUsage.slope data == b)%Q /\ (PredictUsage.intercept data == a)%Q.
Proof.
  intros Hlen Hline.
  pose proof (predict_denominator_positive data Hlen) as Hpos.
  assert (Hn : (0 < PredictUsage.n data)%Q).
  { unfold PredictUsage.n. change 0%Q with (inject_Z 0).
    rewrite <- Zlt_Qlt. lia. }
  assert (Hslope : (PredictUsage.slope data == b)%Q).
  { unfold PredictUsage.slope. unfold PredictUsage.denominator in Hpos.
    rewrite sums_Sigma in *.
    cbn [PredictUsage.sumX PredictUsage.sumY PredictUsage.sumXY
         PredictUsage.sumXX] in *.
    change (PredictUsage.n data) with (Spec.x_at (List.length data)) in *.
    set (k := List.length data) in *.
    assert (HY : (Spec.Sigma (Spec.y_at data) k
                  == a * Spec.x_at k + b * Spec.Sigma Spec.x_at k)%Q).
    { rewrite <- Sigma_line. apply Sigma_ext_eq. exact Hline. }
    assert (HXY : (Spec.Sigma (fun i => Spec.x_at i * Spec.y_at data i) k
                   == a * Spec.Sigma Spec.x_at k
                      + b * Spec.Sigma (fun i => Spec.x_at i * Spec.x_at i) k)%Q).
    { rewrite <- Sigma_x_line. apply Sigma_ext_eq.
      intros i Hi. rewrite (Hline i Hi). reflexivity. }
    rewrite HY, HXY.
    set (sx := Spec.Sigma Spec.x_at k) in *.
    set (sxx := Spec.Sigma (fun i => Spec.x_at i * Spec.x_at i)%Q k) in *.
    set (n := Spec.x_at k) in *.
    field. intros H0. rewrite H0 in Hpos. discriminate Hpos. }
  split; [exact Hslope|].
  unfold PredictUsage.intercept. rewrite Hslope, sums_Sigma.
  cbn [PredictUsage.sumX PredictUsage.sumY].
  change (PredictUsage.n data) with (Spec.x_at (List.length data)) in *.
  set (k := List.length data) in *.
  assert (HY : (Spec.Sigma (Spec.y_at data) k
                == a * Spec.x_at k + b * Spec.Sigma Spec.x_at k)%Q).
  { rewrite <- Sigma_line. apply Sigma_ext_eq. exact Hline. }
  rewrite HY. field. intros H0. rewrite H0 in Hn. discriminate Hn.
Qed.

(** Rounding an integer to two decimals leaves it as it is. *)
Lemma rounded_2dp_integer (z : Z) (r : Q) :
  Spec.rounded_2dp (inject_Z z) r -> (r == inject_Z z)%Q.
Proof.
  intros ((k & Hk) & Hlo & Hhi). rewrite Hk in *.
  unfold Qdiv in *. change (/ 100)%Q with (1 # 100)%Q in *.
  assert (H1 : (inject_Z (200 * z - 1) < inject_Z (2 * k))%Q).
  { unfold Z.sub. rewrite inject_Z_plus, !inject_Z_mult.
    change (inject_Z (- (1))) with (- (1))%Q.
    change (inject_Z 200) with 200%Q. change (inject_Z 2) with 2%Q. lra. }
  assert (H2 : (inject_Z (2 * k) <= inject_Z (200 * z + 1))%Q).
  { rewrite inject_Z_plus, !inject_Z_mult.
    change (inject_Z 1) with 1%Q.
    change (inject_Z 200) with 200%Q. change (inject_Z 2) with 2%Q. lra. }
  rewrite <- Zlt_Qlt in H1. rewrite <- Zle_Qle in H2.
  assert (Hkz : k = 100 * z) by lia.
  subst k. rewrite inject_Z_mult. change (inject_Z 100) with 100%Q. ring.
Qed.

(** X16: When the usage values, in date order, lie on a line [a + b * rank]
    with integer coefficients, the fit finds that line exactly, and each
    of the seven predictions is the value of the line at the next ranks,
    or 0 where the line is below 0.  For coefficients of at most a million
    in magnitude every intermediate value of the computation is an integer
    far below [2^53], so that doubles compute the same numbers. *)
Theorem forecast_of_linear_history (clock : Z -> Z)
  (usageData : list UsageEntry) (a b i : Z) :
  (7 <= List.length usageData)%nat ->
  Forall Spec.valid_date usageData ->
  -1000000 <= a <= 1000000 ->
  -1000000 <= b <= 1000000 ->
  1 <= i <= 7 ->
  Notions.on_line (inject_Z a) (inject_Z b)
    (PredictUsage.sortedData usageData) ->
  let data := PredictUsage.sortedData usageData in
  let line := a + b * (Z.of_nat (List.length data) + i - 1) in
  let p := PredictUsage.predict_day clock data i in
  (PredictUsage.slope data == inject_Z b)%Q /\
  (PredictUsage.intercept data == inject_Z a)%Q /\
  (PredictUsage.predictedUsage p == inject_Z (Z.max 0 line))%Q.
Proof.
  intros Hlen _ _ _ _ Hline data line p.
  assert (Hdata : (2 <= List.length data)%nat)
    by (unfold data; rewrite sortedData_length; lia).
  destruct (fit_of_line (inject_Z a) (inject_Z b) data Hdata Hline)
    as [Hs Hi].
  destruct (predict_day_spec clock data i) as (_ & _ & _ & Hp & Hz).
  assert (Hv : (PredictUsage.slope data
                * (PredictUsage.n data + inject_Z i - 1)
                + PredictUsage.intercept data == inject_Z line)%Q).
  { unfold line, PredictUsage.n. rewrite Hs, Hi.
    rewrite inject_Z_plus, inject_Z_mult. unfold Z.sub.
    rewrite !inject_Z_plus. change (inject_Z (- (1))) with (- (1))%Q.
    ring. }
  split; [exact Hs|]. split; [exact Hi|].
  destruct (Z.le_gt_cases 0 line) as [H0|H0].
  - rewrite Z.max_r by exact H0.
    apply rounded_2dp_integer.
    assert (Hq : (0 <= inject_Z line)%Q)
      by (change 0%Q with (inject_Z 0); rewrite <- Zle_Qle; exact H0).
    rewrite <- Hv in Hq. specialize (Hp Hq).
    destruct Hp as ((k & Hk) & Hlo & Hhi). split; [exists k; exact Hk|].
    rewrite <- Hv. split; assumption.
  - rewrite Z.max_l by lia. apply Hz. rewrite Hv.
    change 0%Q with (inject_Z 0). rewrite <- Zle_Qle. lia.
Qed.

Lemma forecast_of_linear_history_witness :
  (PredictUsage.slope (PredictUsage.sortedData Sample.decline) == - (10))%Q /\
  (PredictUsage.intercept (PredictUsage.sortedData Sample.decline) == 60)%Q /\
  (PredictUsage.predictedUsage
     (PredictUsage.predict_day Sample.clock
        (PredictUsage.sortedData Sample.decline) 1) == 0)%Q.
Proof.
  assert (Hlen : (7 <= List.length Sample.decline)%nat) by (cbn; lia).
  assert (Hdates : Forall Spec.valid_date Sample.decline)
    by (repeat constructor; eexists; reflexivity).
  assert (Hline : Notions.on_line (inject_Z 60) (inject_Z (- (10)))
                    (PredictUsage.sortedData Sample.decline)).
  { intros j Hj. cbn in Hj.
    do 7 (destruct j as [|j]; [reflexivity|]). lia. }
  exact (forecast_of_linear_history Sample.clock Sample.decline
           60 (- (10)) 1 Hlen Hdates ltac:(lia) ltac:(lia) ltac:(lia) Hline).
Defined.

(** ** The order of the store *)

Lemma strictly_sorted_unique (l l' : list UsageEntry) :
  StronglySorted
    (fun a b => exists ta tb, JSDate.getTime (date a) = Some ta /\
                              JSDate.getTime (date b) = Some tb /\ ta < tb) l ->
  StronglySorted
    (fun a b => exists ta tb, JSDate.getTime (date a) = Some ta /\
                              JSDate.getTime (date b) = Some tb /\ ta < tb) l' ->
  Permutation l l' -> l = l'.
Proof.
  intros Hl. revert l'.
  induction Hl as [|a l Hs IH Ha]; intros l' Hl' Hp.
  - apply Permutation_nil in Hp. congruence.
  - destruct Hl' as [|b l' Hs' Hb].
    + apply Permutation_sym, Permutation_nil in Hp. discriminate.
    + assert (Hab : a = b).
      { assert (Ina : In a (b :: l'))
          by (eapply Permutation_in; [exact Hp|left; reflexivity]).
        assert (Inb : In b (a :: l))
          by (eapply Permutation_in;
              [apply Permutation_sym; exact Hp|left; reflexivity]).
        destruct Ina as [Heq|Ina]; [congruence|].
        destruct Inb as [Heq|Inb]; [congruence|].
        rewrite Forall_forall in Ha, Hb.
        destruct (Ha b Inb) as (ta & tb & Hta & Htb & Hlt).
        destruct (Hb a Ina) as (tb' & ta' & Htb' & Hta' & Hlt').
        rewrite Hta in Hta'. rewrite Htb in Htb'.
        injection Hta' as <-. injection Htb' as <-. lia. }
      subst b. f_equal. apply IH; [exact Hs'|].
      eapply Permutation_cons_inv. exact Hp.
Qed.

Lemma sort_strict (l : list UsageEntry) :
  Forall Spec.valid_date l ->
  NoDup (map (fun entry => JSDate.getTime (date entry)) l) ->
  StronglySorted
    (fun a b => exists ta tb, JSDate.getTime (date a) = Some ta /\
                              JSDate.getTime (date b) = Some tb /\ ta < tb)
    (PredictUsage.sort l).
Proof.
  intros Hv Hnd.
  pose proof (sort_strongly_sorted l Hv) as Hs.
  assert (Hnd' : NoDup (map (fun entry => JSDate.getTime (date entry))
                            (PredictUsage.sort l))).
  { eapply Permutation_NoDup; [|exact Hnd].
    apply Permutation_map, Permutation_sym, sort_perm. }
  induction Hs as [|a s Hs IH Ha]; [constructor|].
  cbn [map] in Hnd'. inversion Hnd' as [|? ? Hnotin Hrest]; subst.
  constructor; [apply IH; exact Hrest|].
  rewrite Forall_forall in *. intros b Hb.
  destruct (Ha b Hb) as (ta & tb & Hta & Htb & Hle).
  exists ta, tb. split; [exact Hta|]. split; [exact Htb|].
  assert (Hne : ta <> tb).
  { intros Heq. apply Hnotin. apply in_map_iff. exists b.
    split; [congruence|exact Hb]. }
  lia.
Qed.

(** X17: When every entry has a valid date and no two entries share a date,
    the reply of the forecaster does not depend on the order in which the
    store returns the entries. *)
Theorem forecast_ignores_store_order (clock : Z -> Z)
  (usageData usageData' : list UsageEntry) :
  Permutation usageData usageData' ->
  Forall Spec.valid_date usageData ->
  NoDup (map (fun entry => JSDate.getTime (date entry)) usageData) ->
  PredictUsage.sortedData usageData' = PredictUsage.sortedData usageData /\
  PredictUsage.handler clock usageData' = PredictUsage.handler clock usageData.
Proof.
  intros Hp Hv Hnd.
  assert (Hv' : Forall Spec.valid_date usageData').
  { rewrite Forall_forall in *. intros x Hx. apply Hv.
    eapply Permutation_in; [apply Permutation_sym; exact Hp|exact Hx]. }
  assert (Hnd' : NoDup (map (fun entry => JSDate.getTime (date entry))
                            usageData')).
  { eapply Permutation_NoDup; [|exact Hnd]. apply Permutation_map. exact Hp. }
  assert (Hsort : PredictUsage.sort usageData' = PredictUsage.sort usageData).
  { apply strictly_sorted_unique.
    - apply sort_strict; assumption.
    - apply sort_strict; assumption.
    - eapply Permutation_trans; [apply sort_perm|].
      eapply Permutation_trans; [apply Permutation_sym; exact Hp|].
      apply Permutation_sym, sort_perm. }
  assert (Hdata : PredictUsage.sortedData usageData'
                  = PredictUsage.sortedData usageData)
    by (unfold PredictUsage.sortedData; rewrite Hsort; reflexivity).
  split; [exact Hdata|].
  unfold PredictUsage.handler, PredictUsage.predictions.
  rewrite Hdata, (Permutation_length Hp). reflexivity.
Qed.

Lemma forecast_ignores_store_order_witness :
  PredictUsage.handler Sample.clock (rev Sample.week)
  = PredictUsage.handler Sample.clock Sample.week.
Proof.
  apply (forecast_ignores_store_order Sample.clock Sample.week (rev Sample.week)).
  - apply Permutation_rev.
  - repeat constructor; eexists; reflexivity.
  - vm_compute. repeat constructor; cbn; intuition discriminate.
Defined.

(** ** The shape of the forecast *)

Lemma Math_round_mono (x y : Q) :
  (x <= y)%Q -> (JS.Math_round x <= JS.Math_round y)%Q.
Proof.
  intros H. unfold JS.Math_round. rewrite <- Zle_Qle.
  apply Qfloor_resp_le. lra.
Qed.

Lemma Math_max_0_mono (x y : Q) :
  (x <= y)%Q -> (JS.Math_max 0 x <= JS.Math_max 0 y)%Q.
Proof.
  intros H.
  destruct (Math_max_0 x) as [[Hx Ex]|[Hx Ex]],
    (Math_max_0 y) as [[Hy Ey]|[Hy Ey]]; rewrite Ex, Ey; lra.
Qed.

Lemma rounded_usage_mono (x y : Q) :
  (x <= y)%Q ->
  (JS.Math_round (JS.Math_max 0 x * 100) / 100
   <= JS.Math_round (JS.Math_max 0 y * 100) / 100)%Q.
Proof.
  intros H. apply Math_max_0_mono in H.
  apply Qmult_le_compat_r; [|vm_compute; discriminate].
  apply Math_round_mono. lra.
Qed.



(** ** The appliance chart *)

Lemma add_item_assoc (acc : list Dashboard.Slice) (item : UsageEntry)
  (k : string) :
  JS.assoc k (Dashboard.add_item acc item)
  = if String.eqb k (appliance item)
    then match JS.assoc k acc with
         | Some u => Some (u + usage item)%Q
         | None => Some (usage item)
         end
    else JS.assoc k acc.
Proof.
  induction acc as [|[a u] acc IH]; cbn.
  - destruct (String.eqb k (appliance item)); reflexivity.
  - destruct (String.eqb a (appliance item)) eqn:Ea; cbn.
    + apply String.eqb_eq in Ea. subst a.
      destruct (String.eqb k (appliance item)); reflexivity.
    + rewrite IH. destruct (String.eqb k a) eqn:Ek; [|reflexivity].
      apply String.eqb_eq in Ek. subst a.
      rewrite Ea. reflexivity.
Qed.

Lemma add_item_keys (acc : list Dashboard.Slice) (item : UsageEntry) :
  map fst (Dashboard.add_item acc item)
  = if in_dec string_dec (appliance item) (map fst acc)
    then map fst acc
    else (map fst acc ++ [appliance item])%list.
Proof.
  induction acc as [|[a u] acc IH]; cbn [Dashboard.add_item map fst].
  - reflexivity.
  - destruct (String.eqb a (appliance item)) eqn:Ea.
    + apply String.eqb_eq in Ea. subst a. cbn [map fst].
      destruct (in_dec string_dec (appliance item)
                       (appliance item :: map fst acc)) as [_|Hn];
        [reflexivity|].
      exfalso. apply Hn. left. reflexivity.
    + apply String.eqb_neq in Ea. cbn [map fst]. rewrite IH.
      destruct (in_dec string_dec (appliance item) (map fst acc)) as [Hin|Hn],
        (in_dec string_dec (appliance item) (a :: map fst acc)) as [Hin'|Hn'];
        try reflexivity.
      * exfalso. apply Hn'. right. exact Hin.
      * exfalso. destruct Hin' as [Heq|Hin']; [congruence|contradiction].
Qed.

Lemma applianceData_snoc (l : list UsageEntry) (x : UsageEntry) :
  Dashboard.applianceData (l ++ [x])
  = Dashboard.add_item (Dashboard.applianceData l) x.
Proof. unfold Dashboard.applianceData. rewrite fold_left_app. reflexivity. Qed.

Lemma applianceData_assoc (l : list UsageEntry) (k : string) :
  JS.assoc k (Dashboard.applianceData l) = Notions.slice_of l k.
Proof.
  induction l as [|x l IH] using rev_ind; [reflexivity|].
  rewrite applianceData_snoc, add_item_assoc, IH.
  unfold Notions.slice_of. rewrite fold_left_app. reflexivity.
Qed.

Lemma applianceData_keys (l : list UsageEntry) :
  map fst (Dashboard.applianceData l)
  = Notions.first_occurrences (map appliance l).
Proof.
  induction l as [|x l IH] using rev_ind; [reflexivity|].
  rewrite applianceData_snoc, add_item_keys, IH.
  unfold Notions.first_occurrences. rewrite map_app, fold_left_app.
  reflexivity.
Qed.

Lemma first_occurrences_spec (labels : list string) :
  NoDup (Notions.first_occurrences labels) /\
  forall k, In k (Notions.first_occurrences labels) <-> In k labels.
Proof.
  unfold Notions.first_occurrences.
  induction labels as [|a labels [IHn IHi]] using rev_ind.
  - split; [constructor|]. intros k. reflexivity.
  - rewrite fold_left_app. cbn [fold_left].
    destruct (in_dec string_dec a (fold_left _ labels [])) as [Hin|Hn].
    + split; [exact IHn|]. intros k. rewrite in_app_iff, IHi. cbn.
      split; [auto|]. intros [H|[<-|[]]]; [exact H|].
      apply IHi. exact Hin.
    + split.
      * apply NoDup_app; [exact IHn|repeat constructor; intros []|].
        intros k Hk [<-|[]]. contradiction.
      * intros k. rewrite !in_app_iff, IHi. reflexivity.
Qed.

(** X20: The appliance chart has one slice per appliance that occurs, in the
    order in which the appliances first occur, and each slice holds the
    usage values of its appliance added in the order of the data. *)
Theorem appliance_chart_slices (energyData : list UsageEntry) :
  let slices := Dashboard.applianceData energyData in
  map fst slices = Notions.first_occurrences (map appliance energyData) /\
  NoDup (map fst slices) /\
  (forall k,
      In k (map fst slices) <->
      exists entry, In entry energyData /\ appliance entry = k) /\
  (forall k, JS.assoc k slices = Notions.slice_of energyData k) /\
  (forall k, In k (map fst slices) <-> Notions.slice_of energyData k <> None).
Proof.
  intros slices. subst slices.
  destruct (first_occurrences_spec (map appliance energyData)) as [Hn Hi].
  split; [apply applianceData_keys|].
  split; [rewrite applianceData_keys; exact Hn|].
  split.
  { intros k. rewrite applianceData_keys, Hi, in_map_iff. split.
    - intros (entry & Hk & Hin). eauto.
    - intros (entry & Hin & Hk). eauto. }
  split; [intros k; apply applianceData_assoc|].
  intros k. rewrite <- applianceData_assoc.
  rewrite (get_some_in (Dashboard.applianceData energyData) k).
  unfold JSObject.get.
  destruct (JS.assoc k (Dashboard.applianceData energyData)) as [v|].
  - split; [discriminate|eauto].
  - split; [intros [v Hv]; discriminate|congruence].
Qed.

(** ** The month before *)

(** X21: For every month number that [getMonth] can return, the month shown as
    the previous one is the calendar month before, January wrapping to
    December of the year before. *)
Theorem previous_month_is_the_month_before (currentMonth currentYear : Z) :
  0 <= currentMonth <= 11 ->
  0 <= Dashboard.previousMonth currentMonth <= 11 /\
  12 * Dashboard.previousYear currentMonth currentYear
  + Dashboard.previousMonth currentMonth
  = 12 * currentYear + currentMonth - 1.
Proof.
  intros H. unfold Dashboard.previousMonth, Dashboard.previousYear.
  destruct (currentMonth =? 0) eqn:E;
    [apply Z.eqb_eq in E | apply Z.eqb_neq in E]; lia.
Qed.

Lemma previous_month_is_the_month_before_witness :
  0 <= Dashboard.previousMonth 0 <= 11 /\
  12 * Dashboard.previousYear 0 2024 + Dashboard.previousMonth 0
  = 12 * 2024 + 0 - 1.
Proof. apply (previous_month_is_the_month_before 0 2024). lia. Defined.

(** ** The month-over-month card *)

(** X22: The card shows an improvement exactly when last month had usage and
    this month has less; without usage last month the change is 0; and
    usage that is not negative never gives a change below -100. *)
Theorem monthly_change_signs (currentMonthUsage previousMonthUsage : Q) :
  (0 <= currentMonthUsage)%Q ->
  (QuickStats.isImprovement currentMonthUsage previousMonthUsage = true <->
   (0 < previousMonthUsage)%Q /\ (currentMonthUsage < previousMonthUsage)%Q) /\
  ((previousMonthUsage <= 0)%Q ->
   QuickStats.monthlyChange currentMonthUsage previousMonthUsage = 0%Q) /\
  (- (100) <= QuickStats.monthlyChange currentMonthUsage previousMonthUsage)%Q.
Proof.
  intros Hc. unfold QuickStats.isImprovement, QuickStats.monthlyChange.
  destruct (EnergyTips.gt previousMonthUsage 0) eqn:E.
  - apply gt_true in E.
    assert (Hd : ((currentMonthUsage - previousMonthUsage) / previousMonthUsage
                  == currentMonthUsage / previousMonthUsage - 1)%Q)
      by (field; lra).
    assert (Hr : (0 <= currentMonthUsage / previousMonthUsage)%Q)
      by (apply Qle_shift_div_l; lra).
    split; [|split].
    + rewrite gt_true. rewrite Hd. split.
      * intros H. split; [exact E|].
        assert (H1 : (currentMonthUsage / previousMonthUsage < 1)%Q) by lra.
        destruct (Qlt_le_dec currentMonthUsage previousMonthUsage) as [Hlt|Hge];
          [exact Hlt|].
        exfalso.
        assert (H2 : (1 <= currentMonthUsage / previousMonthUsage)%Q)
          by (apply Qle_shift_div_l; lra).
        lra.
      * intros [_ Hlt].
        assert (H1 : (currentMonthUsage / previousMonthUsage < 1)%Q)
          by (apply Qlt_shift_div_r; lra).
        lra.
    + intros H. lra.
    + rewrite Hd. lra.
  - apply gt_false in E. split; [|split].
    + split; [discriminate|]. intros [H _]. lra.
    + reflexivity.
    + vm_compute. discriminate.
Qed.

Lemma monthly_change_signs_witness :
  QuickStats.isImprovement 80 100 = true /\
  (- (100) <= QuickStats.monthlyChange 80 100)%Q.
Proof.
  assert (H : (0 <= 80)%Q) by (vm_compute; discriminate).
  destruct (monthly_change_signs 80 100 H) as (Hi & _ & Hb).
  split; [|exact Hb].
  apply Hi. split; reflexivity.
Defined.

(** ** The goal card *)

(** X23: With a goal above 0, the card is on track exactly when the usage that
    remains is not negative, and the progress bar stays between 0 and 100
    for usage that is not negative. *)
Theorem goal_card_is_consistent (monthlyGoal currentMonthUsage : Q) :
  (0 < monthlyGoal)%Q -> (0 <= currentMonthUsage)%Q ->
  (EnergyGoals.isOnTrack monthlyGoal currentMonthUsage = true <->
   (0 <= EnergyGoals.remainingUsage monthlyGoal currentMonthUsage)%Q) /\
  (0 <= EnergyGoals.progress monthlyGoal currentMonthUsage)%Q /\
  (EnergyGoals.progress monthlyGoal currentMonthUsage <= 100)%Q.
Proof.
  intros Hg Hc.
  unfold EnergyGoals.isOnTrack, EnergyGoals.progress,
    EnergyGoals.usagePercentage, EnergyGoals.remainingUsage.
  assert (E : EnergyTips.gt monthlyGoal 0 = true) by (apply gt_true; exact Hg).
  rewrite E.
  assert (Hr : (0 <= currentMonthUsage / monthlyGoal)%Q)
    by (apply Qle_shift_div_l; lra).
  split; [|split].
  - rewrite Qle_bool_iff. split.
    + intros H.
      destruct (Qlt_le_dec monthlyGoal currentMonthUsage) as [Hlt|Hge]; [|lra].
      exfalso.
      assert (H1 : (1 < currentMonthUsage / monthlyGoal)%Q)
        by (apply Qlt_shift_div_l; lra).
      lra.
    + intros H.
      assert (H1 : (currentMonthUsage / monthlyGoal <= 1)%Q)
        by (apply Qle_shift_div_r; lra).
      lra.
  - destruct (Qle_bool (currentMonthUsage / monthlyGoal * 100) 100); lra.
  - destruct (Qle_bool (currentMonthUsage / monthlyGoal * 100) 100) eqn:E';
      [apply Qle_bool_iff in E'; exact E'|lra].
Qed.

Lemma goal_card_is_consistent_witness :
  EnergyGoals.isOnTrack 300 120 = true /\
  (EnergyGoals.progress 300 120 <= 100)%Q.
Proof.
  assert (Hg : (0 < 300)%Q) by reflexivity.
  assert (Hc : (0 <= 120)%Q) by (vm_compute; discriminate).
  destruct (goal_card_is_consistent 300 120 Hg Hc) as (Ht & _ & Hp).
  split; [|exact Hp].
  apply Ht. vm_compute. discriminate.
Defined.

(** ** Which tips appear *)

Lemma tips_cases (usageData : list UsageEntry) :
  EnergyTips.tips usageData
  = if Nat.eqb
         (List.length
            (Spec.threshold_tips (EnergyTips.avgDailyUsage usageData)
             ++ Spec.appliance_tip (EnergyTips.topAppliance usageData))) 0
    then Spec.generic_tips
    else Spec.threshold_tips (EnergyTips.avgDailyUsage usageData)
         ++ Spec.appliance_tip (EnergyTips.topAppliance usageData).
Proof.
  unfold EnergyTips.tips, EnergyTips.after_default. rewrite ladder_eq.
  destruct (Spec.threshold_tips (EnergyTips.avgDailyUsage usageData)
            ++ Spec.appliance_tip (EnergyTips.topAppliance usageData));
    reflexivity.
Qed.

